(** * gdx-ai.js steering behaviors: a shallow embedding and its properties

    The TypeScript sources under [src/] are embedded function by function.
    A JavaScript [number] is modelled by a real number of the Standard
    Library: arithmetic is exact, there is no rounding, no NaN and no
    infinity.  Where the source relies on a value that is not finite, the
    case is written out: the initial [shortestTime] of
    [CollisionAvoidance] is an [option R] with [None] for [Infinity], and
    the times of the trajectory of [Jump], which come from a square root
    and a division and are then tested, are numbers extended with [NaN]
    and the two infinities ([Number]).  Everywhere else, the statements
    whose source expression would divide by zero or take the root of a
    negative number carry the hypotheses that exclude those inputs.

    Mutating, chaining methods ([v.sub(w)] returns [v] after changing it)
    are modelled by functions returning the new value of the receiver;
    where two names denote the same object in the source (the [linear]
    field of the output buffer and a local vector) the data flow is written
    out.

    The file has two parts: the embedding, followed by the vocabulary and
    the example inputs of the statements; then the properties. *)

From Stdlib Require Import Reals Lra Psatz List Bool ZArith Lia.
From Stdlib Require String.
Import ListNotations.

Local Open Scope R_scope.

(** ** JavaScript numeric primitives *)

Module JS.

(** [Math.abs]. *)
Definition abs (x : R) : R := Rabs x.

(** [Math.sqrt], on the non-negative arguments where it is finite. *)
Definition sqrt (x : R) : R := R_sqrt.sqrt x.

(** Truncation toward zero, the quotient behind the [%] operator. *)
Definition trunc (x : R) : Z :=
    if Rle_dec 0 x then Int_part x else (- Int_part (- x))%Z.

(** [a % b]: the remainder has the sign of the dividend. *)
Definition rem (a b : R) : R := a - b * IZR (trunc (a / b)).

(** Strict equality [===] on numbers, as a boolean. *)
Definition eqb (a b : R) : bool := if Req_dec_T a b then true else false.

End JS.

(** ** gl-matrix [vec2] and [vec3]

    The vector classes delegate to the gl-matrix library; these are the
    library's functions, the output argument being the returned value. *)

Record vec2 : Type := mkVec2 { v2x : R; v2y : R }.

Module Vec2.
Definition create : vec2 := mkVec2 0 0.
Definition clone (a : vec2) : vec2 := mkVec2 (v2x a) (v2y a).
Definition copy (a : vec2) : vec2 := mkVec2 (v2x a) (v2y a).
Definition set (x y : R) : vec2 := mkVec2 x y.
Definition add (a b : vec2) : vec2 := mkVec2 (v2x a + v2x b) (v2y a + v2y b).
Definition sub (a b : vec2) : vec2 := mkVec2 (v2x a - v2x b) (v2y a - v2y b).
Definition scale (a : vec2) (s : R) : vec2 := mkVec2 (v2x a * s) (v2y a * s).
Definition scaleAndAdd (a b : vec2) (s : R) : vec2 :=
    mkVec2 (v2x a + v2x b * s) (v2y a + v2y b * s).
Definition sqrLen (a : vec2) : R := v2x a * v2x a + v2y a * v2y a.
Definition len (a : vec2) : R := JS.sqrt (sqrLen a).
Definition squaredDistance (a b : vec2) : R :=
    let x := v2x b - v2x a in
    let y := v2y b - v2y a in
    x * x + y * y.
Definition distance (a b : vec2) : R := JS.sqrt (squaredDistance a b).
Definition dot (a b : vec2) : R := v2x a * v2x b + v2y a * v2y b.
(** [normalize] leaves a zero vector as it is. *)
Definition normalize (a : vec2) : vec2 :=
    let l := sqrLen a in
    if Rgt_dec l 0
    then let l' := 1 / JS.sqrt l in mkVec2 (v2x a * l') (v2y a * l')
    else a.
End Vec2.

Record vec3 : Type := mkVec3 { v3x : R; v3y : R; v3z : R }.

Module Vec3.
Definition create : vec3 := mkVec3 0 0 0.
Definition clone (a : vec3) : vec3 := mkVec3 (v3x a) (v3y a) (v3z a).
Definition copy (a : vec3) : vec3 := mkVec3 (v3x a) (v3y a) (v3z a).
Definition set (x y z : R) : vec3 := mkVec3 x y z.
Definition add (a b : vec3) : vec3 :=
    mkVec3 (v3x a + v3x b) (v3y a + v3y b) (v3z a + v3z b).
Definition sub (a b : vec3) : vec3 :=
    mkVec3 (v3x a - v3x b) (v3y a - v3y b) (v3z a - v3z b).
Definition scale (a : vec3) (s : R) : vec3 :=
    mkVec3 (v3x a * s) (v3y a * s) (v3z a * s).
Definition scaleAndAdd (a b : vec3) (s : R) : vec3 :=
    mkVec3 (v3x a + v3x b * s) (v3y a + v3y b * s) (v3z a + v3z b * s).
Definition squaredLength (a : vec3) : R :=
    v3x a * v3x a + v3y a * v3y a + v3z a * v3z a.
Definition length (a : vec3) : R := JS.sqrt (squaredLength a).
Definition squaredDistance (a b : vec3) : R :=
    let x := v3x b - v3x a in
    let y := v3y b - v3y a in
    let z := v3z b - v3z a in
    x * x + y * y + z * z.
Definition distance (a b : vec3) : R := JS.sqrt (squaredDistance a b).
Definition dot (a b : vec3) : R :=
    v3x a * v3x b + v3y a * v3y b + v3z a * v3z b.
Definition normalize (a : vec3) : vec3 :=
    let l := squaredLength a in
    if Rgt_dec l 0
    then let l' := 1 / JS.sqrt l in
         mkVec3 (v3x a * l') (v3y a * l') (v3z a * l')
    else a.
End Vec3.

(** ** [Vector.ts]: the interface shared by the 2D and 3D vectors

    The receiver comes first; [epsilonEquals] takes an optional vector
    because the source tests its argument against [null]. *)

Module Vector.

Class t (T : Type) : Type := {
  clone : T -> T;
  len : T -> R;
  sqrLen : T -> R;
  limit : T -> R -> T;
  copy : T -> T -> T;
  sub : T -> T -> T;
  nor : T -> T;
  add : T -> T -> T;
  dot : T -> T -> R;
  scale : T -> R -> T;
  dst : T -> T -> R;
  dst2 : T -> T -> R;
  isZero : T -> bool;
  epsilonEquals : T -> option T -> R -> bool;
  scaleAndAdd : T -> T -> R -> T;
  setZero : T -> T
}.

End Vector.

(** ** [Vector2.ts] *)

Module Vector2.

Record t : Type := new { data : vec2 }.

Definition x (v : t) : R := v2x (data v).
Definition y (v : t) : R := v2y (data v).
Definition make (a b : R) : t := new (mkVec2 a b).

Definition clone (v : t) : t := new (Vec2.clone (data v)).
Definition len (v : t) : R := Vec2.len (data v).
Definition sqrLen (v : t) : R := Vec2.sqrLen (data v).
Definition copy (_ v : t) : t := new (Vec2.copy (data v)).
Definition set (_ : t) (a b : R) : t := new (Vec2.set a b).
Definition sub (this v : t) : t := new (Vec2.sub (data this) (data v)).
Definition nor (this : t) : t := new (Vec2.normalize (data this)).
Definition add (this v : t) : t := new (Vec2.add (data this) (data v)).
Definition dot (this v : t) : R := Vec2.dot (data this) (data v).
Definition scale (this : t) (scalar : R) : t :=
    new (Vec2.scale (data this) scalar).
Definition scaleAndAdd (this vec : t) (scalar : R) : t :=
    new (Vec2.scaleAndAdd (data this) (data vec) scalar).
Definition dst (this v : t) : R := Vec2.distance (data this) (data v).
Definition dst2 (this v : t) : R :=
    Vec2.squaredDistance (data this) (data v).

Definition limit2 (this : t) (limit2 : R) : t :=
    let len2 := sqrLen this in
    if Rgt_dec len2 limit2
    then scale this (JS.sqrt (limit2 / len2))
    else this.

Definition limit (this : t) (limit : R) : t := limit2 this (limit * limit).

Definition epsilonEquals (this : t) (other : option t) (epsilon : R) : bool :=
    match other with
    | None => false
    | Some o =>
        if Rgt_dec (JS.abs (x o - x this)) epsilon then false
        else if Rgt_dec (JS.abs (y o - y this)) epsilon then false
        else true
    end.

Definition isZero (this : t) : bool :=
    JS.eqb (x this) 0 && JS.eqb (y this) 0.

Definition setZero (_ : t) : t := new (Vec2.set 0 0).

End Vector2.

#[export] Instance Vector2_Vector : Vector.t Vector2.t := {
  Vector.clone := Vector2.clone;
  Vector.len := Vector2.len;
  Vector.sqrLen := Vector2.sqrLen;
  Vector.limit := Vector2.limit;
  Vector.copy := Vector2.copy;
  Vector.sub := Vector2.sub;
  Vector.nor := Vector2.nor;
  Vector.add := Vector2.add;
  Vector.dot := Vector2.dot;
  Vector.scale := Vector2.scale;
  Vector.dst := Vector2.dst;
  Vector.dst2 := Vector2.dst2;
  Vector.isZero := Vector2.isZero;
  Vector.epsilonEquals := Vector2.epsilonEquals;
  Vector.scaleAndAdd := Vector2.scaleAndAdd;
  Vector.setZero := Vector2.setZero
}.

(** ** [Vector3.ts] *)

Module Vector3.

Record t : Type := new { data : vec3 }.

Definition x (v : t) : R := v3x (data v).
Definition y (v : t) : R := v3y (data v).
Definition z (v : t) : R := v3z (data v).
Definition make (a b c : R) : t := new (mkVec3 a b c).

Definition set (_ : t) (a b c : R) : t := new (Vec3.set a b c).
Definition copy (_ vector : t) : t := new (Vec3.copy (data vector)).
Definition clone (v : t) : t := new (Vec3.clone (data v)).
Definition add (this vector : t) : t :=
    new (Vec3.add (data this) (data vector)).
Definition sub (this a : t) : t := new (Vec3.sub (data this) (data a)).
Definition scale (this : t) (scalar : R) : t :=
    new (Vec3.scale (data this) scalar).
Definition scaleAndAdd (this vec : t) (scalar : R) : t :=
    new (Vec3.scaleAndAdd (data this) (data vec) scalar).
Definition len (this : t) : R := Vec3.length (data this).
Definition sqrLen (this : t) : R := Vec3.squaredLength (data this).
Definition dst (this vector : t) : R :=
    Vec3.distance (data this) (data vector).
Definition dst2 (this point : t) : R :=
    Vec3.squaredDistance (data this) (data point).
Definition nor (this : t) : t := new (Vec3.normalize (data this)).
Definition dot (this vector : t) : R := Vec3.dot (data this) (data vector).

Definition isZero (this : t) : bool :=
    JS.eqb (x this) 0 && JS.eqb (y this) 0 && JS.eqb (z this) 0.

Definition limit2 (this : t) (limit2 : R) : t :=
    let len2 := sqrLen this in
    if Rgt_dec len2 limit2
    then scale this (JS.sqrt (limit2 / len2))
    else this.

Definition limit (this : t) (limit : R) : t := limit2 this (limit * limit).

Definition epsilonEquals (this : t) (other : option t) (epsilon : R) : bool :=
    match other with
    | None => false
    | Some o =>
        if Rgt_dec (JS.abs (x o - x this)) epsilon then false
        else if Rgt_dec (JS.abs (y o - y this)) epsilon then false
        else if Rgt_dec (JS.abs (z o - z this)) epsilon then false
        else true
    end.

Definition setZero (_ : t) : t := new (Vec3.set 0 0 0).

End Vector3.

#[export] Instance Vector3_Vector : Vector.t Vector3.t := {
  Vector.clone := Vector3.clone;
  Vector.len := Vector3.len;
  Vector.sqrLen := Vector3.sqrLen;
  Vector.limit := Vector3.limit;
  Vector.copy := Vector3.copy;
  Vector.sub := Vector3.sub;
  Vector.nor := Vector3.nor;
  Vector.add := Vector3.add;
  Vector.dot := Vector3.dot;
  Vector.scale := Vector3.scale;
  Vector.dst := Vector3.dst;
  Vector.dst2 := Vector3.dst2;
  Vector.isZero := Vector3.isZero;
  Vector.epsilonEquals := Vector3.epsilonEquals;
  Vector.scaleAndAdd := Vector3.scaleAndAdd;
  Vector.setZero := Vector3.setZero
}.

(** ** [math/isZero.ts], [math/PI2], [math/wrapAngleAroundZero.ts] *)

Definition isZero (value tolerance : R) : bool :=
  if Rle_dec (JS.abs value) tolerance then true else false.

(** Modelled from the spec: the file [math/PI2] is not among the sources;
    the angle is wrapped to the range from minus pi to pi, so the period is
    twice [Math.PI] (the demo's [MathUtils.PI2] is [Math.PI * 2]). *)
Definition PI2 : R := PI * 2.

Definition wrapAngleAroundZero (a : R) : R :=
  if Rge_dec a 0 then
    let rotation := JS.rem a PI2 in
    let rotation := if Rgt_dec rotation PI then rotation - PI2 else rotation in
    rotation
  else
    let rotation := JS.rem (- a) PI2 in
    let rotation := if Rgt_dec rotation PI then rotation - PI2 else rotation in
    - rotation.

(** ** [steer/SteeringAcceleration.ts] *)

Module SteeringAcceleration.

Record t (T : Type) : Type := new { linear : T; angular : R }.
Arguments new {T} _ _.
Arguments linear {T} _.
Arguments angular {T} _.

Section Methods.
Context {T : Type} `{Vector.t T}.

Definition isZero (this : t T) : bool :=
  JS.eqb (angular this) 0 && Vector.isZero (linear this).

Definition setZero (this : t T) : t T :=
  new (Vector.setZero (linear this)) 0.

Definition add (this steering : t T) : t T :=
  new (Vector.add (linear this) (linear steering))
      (angular this + angular steering).

Definition scl (this : t T) (scalar : R) : t T :=
  new (Vector.scale (linear this) scalar) (angular this * scalar).

Definition mulAdd (this steering : t T) (scalar : R) : t T :=
  new (Vector.scaleAndAdd (linear this) (linear steering) scalar)
      (angular this + angular steering * scalar).

Definition calculateSquareMagnitude (this : t T) : R :=
  Vector.sqrLen (linear this) + angular this * angular this.

Definition calculateMagnitude (this : t T) : R :=
  JS.sqrt (calculateSquareMagnitude this).

End Methods.
End SteeringAcceleration.

(** ** [steer/Limiter.ts]

    A limiter is the record of its caps; the accessors are the
    projections.  The partial limiters that throw and the neutral limiter
    whose caps are [Infinity] are outside this model. *)

Module Limiter.

Record t : Type := new {
  getZeroLinearSpeedThreshold : R;
  getMaxLinearSpeed : R;
  getMaxLinearAcceleration : R;
  getMaxAngularSpeed : R;
  getMaxAngularAcceleration : R
}.

End Limiter.

(** ** [steer/Steerable.ts]

    A steerable is a location and a limiter with velocities, a bounding
    radius and the scratch tag.  [ref] stands for the identity of the
    JavaScript object: [a !== b] compares the two [ref]s. *)

Module Steerable.

Record t (T : Type) : Type := new {
  ref : nat;
  getPosition : T;
  getOrientation : R;
  getLinearVelocity : T;
  getAngularVelocity : R;
  getBoundingRadius : R;
  isTagged : bool;
  asLimiter : Limiter.t
}.
Arguments new {T} _ _ _ _ _ _ _ _.
Arguments ref {T} _.
Arguments getPosition {T} _.
Arguments getOrientation {T} _.
Arguments getLinearVelocity {T} _.
Arguments getAngularVelocity {T} _.
Arguments getBoundingRadius {T} _.
Arguments isTagged {T} _.
Arguments asLimiter {T} _.

Definition setTagged {T : Type} (this : t T) (tagged : bool) : t T :=
  new (ref this) (getPosition this) (getOrientation this)
      (getLinearVelocity this) (getAngularVelocity this)
      (getBoundingRadius this) tagged (asLimiter this).

(** [a !== b] on two steerable objects. *)
Definition neq {T : Type} (a b : t T) : bool := negb (Nat.eqb (ref a) (ref b)).

End Steerable.

(** ** [steer/SteeringBehavior.ts]

    The fields of the abstract base class.  A [null] limiter is [None]. *)

Module SteeringBehavior.

Record base (T : Type) : Type := mkBase {
  owner : Steerable.t T;
  limiter : option Limiter.t;
  enabled : bool
}.
Arguments mkBase {T} _ _ _.
Arguments owner {T} _.
Arguments limiter {T} _.
Arguments enabled {T} _.

Definition isEnabled {T : Type} (this : base T) : bool := enabled this.

Definition getActualLimiter {T : Type} (this : base T) : Limiter.t :=
  match limiter this with
  | None => Steerable.asLimiter (owner this)
  | Some l => l
  end.

Definition newVector {T : Type} `{Vector.t T} (location : Steerable.t T) : T :=
  Vector.setZero (Vector.clone (Steerable.getPosition location)).

(** A behavior seen from a compound behavior: its enabled flag and its
    [calculateRealSteering].  The behavior may read and change any state of
    the program, of type [W]; it is given the output buffer and returns its
    new content. *)
Record t (T W : Type) : Type := new {
  self : base T;
  calculateRealSteering :
    W -> SteeringAcceleration.t T -> SteeringAcceleration.t T * W
}.
Arguments new {T W} _ _.
Arguments self {T W} _.
Arguments calculateRealSteering {T W} _ _ _.

(** [setOwner] replaces the field; what an abstract child computes is
    given once and for all by its [calculateRealSteering]. *)
Definition setOwner {T W : Type} (this : t T W) (owner' : Steerable.t T)
    : t T W :=
  new (mkBase owner' (limiter (self this)) (enabled (self this)))
      (calculateRealSteering this).

Definition calculateSteering {T W : Type} `{Vector.t T}
    (this : t T W) (w : W) (steering : SteeringAcceleration.t T)
    : SteeringAcceleration.t T * W :=
  if isEnabled (self this)
  then calculateRealSteering this w steering
  else (SteeringAcceleration.setZero steering, w).

End SteeringBehavior.

(** ** [steer/behaviors/BlendedSteering.ts] *)

Module BehaviorAndWeight.

Record t (T W : Type) : Type := new {
  behavior : SteeringBehavior.t T W;
  weight : R
}.
Arguments new {T W} _ _.
Arguments behavior {T W} _.
Arguments weight {T W} _.

End BehaviorAndWeight.

Module BlendedSteering.

(** [steering] is the private buffer every child writes its output to. *)
Record t (T W : Type) : Type := mk {
  self : SteeringBehavior.base T;
  list : Datatypes.list (BehaviorAndWeight.t T W);
  steering : SteeringAcceleration.t T
}.
Arguments mk {T W} _ _ _.
Arguments self {T W} _.
Arguments list {T W} _.
Arguments steering {T W} _.

Section Methods.
Context {T W : Type} `{Vector.t T}.

Definition new (owner : Steerable.t T) : t T W :=
  mk (SteeringBehavior.mkBase owner None true) []
     (SteeringAcceleration.new (SteeringBehavior.newVector owner) 0).

Definition addBehavior (this : t T W) (item : BehaviorAndWeight.t T W) : t T W :=
  let item :=
    BehaviorAndWeight.new
      (SteeringBehavior.setOwner (BehaviorAndWeight.behavior item)
         (SteeringBehavior.owner (self this)))
      (BehaviorAndWeight.weight item) in
  mk (self this) (list this ++ [item]) (steering this).

Definition add (this : t T W) (behavior : SteeringBehavior.t T W) (weight : R)
    : t T W :=
  addBehavior this (BehaviorAndWeight.new behavior weight).

(** The body of the [for] loop, from the item at hand to the end of the
    list: the child writes to the private buffer, which is then scaled and
    added to the accumulator. *)
Fixpoint blend (items : Datatypes.list (BehaviorAndWeight.t T W))
    (scratch blendedSteering : SteeringAcceleration.t T) (w : W)
    : SteeringAcceleration.t T * SteeringAcceleration.t T * W :=
  match items with
  | [] => (scratch, blendedSteering, w)
  | bw :: rest =>
      let '(scratch, w) :=
        SteeringBehavior.calculateSteering
          (BehaviorAndWeight.behavior bw) w scratch in
      let blendedSteering :=
        SteeringAcceleration.mulAdd blendedSteering scratch
          (BehaviorAndWeight.weight bw) in
      blend rest scratch blendedSteering w
  end.

(** Returns the output, the behavior with its buffer updated and the
    state left by the children. *)
Definition calculateRealSteering (this : t T W) (w : W)
    (blendedSteering : SteeringAcceleration.t T)
    : SteeringAcceleration.t T * t T W * W :=
  let blendedSteering := SteeringAcceleration.setZero blendedSteering in
  let '(scratch, blendedSteering, w) :=
    blend (list this) (steering this) blendedSteering w in
  let actualLimiter := SteeringBehavior.getActualLimiter (self this) in
  let linear :=
    Vector.limit (SteeringAcceleration.linear blendedSteering)
                 (Limiter.getMaxLinearAcceleration actualLimiter) in
  let angular :=
    if Rgt_dec (SteeringAcceleration.angular blendedSteering)
               (Limiter.getMaxAngularAcceleration actualLimiter)
    then Limiter.getMaxAngularAcceleration actualLimiter
    else SteeringAcceleration.angular blendedSteering in
  (SteeringAcceleration.new linear angular,
   mk (self this) (list this) scratch, w).

Definition calculateSteering (this : t T W) (w : W)
    (steering : SteeringAcceleration.t T)
    : SteeringAcceleration.t T * t T W * W :=
  if SteeringBehavior.isEnabled (self this)
  then calculateRealSteering this w steering
  else (SteeringAcceleration.setZero steering, this, w).

End Methods.
End BlendedSteering.

(** ** [steer/behaviors/PrioritySteering.ts] *)

Module PrioritySteering.

(** [selectedBehaviorIndex] is [None] until the first evaluation. *)
Record t (T W : Type) : Type := mk {
  self : SteeringBehavior.base T;
  epsilon : R;
  behaviors : list (SteeringBehavior.t T W);
  selectedBehaviorIndex : option Z
}.
Arguments mk {T W} _ _ _ _.
Arguments self {T W} _.
Arguments epsilon {T W} _.
Arguments behaviors {T W} _.
Arguments selectedBehaviorIndex {T W} _.

Section Methods.
Context {T W : Type} `{Vector.t T}.

Definition new (owner : Steerable.t T) (epsilon : R) : t T W :=
  mk (SteeringBehavior.mkBase owner None true) epsilon [] None.

Definition add (this : t T W) (behavior : SteeringBehavior.t T W) : t T W :=
  mk (self this) (epsilon this) (behaviors this ++ [behavior])
     (selectedBehaviorIndex this).

Definition getSelectedBehaviorIndex (this : t T W) : option Z :=
  selectedBehaviorIndex this.

(** The [for] loop from index [i] on.  The boolean tells whether the loop
    was left by its [return]. *)
Fixpoint scan (epsilonSquared : R) (rest : list (SteeringBehavior.t T W))
    (i selected : Z) (w : W) (steering : SteeringAcceleration.t T)
    : bool * Z * SteeringAcceleration.t T * W :=
  match rest with
  | [] => (false, selected, steering, w)
  | behavior :: rest' =>
      let selected := i in
      let '(steering, w) :=
        SteeringBehavior.calculateSteering behavior w steering in
      if Rgt_dec (SteeringAcceleration.calculateSquareMagnitude steering)
                 epsilonSquared
      then (true, selected, steering, w)
      else scan epsilonSquared rest' (i + 1)%Z selected w steering
  end.

Definition calculateRealSteering (this : t T W) (w : W)
    (steering : SteeringAcceleration.t T)
    : SteeringAcceleration.t T * t T W * W :=
  let epsilonSquared := epsilon this * epsilon this in
  let n := length (behaviors this) in
  let '(returned, selected, steering, w) :=
    scan epsilonSquared (behaviors this) 0%Z (-1)%Z w steering in
  let this := mk (self this) (epsilon this) (behaviors this) (Some selected) in
  if returned then (steering, this, w)
  else if (0 <? n)%nat then (steering, this, w)
  else (SteeringAcceleration.setZero steering, this, w).

Definition calculateSteering (this : t T W) (w : W)
    (steering : SteeringAcceleration.t T)
    : SteeringAcceleration.t T * t T W * W :=
  if SteeringBehavior.isEnabled (self this)
  then calculateRealSteering this w steering
  else (SteeringAcceleration.setZero steering, this, w).

End Methods.
End PrioritySteering.

(** ** [steer/behaviors/Arrive.ts] *)

Module Arrive.

(** The target is a location; only its position is read. *)
Record t (T : Type) : Type := mk {
  self : SteeringBehavior.base T;
  target : T;
  arrivalTolerance : R;
  decelerationRadius : R;
  timeToTarget : R
}.
Arguments mk {T} _ _ _ _ _.
Arguments self {T} _.
Arguments target {T} _.
Arguments arrivalTolerance {T} _.
Arguments decelerationRadius {T} _.
Arguments timeToTarget {T} _.

Section Methods.
Context {T : Type} `{Vector.t T}.

Definition new (owner : Steerable.t T) (target : T) : t T :=
  mk (SteeringBehavior.mkBase owner None true) target 0 0 (1 / 10).

(** The speed the source keeps in its variable [targetSpeed]. *)
Definition targetSpeed (this : t T) (distance : R) : R :=
  let actualLimiter := SteeringBehavior.getActualLimiter (self this) in
  let targetSpeed := Limiter.getMaxLinearSpeed actualLimiter in
  if Rle_dec distance (decelerationRadius this)
  then targetSpeed * (distance / decelerationRadius this)
  else targetSpeed.

(** [toTarget], [targetVelocity] and [steering.linear] are one vector in
    the source; each [let] below is its next content. *)
Definition arrive (this : t T) (steering : SteeringAcceleration.t T)
    (targetPosition : T) : SteeringAcceleration.t T :=
  let owner := SteeringBehavior.owner (self this) in
  let toTarget :=
    Vector.sub (Vector.copy (SteeringAcceleration.linear steering) targetPosition)
               (Steerable.getPosition owner) in
  let distance := Vector.len toTarget in
  if Rle_dec distance (arrivalTolerance this)
  then SteeringAcceleration.setZero
         (SteeringAcceleration.new toTarget (SteeringAcceleration.angular steering))
  else
    let actualLimiter := SteeringBehavior.getActualLimiter (self this) in
    let targetSpeed := targetSpeed this distance in
    let targetVelocity := Vector.scale toTarget (targetSpeed / distance) in
    let linear :=
      Vector.limit
        (Vector.scale
           (Vector.sub targetVelocity (Steerable.getLinearVelocity owner))
           (1 / timeToTarget this))
        (Limiter.getMaxLinearAcceleration actualLimiter) in
    SteeringAcceleration.new linear 0.

Definition calculateRealSteering (this : t T)
    (steering : SteeringAcceleration.t T) : SteeringAcceleration.t T :=
  arrive this steering (target this).

Definition calculateSteering (this : t T)
    (steering : SteeringAcceleration.t T) : SteeringAcceleration.t T :=
  if SteeringBehavior.isEnabled (self this)
  then calculateRealSteering this steering
  else SteeringAcceleration.setZero steering.

End Methods.
End Arrive.

(** ** [steer/behaviors/ReachOrientation.ts] *)

Module ReachOrientation.

(** The target is a location; only its orientation is read. *)
Record t (T : Type) : Type := mk {
  self : SteeringBehavior.base T;
  target : R;
  alignTolerance : R;
  decelerationRadius : R;
  timeToTarget : R
}.
Arguments mk {T} _ _ _ _ _.
Arguments self {T} _.
Arguments target {T} _.
Arguments alignTolerance {T} _.
Arguments decelerationRadius {T} _.
Arguments timeToTarget {T} _.

Section Methods.
Context {T : Type} `{Vector.t T}.

Definition new (owner : Steerable.t T) (target : R) : t T :=
  mk (SteeringBehavior.mkBase owner None true) target 0 0 (1 / 10).

(** The constant [rotation] of the source. *)
Definition rotation (this : t T) (targetOrientation : R) : R :=
  wrapAngleAroundZero
    (targetOrientation
     - Steerable.getOrientation (SteeringBehavior.owner (self this))).

(** The value of [targetRotation] when the acceleration is computed. *)
Definition targetRotation (this : t T) (rotation : R) : R :=
  let rotationSize := if Rlt_dec rotation 0 then - rotation else rotation in
  let actualLimiter := SteeringBehavior.getActualLimiter (self this) in
  let targetRotation := Limiter.getMaxAngularSpeed actualLimiter in
  let targetRotation :=
    if Rle_dec rotationSize (decelerationRadius this)
    then targetRotation * (rotationSize / decelerationRadius this)
    else targetRotation in
  targetRotation * (rotation / rotationSize).

Definition reachOrientation (this : t T) (steering : SteeringAcceleration.t T)
    (targetOrientation : R) : SteeringAcceleration.t T :=
  let owner := SteeringBehavior.owner (self this) in
  let rotation := rotation this targetOrientation in
  let rotationSize := if Rlt_dec rotation 0 then - rotation else rotation in
  if Rle_dec rotationSize (alignTolerance this)
  then SteeringAcceleration.setZero steering
  else
    let actualLimiter := SteeringBehavior.getActualLimiter (self this) in
    let targetRotation := targetRotation this rotation in
    let angular :=
      (targetRotation - Steerable.getAngularVelocity owner) / timeToTarget this in
    let angularAcceleration := if Rlt_dec angular 0 then - angular else angular in
    let angular :=
      if Rgt_dec angularAcceleration (Limiter.getMaxAngularAcceleration actualLimiter)
      then angular * (Limiter.getMaxAngularAcceleration actualLimiter
                      / angularAcceleration)
      else angular in
    SteeringAcceleration.new
      (Vector.setZero (SteeringAcceleration.linear steering)) angular.

Definition calculateRealSteering (this : t T)
    (steering : SteeringAcceleration.t T) : SteeringAcceleration.t T :=
  reachOrientation this steering (target this).

Definition calculateSteering (this : t T)
    (steering : SteeringAcceleration.t T) : SteeringAcceleration.t T :=
  if SteeringBehavior.isEnabled (self this)
  then calculateRealSteering this steering
  else SteeringAcceleration.setZero steering.

End Methods.
End ReachOrientation.

(** ** Numbers that are not finite

    A [number] of the source is a real number in this development.  The
    trajectory computation of [Jump] takes the square root of a quantity
    that can be negative, divides by the gravity component, which can be
    zero, and compares what comes out: there the numbers are written with
    [NaN] and the two infinities.  The zero of the reals stands for the
    positive zero, the value of the literal [0]: a positive number divided
    by zero is [Infinity], a negative one [-Infinity], and zero divided by
    zero is [NaN]. *)

Module Number.

Inductive t : Type :=
| finite (x : R)
| Infinity
| NegInfinity
| NaN.

(** [Math.sqrt]: [NaN] below zero. *)
Definition sqrt (x : R) : t :=
  if Rlt_dec x 0 then NaN else finite (JS.sqrt x).

(** [a + b] *)
Definition add (a b : t) : t :=
  match a, b with
  | finite x, finite y => finite (x + y)
  | NaN, _ | _, NaN => NaN
  | Infinity, NegInfinity | NegInfinity, Infinity => NaN
  | Infinity, _ | _, Infinity => Infinity
  | NegInfinity, _ | _, NegInfinity => NegInfinity
  end.

(** [a - b] *)
Definition sub (a b : t) : t :=
  match a, b with
  | finite x, finite y => finite (x - y)
  | NaN, _ | _, NaN => NaN
  | Infinity, Infinity | NegInfinity, NegInfinity => NaN
  | Infinity, _ | _, NegInfinity => Infinity
  | NegInfinity, _ | _, Infinity => NegInfinity
  end.

(** [a / b] *)
Definition div (a b : t) : t :=
  match a, b with
  | finite x, finite y =>
      if Req_dec_T y 0 then
        if Rlt_dec 0 x then Infinity
        else if Rlt_dec x 0 then NegInfinity
        else NaN
      else finite (x / y)
  | NaN, _ | _, NaN => NaN
  | finite _, _ => finite 0
  | Infinity, finite y => if Rlt_dec y 0 then NegInfinity else Infinity
  | NegInfinity, finite y => if Rlt_dec y 0 then Infinity else NegInfinity
  | _, _ => NaN
  end.

(** [a >= b]: false as soon as one side is [NaN]. *)
Definition geb (a b : t) : bool :=
  match a, b with
  | finite x, finite y => if Rge_dec x y then true else false
  | NaN, _ | _, NaN => false
  | Infinity, _ | _, NegInfinity => true
  | _, _ => false
  end.

End Number.

(** ** [steer/behaviors/Jump.ts] *)

Module GravityComponentHandler.

Record t (T : Type) : Type := new {
  getComponent : T -> R;
  setComponent : T -> R -> T
}.
Arguments new {T} _ _.
Arguments getComponent {T} _ _.
Arguments setComponent {T} _ _ _.

End GravityComponentHandler.

Module JumpDescriptor.

Record t (T : Type) : Type := mk {
  takeoffPosition : T;
  landingPosition : T;
  delta : T
}.
Arguments mk {T} _ _ _.
Arguments takeoffPosition {T} _.
Arguments landingPosition {T} _.
Arguments delta {T} _.

Section Methods.
Context {T : Type} `{Vector.t T}.

Definition set (this : t T) (takeoffPosition' landingPosition' : T) : t T :=
  mk (Vector.copy (takeoffPosition this) takeoffPosition')
     (Vector.copy (landingPosition this) landingPosition')
     (Vector.sub (Vector.copy (delta this) landingPosition') takeoffPosition').

Definition new (takeoffPosition landingPosition : T) : t T :=
  set (mk takeoffPosition landingPosition (Vector.clone landingPosition))
      takeoffPosition landingPosition.

End Methods.
End JumpDescriptor.

Module JumpTarget.

Record t (T : Type) : Type := mk {
  position : option T;
  linearVelocity : T
}.
Arguments mk {T} _ _.
Arguments position {T} _.
Arguments linearVelocity {T} _.

Definition new {T : Type} `{Vector.t T} (other : Steerable.t T) : t T :=
  mk None (Vector.setZero (Vector.clone (Steerable.getPosition other))).

End JumpTarget.

Module Jump.

(** The fields read or written by the trajectory computation. *)
Record t (T : Type) : Type := mk {
  self : SteeringBehavior.base T;
  jumpDescriptor : JumpDescriptor.t T;
  gravity : T;
  gravityComponentHandler : GravityComponentHandler.t T;
  maxVerticalVelocity : R;
  airborneTime : Number.t;
  isJumpAchievable : bool;
  jumpTarget : JumpTarget.t T;
  planarVelocity : T
}.
Arguments mk {T} _ _ _ _ _ _ _ _ _.
Arguments self {T} _.
Arguments jumpDescriptor {T} _.
Arguments gravity {T} _.
Arguments gravityComponentHandler {T} _.
Arguments maxVerticalVelocity {T} _.
Arguments airborneTime {T} _.
Arguments isJumpAchievable {T} _.
Arguments jumpTarget {T} _.
Arguments planarVelocity {T} _.

Section Methods.
Context {T : Type} `{Vector.t T}.

Definition setPlanarVelocity (this : t T) (v : T) : t T :=
  mk (self this) (jumpDescriptor this) (gravity this)
     (gravityComponentHandler this) (maxVerticalVelocity this)
     (airborneTime this) (isJumpAchievable this) (jumpTarget this) v.

(** Returns the boolean, the content of [outVelocity] after the call and
    the behavior with its [planarVelocity] updated.  The factor [1 / time]
    is a number when [time] is neither zero nor [NaN]; it is zero when
    [time] is infinite.  When [time] is zero the factor is infinite, and
    when [time] is [NaN] so is the factor: the components of the scaled
    vector are then infinite or [NaN], so is its squared length (the
    handler resets the vertical component only), the comparison with the
    finite maximum is false and the answer is [false]; the scratch vector
    [planarVelocity], which then holds no number, is left as it was in the
    model. *)
Definition checkAirborneTimeAndCalculateVelocity (this : t T)
    (outVelocity : T) (time : Number.t) (jumpDescriptor : JumpDescriptor.t T)
    (maxLinearSpeed : R) : bool * T * t T :=
  match Number.div (Number.finite 1) time with
  | Number.finite factor =>
      let h := gravityComponentHandler this in
      let planarVelocity :=
        Vector.scale (Vector.copy (planarVelocity this)
                                  (JumpDescriptor.delta jumpDescriptor))
                     factor in
      let planarVelocity :=
        GravityComponentHandler.setComponent h planarVelocity 0 in
      let this := setPlanarVelocity this planarVelocity in
      if Rlt_dec (Vector.sqrLen planarVelocity) (maxLinearSpeed * maxLinearSpeed)
      then
        let verticalValue := GravityComponentHandler.getComponent h outVelocity in
        let outVelocity :=
          GravityComponentHandler.setComponent h
            (Vector.copy outVelocity planarVelocity) verticalValue in
        (true, outVelocity, this)
      else (false, outVelocity, this)
  | _ => (false, outVelocity, this)
  end.

(** Returns the time, the content of [outVelocity] after the call and the
    behavior with its [planarVelocity] updated.  The square root is [NaN]
    for a negative argument, and then so are both times; the division by
    a zero gravity component gives an infinite time or [NaN]. *)
Definition calculateAirborneTimeAndVelocity (this : t T) (outVelocity : T)
    (jumpDescriptor : JumpDescriptor.t T) (maxLinearSpeed : R)
    : Number.t * T * t T :=
  let h := gravityComponentHandler this in
  let g := GravityComponentHandler.getComponent h (gravity this) in
  let sqrtTerm :=
    Number.sqrt
      (2 * g * GravityComponentHandler.getComponent h
                 (JumpDescriptor.delta jumpDescriptor)
       + maxVerticalVelocity this * maxVerticalVelocity this) in
  let time :=
    Number.div
      (Number.add (Number.finite (- maxVerticalVelocity this)) sqrtTerm)
      (Number.finite g) in
  let '(ok, outVelocity, this) :=
    checkAirborneTimeAndCalculateVelocity this outVelocity time
      jumpDescriptor maxLinearSpeed in
  if negb ok then
    let time :=
      Number.div
        (Number.sub (Number.finite (- maxVerticalVelocity this)) sqrtTerm)
        (Number.finite g) in
    let '(ok, outVelocity, this) :=
      checkAirborneTimeAndCalculateVelocity this outVelocity time
        jumpDescriptor maxLinearSpeed in
    if negb ok then (Number.finite (-1), outVelocity, this)
    else (time, outVelocity, this)
  else (time, outVelocity, this).

(** [calculateTarget]: the velocity buffer is the [linearVelocity] of the
    jump target, which the method returns for its caller to store as the
    target of the behavior. *)
Definition calculateTarget (this : t T) : t T :=
  let position := Some (JumpDescriptor.takeoffPosition (jumpDescriptor this)) in
  let '(time, velocity, this) :=
    calculateAirborneTimeAndVelocity this
      (JumpTarget.linearVelocity (jumpTarget this)) (jumpDescriptor this)
      (Limiter.getMaxLinearSpeed
         (SteeringBehavior.getActualLimiter (self this))) in
  mk (self this) (jumpDescriptor this) (gravity this)
     (gravityComponentHandler this) (maxVerticalVelocity this)
     time (Number.geb time (Number.finite 0))
     (JumpTarget.mk position velocity) (planarVelocity this).

End Methods.
End Jump.

(** ** [steer/Proximity.ts]

    A callback is a stateful object: [reportNeighbor] is given the state
    of the callback and returns its answer with the new state.  A
    proximity, seen from a group behavior, drives a callback and returns
    the number of accepted neighbors. *)

Definition ProximityCallback (T S : Type) : Type :=
  S -> Steerable.t T -> bool * S.

Definition Proximity (T : Type) : Type :=
  forall S : Type, ProximityCallback T S -> S -> nat * S.

(** ** [steer/proximities/RadiusProximity.ts] *)

Module RadiusProximity.

(** [getTickId] is the accessor injected by the host; the value it
    returns is an argument of [findNeighbors]. *)
Record t (T : Type) : Type := mk {
  owner : Steerable.t T;
  agents : list (Steerable.t T);
  radius : R;
  lastTime : R
}.
Arguments mk {T} _ _ _ _.
Arguments owner {T} _.
Arguments agents {T} _.
Arguments radius {T} _.
Arguments lastTime {T} _.

Section Methods.
Context {T : Type} `{Vector.t T}.

Definition new (owner : Steerable.t T) (agents : list (Steerable.t T))
    (radius : R) : t T :=
  mk owner agents radius 0.

(** The test of the first loop: the agent is not the owner and lies within
    the radius enlarged by its own bounding radius. *)
Definition inRange (this : t T) (currentAgent : Steerable.t T) : bool :=
  if Steerable.neq currentAgent (owner this) then
    let squareDistance :=
      Vector.dst2 (Steerable.getPosition (owner this))
                  (Steerable.getPosition currentAgent) in
    let range := radius this + Steerable.getBoundingRadius currentAgent in
    if Rlt_dec squareDistance (range * range) then true else false
  else false.

(** An entry of the list carries the fields of its object, the tag among
    them, and two entries with the same [ref] are the same object.
    [setTagged] writes on the object: when the loop writes [tagged] on an
    agent and then goes on with the agents [later], given here as the loop
    leaves them, a later entry for the same object has overwritten the
    tag. *)
Definition tagAfter (later : list (Steerable.t T)) (agent : Steerable.t T)
    (tagged : bool) : bool :=
  match
    find (fun other => Nat.eqb (Steerable.ref other) (Steerable.ref agent))
         later
  with
  | Some other => Steerable.isTagged other
  | None => tagged
  end.

(** The loop of a new frame over the agents still to be examined; returns
    the agents with the tags the loop leaves on them, the state of the
    callback and the count.  The callback is given the entry as it is
    listed. *)
Fixpoint scanNew {S : Type} (this : t T) (callback : ProximityCallback T S)
    (rest : list (Steerable.t T)) (s : S) (neighborCount : nat)
    : list (Steerable.t T) * S * nat :=
  match rest with
  | [] => ([], s, neighborCount)
  | currentAgent :: rest' =>
      if inRange this currentAgent then
        let '(accepted, s) := callback s currentAgent in
        if accepted then
          let '(done, s, n) :=
            scanNew this callback rest' s (Datatypes.S neighborCount) in
          (Steerable.setTagged currentAgent (tagAfter done currentAgent true)
             :: done, s, n)
        else
          let '(done, s, n) := scanNew this callback rest' s neighborCount in
          (Steerable.setTagged currentAgent (tagAfter done currentAgent false)
             :: done, s, n)
      else
        let '(done, s, n) := scanNew this callback rest' s neighborCount in
        (Steerable.setTagged currentAgent (tagAfter done currentAgent false)
           :: done, s, n)
  end.

(** The loop of a frame already seen: the tagged agents are replayed. *)
Fixpoint scanTagged {S : Type} (this : t T) (callback : ProximityCallback T S)
    (rest : list (Steerable.t T)) (s : S) (neighborCount : nat) : S * nat :=
  match rest with
  | [] => (s, neighborCount)
  | currentAgent :: rest' =>
      if Steerable.neq currentAgent (owner this)
         && Steerable.isTagged currentAgent
      then
        let '(accepted, s) := callback s currentAgent in
        scanTagged this callback rest' s
          (if accepted then Datatypes.S neighborCount else neighborCount)
      else scanTagged this callback rest' s neighborCount
  end.

Definition findNeighbors {S : Type} (this : t T) (currentTime : R)
    (callback : ProximityCallback T S) (s : S) : nat * S * t T :=
  if Req_dec_T (lastTime this) currentTime then
    let '(s, neighborCount) := scanTagged this callback (agents this) s 0%nat in
    (neighborCount, s, this)
  else
    let '(agents', s, neighborCount) :=
      scanNew this callback (agents this) s 0%nat in
    (neighborCount, s, mk (owner this) agents' (radius this) currentTime).

(** The proximity as a group behavior sees it during one call. *)
Definition asProximity (this : t T) (currentTime : R) : Proximity T :=
  fun S callback s =>
    let '(n, s, _) := findNeighbors this currentTime callback s in (n, s).

End Methods.
End RadiusProximity.

(** ** [steer/behaviors/CollisionAvoidance.ts] *)

Module CollisionAvoidance.

(** [shortestTime] is [None] for [Infinity].  [relativePosition] is the
    [linear] vector of the output buffer during one evaluation. *)
Record t (T : Type) : Type := mk {
  self : SteeringBehavior.base T;
  shortestTime : option R;
  firstNeighbor : option (Steerable.t T);
  firstMinSeparation : R;
  firstDistance : R;
  firstRelativePosition : T;
  firstRelativeVelocity : T;
  relativePosition : T;
  relativeVelocity : T
}.
Arguments mk {T} _ _ _ _ _ _ _ _ _.
Arguments self {T} _.
Arguments shortestTime {T} _.
Arguments firstNeighbor {T} _.
Arguments firstMinSeparation {T} _.
Arguments firstDistance {T} _.
Arguments firstRelativePosition {T} _.
Arguments firstRelativeVelocity {T} _.
Arguments relativePosition {T} _.
Arguments relativeVelocity {T} _.

Section Methods.
Context {T : Type} `{Vector.t T}.

(** [a >= b] where [b] may be [Infinity]. *)
Definition geShortest (a : R) (b : option R) : bool :=
  match b with
  | None => false
  | Some b => if Rge_dec a b then true else false
  end.

(** [div] is the division of the source.  It is an argument so that one
    can state that the outcome never depends on a quotient by zero (the
    indeterminate 0/0 of the source's comment). *)
Definition reportNeighborWith (div : R -> R -> R) : ProximityCallback T (t T) :=
  fun this neighbor =>
  let owner := SteeringBehavior.owner (self this) in
  let relativePosition :=
    Vector.sub (Vector.copy (relativePosition this) (Steerable.getPosition neighbor))
               (Steerable.getPosition owner) in
  let relativeVelocity :=
    Vector.sub (Vector.copy (relativeVelocity this)
                            (Steerable.getLinearVelocity neighbor))
               (Steerable.getLinearVelocity owner) in
  let this :=
    mk (self this) (shortestTime this) (firstNeighbor this)
       (firstMinSeparation this) (firstDistance this)
       (firstRelativePosition this) (firstRelativeVelocity this)
       relativePosition relativeVelocity in
  let relativeSpeed2 := Vector.sqrLen relativeVelocity in
  if Req_dec_T relativeSpeed2 0 then (false, this)
  else
    let timeToCollision :=
      div (- Vector.dot relativePosition relativeVelocity) relativeSpeed2 in
    if Rle_dec timeToCollision 0 then (false, this)
    else if geShortest timeToCollision (shortestTime this) then (false, this)
    else
      let distance := Vector.len relativePosition in
      let minSeparation := distance - JS.sqrt relativeSpeed2 * timeToCollision in
      if Rgt_dec minSeparation
           (Steerable.getBoundingRadius owner + Steerable.getBoundingRadius neighbor)
      then (false, this)
      else
        (true,
         mk (self this) (Some timeToCollision) (Some neighbor)
            minSeparation distance
            (Vector.copy (firstRelativePosition this) relativePosition)
            (Vector.copy (firstRelativeVelocity this) relativeVelocity)
            relativePosition relativeVelocity).

Definition reportNeighbor : ProximityCallback T (t T) :=
  reportNeighborWith Rdiv.

(** [shortestTime] is a number once a neighbor has been stored. *)
Definition shortestTimeValue (this : t T) : R :=
  match shortestTime this with Some x => x | None => 0 end.

(** Assigning through the alias: [relativePosition] and the [linear] of
    the output buffer are the same vector. *)
Definition setRelativePosition (this : t T) (v : T) : t T :=
  mk (self this) (shortestTime this) (firstNeighbor this)
     (firstMinSeparation this) (firstDistance this)
     (firstRelativePosition this) (firstRelativeVelocity this)
     v (relativeVelocity this).

(** [steering.setZero()], seen through the alias as well. *)
Definition returnZero (this : t T) (angular : R)
    : SteeringAcceleration.t T * t T :=
  let steering :=
    SteeringAcceleration.setZero
      (SteeringAcceleration.new (relativePosition this) angular) in
  (steering, setRelativePosition this (SteeringAcceleration.linear steering)).

Definition calculateRealSteering (proximity : Proximity T) (this : t T)
    (steering : SteeringAcceleration.t T) : SteeringAcceleration.t T * t T :=
  let owner := SteeringBehavior.owner (self this) in
  let this :=
    mk (self this) None None 0 0
       (firstRelativePosition this) (firstRelativeVelocity this)
       (SteeringAcceleration.linear steering) (relativeVelocity this) in
  let '(neighborCount, this) := proximity (t T) reportNeighbor this in
  match firstNeighbor this with
  | None => returnZero this (SteeringAcceleration.angular steering)
  | Some first =>
      if Nat.eqb neighborCount 0
      then returnZero this (SteeringAcceleration.angular steering)
      else
        let relativePosition :=
          if Rle_dec (firstMinSeparation this) 0 then
            Vector.sub (Vector.copy (relativePosition this)
                                    (Steerable.getPosition first))
                       (Steerable.getPosition owner)
          else if Rlt_dec (firstDistance this)
                    (Steerable.getBoundingRadius owner
                     + Steerable.getBoundingRadius first) then
            Vector.sub (Vector.copy (relativePosition this)
                                    (Steerable.getPosition first))
                       (Steerable.getPosition owner)
          else
            Vector.scaleAndAdd
              (Vector.copy (relativePosition this) (firstRelativePosition this))
              (firstRelativeVelocity this) (shortestTimeValue this) in
        let relativePosition :=
          Vector.scale (Vector.nor relativePosition)
            (- Limiter.getMaxLinearAcceleration
                 (SteeringBehavior.getActualLimiter (self this))) in
        (SteeringAcceleration.new relativePosition 0,
         setRelativePosition this relativePosition)
  end.

Definition calculateSteering (proximity : Proximity T) (this : t T)
    (steering : SteeringAcceleration.t T) : SteeringAcceleration.t T * t T :=
  if SteeringBehavior.isEnabled (self this)
  then calculateRealSteering proximity this steering
  else (SteeringAcceleration.setZero steering, this).

End Methods.
End CollisionAvoidance.

(** ** [steer/utils/paths/LinePath.ts] *)

Module Messages.
Import String.
Local Open Scope string_scope.

Definition waypoints : string :=
  "waypoints cannot be null and must contain at least two (2) waypoints".

(** Reading a property of [undefined]. *)
Definition typeError : string := "TypeError".

End Messages.

(** The outcome of a call that may [throw]. *)
Inductive Result (A : Type) : Type :=
| Returns (a : A)
| Throws (message : String.string).
Arguments Returns {A} _.
Arguments Throws {A} _.

Module Segment.

Record t (T : Type) : Type := mk {
  begin : T;
  end_ : T;
  length : R;
  cumulativeLength : R
}.
Arguments mk {T} _ _ _ _.
Arguments begin {T} _.
Arguments end_ {T} _.
Arguments length {T} _.
Arguments cumulativeLength {T} _.

(** The constructor leaves [cumulativeLength] unset; [createPath] assigns
    it at once, so it is an argument here. *)
Definition new {T : Type} `{Vector.t T} (begin end_ : T) (cumulativeLength : R)
    : t T :=
  mk begin end_ (Vector.dst begin end_) cumulativeLength.

End Segment.

Module LinePath.

Record t (T : Type) : Type := mk {
  segments : list (Segment.t T);
  _isOpen : bool;
  pathLength : R;
  nearestPointOnCurrentSegment : T;
  nearestPointOnPath : T;
  tmpB : T;
  tmpC : T
}.
Arguments mk {T} _ _ _ _ _ _ _.
Arguments segments {T} _.
Arguments _isOpen {T} _.
Arguments pathLength {T} _.

Section Methods.
Context {T : Type} `{Vector.t T}.

(** The [for] loop of [createPath]: [rest] holds the waypoints from index
    [i] on, [curr] the waypoint before them; an empty [rest] is the pass
    with [i] equal to the number of waypoints. *)
Fixpoint createSegments (isOpen : bool) (first curr : T) (rest : list T)
    (segments : list (Segment.t T)) (pathLength : R)
    : list (Segment.t T) * R :=
  match rest with
  | next :: rest' =>
      let prev := curr in
      let curr := next in
      let pathLength := pathLength + Vector.dst prev curr in
      let segment := Segment.new prev curr pathLength in
      createSegments isOpen first curr rest' (segments ++ [segment]) pathLength
  | [] =>
      let prev := curr in
      if isOpen then (segments, pathLength)
      else
        let curr := first in
        let pathLength := pathLength + Vector.dst prev curr in
        let segment := Segment.new prev curr pathLength in
        (segments ++ [segment], pathLength)
  end.

(** [waypoints] is [None] for [null].  Returns the segments and the path
    length the method stores. *)
Definition createPath (isOpen : bool) (waypoints : option (list T))
    : Result (list (Segment.t T) * R) :=
  match waypoints with
  | None =>
      Throws Messages.waypoints
  | Some ws =>
      if (Datatypes.length ws <? 2)%nat then
        Throws Messages.waypoints
      else
        match ws with
        | [] => Returns ([], 0)
        | first :: rest => Returns (createSegments isOpen first first rest [] 0)
        end
  end.

Definition new (waypoints : option (list T)) (isOpen : bool) : Result (t T) :=
  match createPath isOpen waypoints with
  | Throws m => Throws m
  | Returns (segments, pathLength) =>
      match waypoints with
      | Some (waypoint :: _) =>
          Returns (mk segments isOpen pathLength
                      (Vector.clone waypoint) (Vector.clone waypoint)
                      (Vector.clone waypoint) (Vector.clone waypoint))
      | _ => Throws Messages.typeError
      end
  end.

End Methods.
End LinePath.

(** ** The algebra the behaviors rely on

    What the generic code assumes of an implementation of [Vector]. *)

Module VectorLaws.

Class t (T : Type) `{Vector.t T} : Prop := {
  clone_eq : forall v : T, Vector.clone v = v;
  copy_eq : forall a v : T, Vector.copy a v = v;
  sqrLen_nonneg : forall v : T, 0 <= Vector.sqrLen v;
  len_sqrLen : forall v : T, Vector.len v = sqrt (Vector.sqrLen v);
  sqrLen_scale :
    forall (v : T) (c : R),
      Vector.sqrLen (Vector.scale v c) = c * c * Vector.sqrLen v;
  limit_eq :
    forall (v : T) (l : R),
      Vector.limit v l =
      if Rgt_dec (Vector.sqrLen v) (l * l)
      then Vector.scale v (sqrt (l * l / Vector.sqrLen v))
      else v;
  sub_self : forall v : T, Vector.sub v v = Vector.setZero v;
  scale_1 : forall v : T, Vector.scale v 1 = v;
  scale_scale :
    forall (v : T) (a b : R),
      Vector.scale (Vector.scale v a) b = Vector.scale v (a * b);
  setZero_const : forall a b : T, Vector.setZero a = Vector.setZero b;
  sqrLen_setZero : forall v : T, Vector.sqrLen (Vector.setZero v) = 0;
  isZero_setZero : forall v : T, Vector.isZero (Vector.setZero v) = true;
  isZero_sqrLen : forall v : T, Vector.isZero v = true -> Vector.sqrLen v = 0;
  scaleAndAdd_eq :
    forall (a v : T) (s : R),
      Vector.scaleAndAdd a v s = Vector.add a (Vector.scale v s)
}.

End VectorLaws.

(** ** Vocabulary of the statements *)

Module Children.

Section Run.
Context {T W : Type} `{Vector.t T}.

(** The children evaluated one after the other on the same buffer, each
    from the state its predecessor left: the content of the buffer and the
    state after each call. *)
Fixpoint outputs (children : list (SteeringBehavior.t T W)) (w : W)
    (steering : SteeringAcceleration.t T)
    : list (SteeringAcceleration.t T * W) :=
  match children with
  | [] => []
  | child :: rest =>
      let '(steering, w) := SteeringBehavior.calculateSteering child w steering in
      (steering, w) :: outputs rest w steering
  end.

(** A child whose output does not depend on anything. *)
Definition constant (owner : Steerable.t T) (output : SteeringAcceleration.t T)
    : SteeringBehavior.t T W :=
  SteeringBehavior.new (SteeringBehavior.mkBase owner None true)
                       (fun w _ => (output, w)).

(** The vector sum of the weighted linear outputs, added in list order to
    [zero]. *)
Definition linearSum (zero : T)
    (terms : list (SteeringAcceleration.t T * R)) : T :=
  fold_left
    (fun acc term =>
       Vector.add acc (Vector.scale (SteeringAcceleration.linear (fst term))
                                    (snd term)))
    terms zero.

(** The sum of the weighted angular outputs. *)
Definition angularSum (terms : list (SteeringAcceleration.t T * R)) : R :=
  fold_right
    (fun term acc => SteeringAcceleration.angular (fst term) * snd term + acc)
    0 terms.

End Run.
End Children.

Module Examples.

Definition limiter (maxLinearSpeed maxLinearAcceleration
                    maxAngularSpeed maxAngularAcceleration : R) : Limiter.t :=
  Limiter.new (1 / 1000) maxLinearSpeed maxLinearAcceleration
              maxAngularSpeed maxAngularAcceleration.

(** An agent at rest at [(px, py)], facing angle 0. *)
Definition agent (ref : nat) (px py boundingRadius : R) (l : Limiter.t)
    : Steerable.t Vector2.t :=
  Steerable.new ref (Vector2.make px py) 0 (Vector2.make 0 0) 0
                boundingRadius false l.

Definition steering (lx ly angular : R) : SteeringAcceleration.t Vector2.t :=
  SteeringAcceleration.new (Vector2.make lx ly) angular.

End Examples.


Module PriorityExample.

Definition owner : Steerable.t Vector2.t :=
  Examples.agent 0 0 0 1 (Examples.limiter 10 10 10 10).

(** Four children of magnitudes 0, 0, 5 and 3, and epsilon 1. *)
Definition this : PrioritySteering.t Vector2.t unit :=
  PrioritySteering.add
    (PrioritySteering.add
       (PrioritySteering.add
          (PrioritySteering.add (PrioritySteering.new owner 1)
             (Children.constant owner (Examples.steering 0 0 0)))
          (Children.constant owner (Examples.steering 0 0 0)))
       (Children.constant owner (Examples.steering 5 0 0)))
    (Children.constant owner (Examples.steering 3 0 0)).

(** No child at all. *)
Definition childless : PrioritySteering.t Vector2.t unit :=
  PrioritySteering.new owner 1.

(** One child that only turns, and the default epsilon. *)
Definition turning : PrioritySteering.t Vector2.t unit :=
  PrioritySteering.add (PrioritySteering.new owner (1 / 1000))
    (Children.constant owner (Examples.steering 0 0 (-2))).

End PriorityExample.

Module BlendedExample.

(** The owner is the limiter: its maximum angular acceleration is 1. *)
Definition owner : Steerable.t Vector2.t :=
  Examples.agent 0 0 0 1 (Examples.limiter 10 10 10 1).

(** One child of weight 1 asking for the angular acceleration -10. *)
Definition this : BlendedSteering.t Vector2.t unit :=
  BlendedSteering.add (BlendedSteering.new owner)
    (Children.constant owner (Examples.steering 0 0 (-10))) 1.

(** Two children asking for the linear accelerations (6, 0) and (0, 4)
    with weights 1 and 2, under the maximum linear acceleration 5. *)
Definition linearOwner : Steerable.t Vector2.t :=
  Examples.agent 0 0 0 1 (Examples.limiter 10 5 10 1).

Definition pushing : BlendedSteering.t Vector2.t unit :=
  BlendedSteering.add
    (BlendedSteering.add (BlendedSteering.new linearOwner)
       (Children.constant linearOwner (Examples.steering 6 0 0)) 1)
    (Children.constant linearOwner (Examples.steering 0 4 0)) 2.

End BlendedExample.


Module ArriveExample.

(** The owner rests at the origin; maximum linear speed 10, maximum
    linear acceleration 5. *)
Definition owner : Steerable.t Vector2.t :=
  Examples.agent 0 0 0 1 (Examples.limiter 10 5 10 10).

(** The target is 5 away, past the tolerance 1 and inside the
    deceleration radius 10. *)
Definition this : Arrive.t Vector2.t :=
  Arrive.mk (SteeringBehavior.mkBase owner None true)
            (Vector2.make 3 4) 1 10 (1 / 10).

(** The target is the owner's position. *)
Definition there : Arrive.t Vector2.t :=
  Arrive.mk (SteeringBehavior.mkBase owner None true)
            (Vector2.make 0 0) 1 10 (1 / 10).

End ArriveExample.


Module ReachOrientationExample.

(** The owner faces angle 0 without turning; maximum angular speed 10,
    maximum angular acceleration 1. *)
Definition owner : Steerable.t Vector2.t :=
  Examples.agent 0 0 0 1 (Examples.limiter 10 10 10 1).

(** The target angle is just past half a turn; [alignTolerance] is 0. *)
Definition this : ReachOrientation.t Vector2.t :=
  ReachOrientation.mk (SteeringBehavior.mkBase owner None true)
                      (PI + 1 / 10) 0 0 (1 / 10).

End ReachOrientationExample.


Module Neighbors.

Section Report.
Context {T S : Type}.

(** The callback called on each of the given agents in turn; returns its
    final state and the count increased by the number of agents it
    accepted. *)
Fixpoint reportAll (callback : ProximityCallback T S)
    (neighbors : list (Steerable.t T)) (s : S) (count : nat) : S * nat :=
  match neighbors with
  | [] => (s, count)
  | neighbor :: rest =>
      let '(accepted, s) := callback s neighbor in
      reportAll callback rest s (if accepted then Datatypes.S count else count)
  end.

End Report.

(** A callback that accepts every agent and records it. *)
Definition recording {T : Type} : ProximityCallback T (list (Steerable.t T)) :=
  fun log neighbor => (true, log ++ [neighbor]).

(** A callback that accepts the first agent it is given and no other; its
    state tells whether it has accepted one. *)
Definition acceptingOnce {T : Type} : ProximityCallback T bool :=
  fun accepted neighbor => (negb accepted, true).

End Neighbors.

Module RadiusProximityExample.

Definition limiter : Limiter.t := Examples.limiter 10 10 10 10.

(** Three agents with bounding radius 0; the first is the owner. *)
Definition agent0 : Steerable.t Vector2.t := Examples.agent 0 0 0 0 limiter.
Definition agent1 : Steerable.t Vector2.t := Examples.agent 1 3 0 0 limiter.
Definition agent2 : Steerable.t Vector2.t := Examples.agent 2 10 0 0 limiter.

Definition this : RadiusProximity.t Vector2.t :=
  RadiusProximity.new agent0 [agent0; agent1; agent2] 5.

(** The agent at (3,0) listed twice. *)
Definition twice : RadiusProximity.t Vector2.t :=
  RadiusProximity.new agent0 [agent1; agent1] 5.

End RadiusProximityExample.


Module Collision.

Section Vocabulary.
Context {T : Type} `{Vector.t T}.

(** The position and the velocity of a neighbor relative to the owner. *)
Definition relativePosition (owner neighbor : Steerable.t T) : T :=
  Vector.sub (Steerable.getPosition neighbor) (Steerable.getPosition owner).

Definition relativeVelocity (owner neighbor : Steerable.t T) : T :=
  Vector.sub (Steerable.getLinearVelocity neighbor)
             (Steerable.getLinearVelocity owner).

(** The time of closest approach: minus the dot product of relative
    position and relative velocity over the squared relative speed. *)
Definition timeToCollision (owner neighbor : Steerable.t T) : R :=
  - Vector.dot (relativePosition owner neighbor) (relativeVelocity owner neighbor)
  / Vector.sqrLen (relativeVelocity owner neighbor).

(** The separation at that time. *)
Definition minSeparation (owner neighbor : Steerable.t T) : R :=
  Vector.len (relativePosition owner neighbor)
  - sqrt (Vector.sqrLen (relativeVelocity owner neighbor))
    * timeToCollision owner neighbor.

(** The tracked data of the most imminent collision are the same. *)
Definition sameCollision (a b : CollisionAvoidance.t T) : Prop :=
  CollisionAvoidance.self a = CollisionAvoidance.self b
  /\ CollisionAvoidance.shortestTime a = CollisionAvoidance.shortestTime b
  /\ CollisionAvoidance.firstNeighbor a = CollisionAvoidance.firstNeighbor b
  /\ CollisionAvoidance.firstMinSeparation a
     = CollisionAvoidance.firstMinSeparation b
  /\ CollisionAvoidance.firstDistance a = CollisionAvoidance.firstDistance b
  /\ CollisionAvoidance.firstRelativePosition a
     = CollisionAvoidance.firstRelativePosition b
  /\ CollisionAvoidance.firstRelativeVelocity a
     = CollisionAvoidance.firstRelativeVelocity b.

(** No collision with this neighbor can be the first one found: the
    relative speed is zero, or the closest approach is not ahead, or the
    two bounding circles stay apart. *)
Definition cannotCollide (owner neighbor : Steerable.t T) : Prop :=
  Vector.sqrLen (relativeVelocity owner neighbor) = 0
  \/ timeToCollision owner neighbor <= 0
  \/ minSeparation owner neighbor
     > Steerable.getBoundingRadius owner + Steerable.getBoundingRadius neighbor.

End Vocabulary.

(** A proximity that reports the given agents. *)
Definition reporting {T : Type} (neighbors : list (Steerable.t T)) : Proximity T :=
  fun S callback s =>
    let '(s, count) := Neighbors.reportAll callback neighbors s 0%nat in
    (count, s).

End Collision.


Module CollisionAvoidanceExample.

(** The owner and a neighbor 3 away, both at rest: their relative
    velocity is zero. *)
Definition owner : Steerable.t Vector2.t :=
  Examples.agent 0 0 0 1 (Examples.limiter 10 10 10 10).

Definition neighbor : Steerable.t Vector2.t :=
  Examples.agent 1 3 0 1 (Examples.limiter 10 10 10 10).

Definition this : CollisionAvoidance.t Vector2.t :=
  CollisionAvoidance.mk (SteeringBehavior.mkBase owner None true)
    None None 0 0 (SteeringBehavior.newVector owner)
    (SteeringBehavior.newVector owner) (SteeringBehavior.newVector owner)
    (SteeringBehavior.newVector owner).

(** Head on: the owner moves right at speed 1, another agent 4 to its
    right moves left at speed 1; both have bounding radius 1. *)
Definition runner : Steerable.t Vector2.t :=
  Steerable.new 0 (Vector2.make 0 0) 0 (Vector2.make 1 0) 0 1 false
                (Examples.limiter 10 10 10 10).

Definition oncoming : Steerable.t Vector2.t :=
  Steerable.new 1 (Vector2.make 4 0) 0 (Vector2.make (-1) 0) 0 1 false
                (Examples.limiter 10 10 10 10).

Definition headOn : CollisionAvoidance.t Vector2.t :=
  CollisionAvoidance.mk (SteeringBehavior.mkBase runner None true)
    None None 0 0 (SteeringBehavior.newVector runner)
    (SteeringBehavior.newVector runner) (SteeringBehavior.newVector runner)
    (SteeringBehavior.newVector runner).

End CollisionAvoidanceExample.


Module Trajectory.

Section Vocabulary.
Context {T : Type} `{Vector.t T}.

(** The gravity component [g], the vertical takeoff speed [v0] and the
    vertical distance [dy] of a jump. *)
Definition g (this : Jump.t T) : R :=
  GravityComponentHandler.getComponent (Jump.gravityComponentHandler this)
    (Jump.gravity this).

Definition v0 (this : Jump.t T) : R := Jump.maxVerticalVelocity this.

Definition dy (this : Jump.t T) (jumpDescriptor : JumpDescriptor.t T) : R :=
  GravityComponentHandler.getComponent (Jump.gravityComponentHandler this)
    (JumpDescriptor.delta jumpDescriptor).

(** [t] solves [v0 t + g t^2 / 2 = dy]. *)
Definition solves (this : Jump.t T) (jumpDescriptor : JumpDescriptor.t T)
    (t : R) : Prop :=
  v0 this * t + g this * (t * t) / 2 = dy this jumpDescriptor.

Definition discriminant (this : Jump.t T) (jumpDescriptor : JumpDescriptor.t T)
    : R :=
  2 * g this * dy this jumpDescriptor + v0 this * v0 this.

(** The two roots, in the order the source tries them, where the gravity
    component is not zero and the discriminant is not negative. *)
Definition firstTime (this : Jump.t T) (jumpDescriptor : JumpDescriptor.t T) : R :=
  (- v0 this + sqrt (discriminant this jumpDescriptor)) / g this.

Definition secondTime (this : Jump.t T) (jumpDescriptor : JumpDescriptor.t T) : R :=
  (- v0 this - sqrt (discriminant this jumpDescriptor)) / g this.

(** The planar part of the jump covered [factor] times. *)
Definition scaled (this : Jump.t T) (jumpDescriptor : JumpDescriptor.t T)
    (factor : R) : T :=
  GravityComponentHandler.setComponent (Jump.gravityComponentHandler this)
    (Vector.scale (JumpDescriptor.delta jumpDescriptor) factor) 0.

(** The planar velocity that covers the jump in time [t]. *)
Definition planar (this : Jump.t T) (jumpDescriptor : JumpDescriptor.t T)
    (t : R) : T :=
  scaled this jumpDescriptor (1 / t).

(** A vector with the planar components of [planarVelocity] and the
    vertical component of [outVelocity]. *)
Definition merged (this : Jump.t T) (planarVelocity outVelocity : T) : T :=
  GravityComponentHandler.setComponent (Jump.gravityComponentHandler this)
    planarVelocity
    (GravityComponentHandler.getComponent (Jump.gravityComponentHandler this)
       outVelocity).

(** The content of the output vector once that velocity is stored: its
    vertical component is kept. *)
Definition stored (this : Jump.t T) (jumpDescriptor : JumpDescriptor.t T)
    (outVelocity : T) (t : R) : T :=
  merged this (planar this jumpDescriptor t) outVelocity.

(** The test the source applies to a time that is a number: it is not
    zero and the planar velocity it requires is shorter than
    [maxLinearSpeed]. *)
Definition accepts (this : Jump.t T) (jumpDescriptor : JumpDescriptor.t T)
    (maxLinearSpeed t : R) : bool :=
  if Req_dec_T t 0 then false
  else if Rlt_dec (Vector.sqrLen (planar this jumpDescriptor t))
                  (maxLinearSpeed * maxLinearSpeed)
  then true else false.

(** What the specification says of the returned time: it is -1 or a
    non-negative root. *)
Definition nonNegativeRootOrMinusOne (this : Jump.t T)
    (jumpDescriptor : JumpDescriptor.t T) (time : Number.t) : Prop :=
  time = Number.finite (-1)
  \/ exists t : R,
       time = Number.finite t /\ 0 <= t /\ solves this jumpDescriptor t.

End Vocabulary.
End Trajectory.

Module JumpExample.

(** Gravity acts along the y axis of a 2D vector. *)
Definition handler : GravityComponentHandler.t Vector2.t :=
  GravityComponentHandler.new
    (fun vector => Vector2.y vector)
    (fun vector value => Vector2.make (Vector2.x vector) value).

Definition owner : Steerable.t Vector2.t :=
  Examples.agent 0 0 0 1 (Examples.limiter 10 10 10 10).

(** A jump 2 across and 8 down. *)
Definition descriptor : JumpDescriptor.t Vector2.t :=
  JumpDescriptor.new (Vector2.make 0 0) (Vector2.make 2 (-8)).

(** Gravity -1 and vertical takeoff speed 3. *)
Definition this : Jump.t Vector2.t :=
  Jump.mk (SteeringBehavior.mkBase owner None true) descriptor
          (Vector2.make 0 (-1)) handler 3 (Number.finite 0) false
          (JumpTarget.new owner)
          (SteeringBehavior.newVector owner).

(** A level jump 4 across, gravity -9 and vertical takeoff speed 9. *)
Definition level : JumpDescriptor.t Vector2.t :=
  JumpDescriptor.new (Vector2.make 0 0) (Vector2.make 4 0).

Definition onLevel : Jump.t Vector2.t :=
  Jump.mk (SteeringBehavior.mkBase owner None true) level
          (Vector2.make 0 (-9)) handler 9 (Number.finite 0) false
          (JumpTarget.new owner)
          (SteeringBehavior.newVector owner).

(** A jump 2 across and 8 up, out of reach of the vertical takeoff speed 3
    under gravity -1. *)
Definition upward : JumpDescriptor.t Vector2.t :=
  JumpDescriptor.new (Vector2.make 0 0) (Vector2.make 2 8).

(** No gravity: the jump 2 across and 8 down with vertical takeoff
    speed 3. *)
Definition weightless : Jump.t Vector2.t :=
  Jump.mk (SteeringBehavior.mkBase owner None true) descriptor
          (Vector2.make 0 0) handler 3 (Number.finite 0) false
          (JumpTarget.new owner)
          (SteeringBehavior.newVector owner).

(** The level jump for an owner that stands on the takeoff position and
    runs at the velocity (2, 0). *)
Definition runner : Steerable.t Vector2.t :=
  Steerable.new 0 (Vector2.make 0 0) 0 (Vector2.make 2 0) 0 1 false
                (Examples.limiter 10 10 10 10).


End JumpExample.


(** * Further sources *)

(** ** [steer/behaviors/Seek.ts] *)

Module Seek.

(** The target is a location; only its position is read. *)
Record t (T : Type) : Type := mk {
  self : SteeringBehavior.base T;
  target : T
}.
Arguments mk {T} _ _.
Arguments self {T} _.
Arguments target {T} _.

Section Methods.
Context {T : Type} `{Vector.t T}.

Definition new (owner : Steerable.t T) (target : T) : t T :=
  mk (SteeringBehavior.mkBase owner None true) target.

Definition calculateRealSteering (this : t T)
    (steering : SteeringAcceleration.t T) : SteeringAcceleration.t T :=
  let owner := SteeringBehavior.owner (self this) in
  let linear :=
    Vector.scale
      (Vector.nor
         (Vector.sub
            (Vector.copy (SteeringAcceleration.linear steering) (target this))
            (Steerable.getPosition owner)))
      (Limiter.getMaxLinearAcceleration
         (SteeringBehavior.getActualLimiter (self this))) in
  SteeringAcceleration.new linear 0.

Definition calculateSteering (this : t T)
    (steering : SteeringAcceleration.t T) : SteeringAcceleration.t T :=
  if SteeringBehavior.isEnabled (self this)
  then calculateRealSteering this steering
  else SteeringAcceleration.setZero steering.

End Methods.
End Seek.

(** ** [steer/behaviors/MatchVelocity.ts] *)

Module MatchVelocity.

Record t (T : Type) : Type := mk {
  self : SteeringBehavior.base T;
  target : Steerable.t T;
  timeToTarget : R
}.
Arguments mk {T} _ _ _.
Arguments self {T} _.
Arguments target {T} _.
Arguments timeToTarget {T} _.

Section Methods.
Context {T : Type} `{Vector.t T}.

Definition new (owner target : Steerable.t T) : t T :=
  mk (SteeringBehavior.mkBase owner None true) target (1 / 10).

(** The body of [calculateRealSteering], given what
    [this.target.getLinearVelocity()] returns; [Jump] inherits it with a
    target of its own. *)
Definition matchVelocity (self : SteeringBehavior.base T)
    (targetLinearVelocity : T) (timeToTarget : R)
    (steering : SteeringAcceleration.t T) : SteeringAcceleration.t T :=
  let owner := SteeringBehavior.owner self in
  let linear :=
    Vector.limit
      (Vector.scale
         (Vector.sub
            (Vector.copy (SteeringAcceleration.linear steering)
                         targetLinearVelocity)
            (Steerable.getLinearVelocity owner))
         (1 / timeToTarget))
      (Limiter.getMaxLinearAcceleration
         (SteeringBehavior.getActualLimiter self)) in
  SteeringAcceleration.new linear 0.

Definition calculateRealSteering (this : t T)
    (steering : SteeringAcceleration.t T) : SteeringAcceleration.t T :=
  matchVelocity (self this) (Steerable.getLinearVelocity (target this))
                (timeToTarget this) steering.

Definition calculateSteering (this : t T)
    (steering : SteeringAcceleration.t T) : SteeringAcceleration.t T :=
  if SteeringBehavior.isEnabled (self this)
  then calculateRealSteering this steering
  else SteeringAcceleration.setZero steering.

End Methods.
End MatchVelocity.

(** ** [steer/behaviors/Face.ts] and [LookWhereYouAreGoing.ts]

    Both extend [ReachOrientation].  [vectorToAngle] is the method of the
    owner (of the [Location] interface), which depends on the dimension. *)

Module Face.

Record t (T : Type) : Type := mk {
  super : ReachOrientation.t T;
  vectorToAngle : T -> R;
  target : T
}.
Arguments mk {T} _ _ _.
Arguments super {T} _.
Arguments vectorToAngle {T} _ _.
Arguments target {T} _.

Section Methods.
Context {T : Type} `{Vector.t T}.

(** [toTarget] is the [linear] vector of the buffer, which
    [reachOrientation] or [setZero] receives with that content. *)
Definition face (this : t T) (steering : SteeringAcceleration.t T)
    (targetPosition : T) : SteeringAcceleration.t T :=
  let self := ReachOrientation.self (super this) in
  let toTarget :=
    Vector.sub (Vector.copy (SteeringAcceleration.linear steering) targetPosition)
               (Steerable.getPosition (SteeringBehavior.owner self)) in
  let steering :=
    SteeringAcceleration.new toTarget (SteeringAcceleration.angular steering) in
  if Rlt_dec (Vector.sqrLen toTarget)
             (Limiter.getZeroLinearSpeedThreshold
                (SteeringBehavior.getActualLimiter self))
  then SteeringAcceleration.setZero steering
  else
    let orientation := vectorToAngle this toTarget in
    ReachOrientation.reachOrientation (super this) steering orientation.

Definition calculateRealSteering (this : t T)
    (steering : SteeringAcceleration.t T) : SteeringAcceleration.t T :=
  face this steering (target this).

Definition calculateSteering (this : t T)
    (steering : SteeringAcceleration.t T) : SteeringAcceleration.t T :=
  if SteeringBehavior.isEnabled (ReachOrientation.self (super this))
  then calculateRealSteering this steering
  else SteeringAcceleration.setZero steering.

End Methods.
End Face.

Module LookWhereYouAreGoing.

Record t (T : Type) : Type := mk {
  super : ReachOrientation.t T;
  vectorToAngle : T -> R
}.
Arguments mk {T} _ _.
Arguments super {T} _.
Arguments vectorToAngle {T} _ _.

Section Methods.
Context {T : Type} `{Vector.t T}.

Definition calculateRealSteering (this : t T)
    (steering : SteeringAcceleration.t T) : SteeringAcceleration.t T :=
  let self := ReachOrientation.self (super this) in
  let owner := SteeringBehavior.owner self in
  if Rlt_dec (Vector.sqrLen (Steerable.getLinearVelocity owner))
             (Limiter.getZeroLinearSpeedThreshold
                (SteeringBehavior.getActualLimiter self))
  then SteeringAcceleration.setZero steering
  else
    let orientation := vectorToAngle this (Steerable.getLinearVelocity owner) in
    ReachOrientation.reachOrientation (super this) steering orientation.

Definition calculateSteering (this : t T)
    (steering : SteeringAcceleration.t T) : SteeringAcceleration.t T :=
  if SteeringBehavior.isEnabled (ReachOrientation.self (super this))
  then calculateRealSteering this steering
  else SteeringAcceleration.setZero steering.

End Methods.
End LookWhereYouAreGoing.


(** ** [steer/utils/paths/LinePath.ts]: the other methods *)

Module LinePathParam.

(** Both fields are [undefined] ([None]) in a new parameter. *)
Record t : Type := mk {
  segmentIndex : option nat;
  distance : option R
}.

Definition new : t := mk None None.

Definition getDistance (this : t) : option R := distance this.

Definition setDistance (this : t) (distance : R) : t :=
  mk (segmentIndex this) (Some distance).

Definition getSegmentIndex (this : t) : option nat := segmentIndex this.

End LinePathParam.

Module LinePathMethods.

Section Methods.
Context {T : Type} `{Vector.t T}.

(** [clamp] of [math/clamp], a file that is not among the sources: it is
    an argument of the methods that call it, and the statements say what
    they assume of it. *)
Variable clamp : R -> R -> R -> R.

Definition isOpen (this : LinePath.t T) : bool := LinePath._isOpen this.

Definition getLength (this : LinePath.t T) : R := LinePath.pathLength this.

(** [segments[0].begin]; reading a field of [undefined] throws. *)
Definition getStartPoint (this : LinePath.t T) : Result T :=
  match LinePath.segments this with
  | [] => Throws Messages.typeError
  | first :: _ => Returns (Segment.begin first)
  end.

Definition getEndPoint (this : LinePath.t T) : Result T :=
  match LinePath.segments this with
  | [] => Throws Messages.typeError
  | first :: rest => Returns (Segment.end_ (last rest first))
  end.

Definition setScratch (this : LinePath.t T) (tmpB tmpC : T) : LinePath.t T :=
  LinePath.mk (LinePath.segments this) (LinePath._isOpen this)
    (LinePath.pathLength this)
    (LinePath.nearestPointOnCurrentSegment T this)
    (LinePath.nearestPointOnPath T this) tmpB tmpC.

(** Returns the squared distance, the content of [out] and the path with
    its two scratch vectors updated. *)
Definition calculatePointSegmentSquareDistance (this : LinePath.t T)
    (out a b c : T) : R * T * LinePath.t T :=
  let out := Vector.copy out a in
  let tmpB := Vector.copy (LinePath.tmpB T this) b in
  let tmpC := Vector.copy (LinePath.tmpC T this) c in
  let ab := Vector.sub tmpB a in
  let abLen2 := Vector.sqrLen ab in
  if Req_dec_T abLen2 0 then
    (Vector.dst2 out c, out, setScratch this ab tmpC)
  else
    let tmpC := Vector.sub tmpC a in
    let t := Vector.dot tmpC ab / abLen2 in
    let out := Vector.scaleAndAdd out ab (clamp t 0 1) in
    (Vector.dst2 out c, out, setScratch this ab tmpC).

(** [a < b] where [b] may be [Infinity] ([None]). *)
Definition ltSmallest (a : R) (b : option R) : bool :=
  match b with
  | None => true
  | Some b => if Rlt_dec a b then true else false
  end.

Definition setNearest (this : LinePath.t T) (current onPath : T)
    : LinePath.t T :=
  LinePath.mk (LinePath.segments this) (LinePath._isOpen this)
    (LinePath.pathLength this) current onPath
    (LinePath.tmpB T this) (LinePath.tmpC T this).

(** The [for] loop of [calculateDistance] from index [i] on. *)
Fixpoint nearest (this : LinePath.t T) (agentCurrPos : T)
    (rest : list (Segment.t T)) (i : nat)
    (smallestDistance2 : option R) (nearestSegment : option (Segment.t T))
    (parameter : LinePathParam.t)
    : option (Segment.t T) * LinePathParam.t * LinePath.t T :=
  match rest with
  | [] => (nearestSegment, parameter, this)
  | segment :: rest' =>
      let '(distance2, current, this) :=
        calculatePointSegmentSquareDistance this
          (LinePath.nearestPointOnCurrentSegment T this)
          (Segment.begin segment) (Segment.end_ segment) agentCurrPos in
      let this := setNearest this current (LinePath.nearestPointOnPath T this) in
      if ltSmallest distance2 smallestDistance2 then
        let this :=
          setNearest this current
            (Vector.copy (LinePath.nearestPointOnPath T this) current) in
        nearest this agentCurrPos rest' (S i) (Some distance2) (Some segment)
                (LinePathParam.mk (Some i) (LinePathParam.distance parameter))
      else
        nearest this agentCurrPos rest' (S i) smallestDistance2 nearestSegment
                parameter
  end.

(** Returns the distance from the start of the path, the parameter and
    the path with its scratch vectors updated; with no segment the read of
    [nearestSegment.cumulativeLength] throws. *)
Definition calculateDistance (this : LinePath.t T) (agentCurrPos : T)
    (parameter : LinePathParam.t) : Result (R * LinePathParam.t * LinePath.t T) :=
  let '(nearestSegment, parameter, this) :=
    nearest this agentCurrPos (LinePath.segments this) 0%nat None None
            parameter in
  match nearestSegment with
  | None => Throws Messages.typeError
  | Some nearestSegment =>
      let lengthOnPath :=
        Segment.cumulativeLength nearestSegment
        - Vector.dst (LinePath.nearestPointOnPath T this)
                     (Segment.end_ nearestSegment) in
      Returns (lengthOnPath, LinePathParam.setDistance parameter lengthOnPath,
               this)
  end.

(** The target distance brought into the path: clamped on an open path,
    wrapped on a closed one. *)
Definition wrapDistance (this : LinePath.t T) (targetDistance : R) : R :=
  if LinePath._isOpen this then
    if Rlt_dec targetDistance 0 then 0
    else if Rgt_dec targetDistance (LinePath.pathLength this)
    then LinePath.pathLength this
    else targetDistance
  else
    if Rlt_dec targetDistance 0
    then LinePath.pathLength this
         + JS.rem targetDistance (LinePath.pathLength this)
    else if Rgt_dec targetDistance (LinePath.pathLength this)
    then JS.rem targetDistance (LinePath.pathLength this)
    else targetDistance.

(** The walk through the segments. *)
Fixpoint desired (rest : list (Segment.t T)) (targetDistance : R)
    : option (Segment.t T) :=
  match rest with
  | [] => None
  | segment :: rest' =>
      if Rge_dec (Segment.cumulativeLength segment) targetDistance
      then Some segment
      else desired rest' targetDistance
  end.

(** Returns the content of [out]; when no segment is found the read of
    [desiredSegment.cumulativeLength] throws. *)
Definition calculateTargetPosition (this : LinePath.t T) (out : T)
    (param : LinePathParam.t) (targetDistance : R) : Result T :=
  let targetDistance := wrapDistance this targetDistance in
  match desired (LinePath.segments this) targetDistance with
  | None => Throws Messages.typeError
  | Some desiredSegment =>
      let distance :=
        Segment.cumulativeLength desiredSegment - targetDistance in
      Returns
        (Vector.add
           (Vector.scale
              (Vector.sub (Vector.copy out (Segment.begin desiredSegment))
                          (Segment.end_ desiredSegment))
              (distance / Segment.length desiredSegment))
           (Segment.end_ desiredSegment))
  end.

End Methods.
End LinePathMethods.


(** ** [utils/Ray.ts], [utils/Collision.ts], [utils/RaycastCollisionDetector.ts] *)

Module Utils.

Module Ray.

Record t (T : Type) : Type := new { start : T; end_ : T }.
Arguments new {T} _ _.
Arguments start {T} _.
Arguments end_ {T} _.

Definition copy {T : Type} `{Vector.t T} (this ray : t T) : t T :=
  new (Vector.copy (start this) (start ray)) (Vector.copy (end_ this) (end_ ray)).

Definition set {T : Type} `{Vector.t T} (this : t T) (start' end' : T) : t T :=
  new (Vector.copy (start this) start') (Vector.copy (end_ this) end').

End Ray.

Module Collision.

Record t (T : Type) : Type := new { point : T; normal : T }.
Arguments new {T} _ _.
Arguments point {T} _.
Arguments normal {T} _.

Definition copy {T : Type} `{Vector.t T} (this collision : t T) : t T :=
  new (Vector.copy (point this) (point collision))
      (Vector.copy (normal this) (normal collision)).

Definition set {T : Type} `{Vector.t T} (this : t T) (point' normal' : T) : t T :=
  new (Vector.copy (point this) point') (Vector.copy (normal this) normal').

End Collision.

(** [findCollision(outputCollision, inputRay)]: the detector is given the
    content of the output collision and returns its answer with the new
    content. *)
Definition RaycastCollisionDetector (T : Type) : Type :=
  Collision.t T -> Ray.t T -> bool * Collision.t T.

End Utils.

(** ** [steer/utils/rays/SingleRayConfiguration.ts] *)

Module SingleRayConfiguration.

Record t (T : Type) : Type := mk {
  owner : Steerable.t T;
  rays : list (Utils.Ray.t T);
  length : R
}.
Arguments mk {T} _ _ _.
Arguments owner {T} _.
Arguments rays {T} _.
Arguments length {T} _.

Section Methods.
Context {T : Type} `{Vector.t T}.

(** The constructor of [RayConfigurationBase] with one ray. *)
Definition new (owner : Steerable.t T) (length : R) : t T :=
  mk owner
     [Utils.Ray.new (Vector.setZero (Vector.clone (Steerable.getPosition owner)))
                    (Vector.setZero (Vector.clone (Steerable.getPosition owner)))]
     length.

(** Returns the rays, which the configuration keeps; [rays[0]] of an
    empty array is [undefined] and the read of its [start] throws. *)
Definition updateRays (this : t T) : Result (list (Utils.Ray.t T) * t T) :=
  match rays this with
  | [] => Throws Messages.typeError
  | ray0 :: rest =>
      let start :=
        Vector.copy (Utils.Ray.start ray0) (Steerable.getPosition (owner this)) in
      let end_ :=
        Vector.add
          (Vector.scale
             (Vector.nor
                (Vector.copy (Utils.Ray.end_ ray0)
                             (Steerable.getLinearVelocity (owner this))))
             (length this))
          start in
      let rays := Utils.Ray.new start end_ :: rest in
      Returns (rays, mk (owner this) rays (length this))
  end.

End Methods.
End SingleRayConfiguration.

(** ** [steer/behaviors/RaycastObstacleAvoidance.ts] *)

Module RaycastObstacleAvoidance.

(** [inputRays] is what [rayConfiguration.updateRays()] returns at this
    evaluation. *)
Record t (T : Type) : Type := mk {
  self : SteeringBehavior.base T;
  inputRays : list (Utils.Ray.t T);
  raycastCollisionDetector : Utils.RaycastCollisionDetector T;
  distanceFromBoundary : R;
  outputCollision : Utils.Collision.t T;
  minOutputCollision : Utils.Collision.t T
}.
Arguments mk {T} _ _ _ _ _ _.
Arguments self {T} _.
Arguments inputRays {T} _.
Arguments raycastCollisionDetector {T} _.
Arguments distanceFromBoundary {T} _.
Arguments outputCollision {T} _.
Arguments minOutputCollision {T} _.

Section Methods.
Context {T : Type} `{Vector.t T}.

(** [a < b] where [b] may be [Infinity] ([None]). *)
Definition ltMin (a : R) (b : option R) : bool :=
  match b with
  | None => true
  | Some b => if Rlt_dec a b then true else false
  end.

(** The [for] loop over the rays still to be cast; returns the minimum
    squared distance and the two collision buffers. *)
Fixpoint process (detector : Utils.RaycastCollisionDetector T)
    (ownerPosition : T) (rays : list (Utils.Ray.t T))
    (minDistanceSquare : option R)
    (outputCollision minOutputCollision : Utils.Collision.t T)
    : option R * Utils.Collision.t T * Utils.Collision.t T :=
  match rays with
  | [] => (minDistanceSquare, outputCollision, minOutputCollision)
  | ray :: rest =>
      let '(collided, outputCollision) := detector outputCollision ray in
      if collided then
        let distanceSquare :=
          Vector.dst2 ownerPosition (Utils.Collision.point outputCollision) in
        if ltMin distanceSquare minDistanceSquare then
          process detector ownerPosition rest (Some distanceSquare)
                  minOutputCollision outputCollision
        else
          process detector ownerPosition rest minDistanceSquare
                  outputCollision minOutputCollision
      else
        process detector ownerPosition rest minDistanceSquare
                outputCollision minOutputCollision
  end.

Definition calculateRealSteering (this : t T)
    (steering : SteeringAcceleration.t T) : SteeringAcceleration.t T * t T :=
  let owner := SteeringBehavior.owner (self this) in
  let ownerPosition := Steerable.getPosition owner in
  let '(minDistanceSquare, outputCollision, minOutputCollision) :=
    process (raycastCollisionDetector this) ownerPosition (inputRays this)
            None (outputCollision this) (minOutputCollision this) in
  let this :=
    mk (self this) (inputRays this) (raycastCollisionDetector this)
       (distanceFromBoundary this) outputCollision minOutputCollision in
  match minDistanceSquare with
  | None => (SteeringAcceleration.setZero steering, this)
  | Some _ =>
      let linear :=
        Vector.scale
          (Vector.nor
             (Vector.sub
                (Vector.scaleAndAdd
                   (Vector.copy (SteeringAcceleration.linear steering)
                                (Utils.Collision.point minOutputCollision))
                   (Utils.Collision.normal minOutputCollision)
                   (Steerable.getBoundingRadius owner + distanceFromBoundary this))
                (Steerable.getPosition owner)))
          (Limiter.getMaxLinearAcceleration
             (SteeringBehavior.getActualLimiter (self this))) in
      (SteeringAcceleration.new linear 0, this)
  end.

Definition calculateSteering (this : t T)
    (steering : SteeringAcceleration.t T) : SteeringAcceleration.t T * t T :=
  if SteeringBehavior.isEnabled (self this)
  then calculateRealSteering this steering
  else (SteeringAcceleration.setZero steering, this).

End Methods.
End RaycastObstacleAvoidance.

(** ** [math/randomTriangular.ts]

    [r1] and [r2] are the two values [Math.random()] returns, the left
    operand first. *)

Definition randomTriangular (r1 r2 : R) (max : R) : R := (r1 - r2) * max.


(** ** [steer/behaviors/Jump.ts]: the behavior

    [JumpCallback] is modelled by the sequence of the calls it receives.
    The target inherited from [MatchVelocity] is [null] ([None]) or an
    object of which the position and the linear velocity are read; after
    [calculateTarget] it is the jump target of the behavior. *)

Module JumpCallback.

Inductive call : Type :=
| reportAchievability (achievable : bool)
| takeoff (maxVerticalVelocity : R) (time : Number.t).



End JumpCallback.

Module JumpSteering.

Record t (T : Type) : Type := mk {
  jump : Jump.t T;
  target : option (JumpTarget.t T);
  timeToTarget : R;
  takeoffPositionTolerance : R;
  takeoffVelocityTolerance : R
}.
Arguments mk {T} _ _ _ _ _.
Arguments jump {T} _.
Arguments target {T} _.
Arguments timeToTarget {T} _.
Arguments takeoffPositionTolerance {T} _.
Arguments takeoffVelocityTolerance {T} _.

Section Methods.
Context {T : Type} `{Vector.t T}.

Definition setAchievable (j : Jump.t T) (b : bool) : Jump.t T :=
  Jump.mk (Jump.self j) (Jump.jumpDescriptor j) (Jump.gravity j)
          (Jump.gravityComponentHandler j) (Jump.maxVerticalVelocity j)
          (Jump.airborneTime j) b (Jump.jumpTarget j) (Jump.planarVelocity j).

Definition setJumpDescriptor (this : t T) (jumpDescriptor : JumpDescriptor.t T)
    : t T :=
  let j := jump this in
  mk (Jump.mk (Jump.self j) jumpDescriptor (Jump.gravity j)
              (Jump.gravityComponentHandler j) (Jump.maxVerticalVelocity j)
              (Jump.airborneTime j) false (Jump.jumpTarget j)
              (Jump.planarVelocity j))
     None (timeToTarget this) (takeoffPositionTolerance this)
     (takeoffVelocityTolerance this).

(** The first statement: the trajectory is computed when there is no
    target, and the callback is told whether the jump is achievable. *)
Definition ensureTarget (this : t T) (calls : list JumpCallback.call)
    : t T * list JumpCallback.call :=
  match target this with
  | Some _ => (this, calls)
  | None =>
      let j := Jump.calculateTarget (jump this) in
      (mk j (Some (Jump.jumpTarget j)) (timeToTarget this)
          (takeoffPositionTolerance this) (takeoffVelocityTolerance this),
       calls ++ [JumpCallback.reportAchievability (Jump.isJumpAchievable j)])
  end.

(** Returns the steering, the behavior and the calls the callback has
    received so far.  The last case is not reached, as [ensureTarget]
    leaves a target. *)
Definition calculateRealSteering (this : t T)
    (calls : list JumpCallback.call) (steering : SteeringAcceleration.t T)
    : SteeringAcceleration.t T * t T * list JumpCallback.call :=
  let '(this, calls) := ensureTarget this calls in
  if negb (Jump.isJumpAchievable (jump this))
  then (SteeringAcceleration.setZero steering, this, calls)
  else
    let owner := SteeringBehavior.owner (Jump.self (jump this)) in
    match target this with
    | Some target =>
        if Vector.epsilonEquals (Steerable.getPosition owner)
             (JumpTarget.position target) (takeoffPositionTolerance this)
           && Vector.epsilonEquals (Steerable.getLinearVelocity owner)
                (Some (JumpTarget.linearVelocity target))
                (takeoffVelocityTolerance this)
        then
          (SteeringAcceleration.setZero steering,
           mk (setAchievable (jump this) false) (Some target)
              (timeToTarget this) (takeoffPositionTolerance this)
              (takeoffVelocityTolerance this),
           calls ++ [JumpCallback.takeoff
                       (Jump.maxVerticalVelocity (jump this))
                       (Jump.airborneTime (jump this))])
        else
          (MatchVelocity.matchVelocity (Jump.self (jump this))
             (JumpTarget.linearVelocity target) (timeToTarget this) steering,
           this, calls)
    | None => (steering, this, calls)
    end.


End Methods.
End JumpSteering.


(** ** Geometry of the vector classes

    Identities of [nor], [dot], [dst] and [dst2] which both vector classes
    satisfy; the statements on paths, rays and seeking assume them of the
    vector type. *)

Module VectorGeometry.

Class t (T : Type) `{Vector.t T} : Prop := {
  nor_eq :
    forall v : T,
      Vector.nor v =
      if Rgt_dec (Vector.sqrLen v) 0
      then Vector.scale v (1 / sqrt (Vector.sqrLen v))
      else v;
  sqrLen_zero : forall v : T, Vector.sqrLen v = 0 -> v = Vector.setZero v;
  isZero_iff : forall v : T, Vector.isZero v = true <-> Vector.sqrLen v = 0;
  dst_dst2 : forall a b : T, Vector.dst a b = sqrt (Vector.dst2 a b);
  dst2_sub : forall a b : T, Vector.dst2 a b = Vector.sqrLen (Vector.sub b a);
  dst2_sym : forall a b : T, Vector.dst2 a b = Vector.dst2 b a;
  dot_sqr_le :
    forall u v : T,
      Vector.dot u v * Vector.dot u v <= Vector.sqrLen u * Vector.sqrLen v;
  add_scale_0 : forall a u : T, Vector.add a (Vector.scale u 0) = a;
  add_sub : forall a b : T, Vector.add (Vector.sub a b) b = a;
  sub_add : forall a b : T, Vector.sub (Vector.add a b) a = b;
  add_setZero : forall a b : T, Vector.add (Vector.setZero a) b = b;
  add_zero_scale : forall u b : T, Vector.add (Vector.scale u 0) b = b;
  sub_add_r : forall a b : T, Vector.sub (Vector.add a b) b = a;
  (** the point at [s] along [u] from [a], seen from [c] *)
  dst2_along :
    forall (a u c : T) (s : R),
      Vector.dst2 (Vector.add a (Vector.scale u s)) c =
      Vector.dst2 a c - 2 * s * Vector.dot (Vector.sub c a) u
      + s * s * Vector.sqrLen u;
  (** the same point of a segment, from either end *)
  along_reverse :
    forall (a b : T) (s : R),
      Vector.add (Vector.scale (Vector.sub a b) (1 - s)) b =
      Vector.add a (Vector.scale (Vector.sub b a) s);
  dst2_along_end :
    forall (a b : T) (s : R),
      Vector.dst2 (Vector.add a (Vector.scale (Vector.sub b a) s)) b =
      (1 - s) * (1 - s) * Vector.dst2 a b
}.

End VectorGeometry.


(** ** Example inputs of the further statements *)

Module SeekExample.

(** An agent at the origin, at rest, with a linear acceleration cap of 5. *)
Definition owner : Steerable.t Vector2.t :=
  Examples.agent 0 0 0 1 (Examples.limiter 10 5 10 10).

Definition this : Seek.t Vector2.t := Seek.new owner (Vector2.make 3 4).

(** A target moving with velocity [(3, 4)]. *)
Definition moving : Steerable.t Vector2.t :=
  Steerable.new 1 (Vector2.make 9 9) 0 (Vector2.make 3 4) 0 1 false
                (Examples.limiter 10 5 10 10).

Definition matching : MatchVelocity.t Vector2.t := MatchVelocity.new owner moving.

End SeekExample.


Module FaceExample.

(** [vectorToAngle] of an owner for which every vector has angle 1. *)
Definition vectorToAngle (v : Vector2.t) : R := 1.

Definition this : Face.t Vector2.t :=
  Face.mk (ReachOrientation.new SeekExample.owner 0) vectorToAngle
          (Vector2.make 3 4).

Definition looking : LookWhereYouAreGoing.t Vector2.t :=
  LookWhereYouAreGoing.mk (ReachOrientation.new SeekExample.moving 0)
                          vectorToAngle.

End FaceExample.


(** ** Vocabulary of the statements on the most imminent collision *)

Module Threat.

Section Vocabulary.
Context {T : Type} `{Vector.t T}.

(** A neighbor the owner is going to collide with: they move relative to
    each other, the closest approach is ahead, and the two bounding
    circles touch by then. *)
Definition threat (owner neighbor : Steerable.t T) : Prop :=
  Vector.sqrLen (Collision.relativeVelocity owner neighbor) <> 0
  /\ Collision.timeToCollision owner neighbor > 0
  /\ Collision.minSeparation owner neighbor
     <= Steerable.getBoundingRadius owner + Steerable.getBoundingRadius neighbor.

(** The stored data are those of the collision with [first]. *)
Definition tracks (this : CollisionAvoidance.t T) (first : Steerable.t T) : Prop :=
  let owner := SteeringBehavior.owner (CollisionAvoidance.self this) in
  CollisionAvoidance.shortestTime this
  = Some (Collision.timeToCollision owner first)
  /\ CollisionAvoidance.firstNeighbor this = Some first
  /\ CollisionAvoidance.firstMinSeparation this
     = Collision.minSeparation owner first
  /\ CollisionAvoidance.firstDistance this
     = Vector.len (Collision.relativePosition owner first)
  /\ CollisionAvoidance.firstRelativePosition this
     = Collision.relativePosition owner first
  /\ CollisionAvoidance.firstRelativeVelocity this
     = Collision.relativeVelocity owner first.

(** [first] is a threat among [agents], and none of their threats comes
    sooner. *)
Definition mostImminent (owner : Steerable.t T) (agents : list (Steerable.t T))
    (first : Steerable.t T) : Prop :=
  In first agents
  /\ threat owner first
  /\ forall n : Steerable.t T,
       In n agents -> threat owner n ->
       Collision.timeToCollision owner first <= Collision.timeToCollision owner n.

(** What the scan of [seen] has left in the behavior, [count] being the
    number of accepted neighbors. *)
Definition scanned (this : CollisionAvoidance.t T)
    (seen : list (Steerable.t T)) (count : nat) : Prop :=
  let owner := SteeringBehavior.owner (CollisionAvoidance.self this) in
  match CollisionAvoidance.firstNeighbor this with
  | None =>
      CollisionAvoidance.shortestTime this = None
      /\ count = 0%nat
      /\ forall n : Steerable.t T, In n seen -> ~ threat owner n
  | Some first =>
      (0 < count)%nat /\ tracks this first /\ mostImminent owner seen first
  end.

(** The point the owner steers away from: the neighbor where it is now
    when the two are going to hit exactly or overlap already, otherwise
    the neighbor where it will be, relative to the owner, at the closest
    approach. *)
Definition avoided (owner first : Steerable.t T) : T :=
  if Rle_dec (Collision.minSeparation owner first) 0 then
    Collision.relativePosition owner first
  else if Rlt_dec (Vector.len (Collision.relativePosition owner first))
            (Steerable.getBoundingRadius owner
             + Steerable.getBoundingRadius first) then
    Collision.relativePosition owner first
  else
    Vector.add (Collision.relativePosition owner first)
      (Vector.scale (Collision.relativeVelocity owner first)
                    (Collision.timeToCollision owner first)).

End Vocabulary.
End Threat.


(** ** Vocabulary of the statements on paths *)

Module PathShape.

Section Vocabulary.
Context {T : Type} `{Vector.t T}.

(** The point of a segment at the fraction [s] of its length from its
    beginning. *)
Definition pointAt (seg : Segment.t T) (s : R) : T :=
  Vector.add (Segment.begin seg)
    (Vector.scale (Vector.sub (Segment.end_ seg) (Segment.begin seg)) s).

(** The segments follow one another from [start], each with the distance
    between its ends as length and the running sum from [acc] as
    cumulative length. *)
Fixpoint chained (start : T) (acc : R) (segs : list (Segment.t T)) : Prop :=
  match segs with
  | [] => True
  | seg :: rest =>
      Segment.begin seg = start
      /\ Segment.length seg = Vector.dst (Segment.begin seg) (Segment.end_ seg)
      /\ Segment.cumulativeLength seg = acc + Segment.length seg
      /\ chained (Segment.end_ seg) (Segment.cumulativeLength seg) rest
  end.

Definition total (acc : R) (segs : list (Segment.t T)) : R :=
  fold_left (fun a seg => a + Segment.length seg) segs acc.

(** A path as [createPath] builds it from waypoints of which no two
    consecutive ones coincide. *)
Definition wellFormed (this : LinePath.t T) : Prop :=
  match LinePath.segments this with
  | [] => False
  | first :: _ => chained (Segment.begin first) 0 (LinePath.segments this)
  end
  /\ LinePath.pathLength this = total 0 (LinePath.segments this)
  /\ Forall (fun seg => 0 < Segment.length seg) (LinePath.segments this).

(** What the statements assume of [clamp] between 0 and 1. *)
Definition clamps (clamp : R -> R -> R -> R) : Prop :=
  forall t : R,
    (t < 0 -> clamp t 0 1 = 0)
    /\ (0 <= t <= 1 -> clamp t 0 1 = t)
    /\ (1 < t -> clamp t 0 1 = 1).

(** [p] is the point at the fraction [s] of the segment of index [i], and
    no point of the segments is nearer to [pos]. *)
Definition nearestAt (segs : list (Segment.t T)) (pos : T)
    (i : nat) (seg : Segment.t T) (s : R) (p : T) : Prop :=
  nth_error segs i = Some seg
  /\ 0 <= s <= 1
  /\ p = pointAt seg s
  /\ forall (seg' : Segment.t T) (s' : R),
       In seg' segs -> 0 <= s' <= 1 ->
       Vector.dst2 p pos <= Vector.dst2 (pointAt seg' s') pos.

(** The state of the loop of [calculateDistance] after the segments
    [seen]. *)
Definition searched (seen : list (Segment.t T)) (pos : T)
    (smallestDistance2 : option R) (nearestSegment : option (Segment.t T))
    (parameter : LinePathParam.t) (nearestPointOnPath : T) : Prop :=
  match nearestSegment with
  | None => smallestDistance2 = None /\ seen = []
  | Some seg =>
      exists (i : nat) (s : R),
        smallestDistance2 = Some (Vector.dst2 nearestPointOnPath pos)
        /\ LinePathParam.segmentIndex parameter = Some i
        /\ nearestAt seen pos i seg s nearestPointOnPath
  end.

End Vocabulary.

(** [clamp] by comparisons, for the examples. *)
Definition clamp (value min max : R) : R :=
  if Rlt_dec value min then min
  else if Rgt_dec value max then max
  else value.

End PathShape.


Module PathExample.

Definition waypoints : list Vector2.t :=
  [Vector2.make 0 0; Vector2.make 3 0; Vector2.make 3 4].

(** The open path through the waypoints, as [LinePath.new] stores it, the
    lengths 3 and 4 evaluated. *)
Definition this : LinePath.t Vector2.t :=
  LinePath.mk
    [Segment.mk (Vector2.make 0 0) (Vector2.make 3 0) 3 3;
     Segment.mk (Vector2.make 3 0) (Vector2.make 3 4) 4 7]
    true 7
    (Vector2.make 0 0) (Vector2.make 0 0) (Vector2.make 0 0) (Vector2.make 0 0).

End PathExample.


(** ** Vocabulary of the statements on rays *)

Module RayShape.

Section Vocabulary.
Context {T : Type} `{Vector.t T}.

(** The answer of the detector for a ray, and the collision it reports,
    do not depend on what the output collision held before. *)
Definition stable (detector : Utils.RaycastCollisionDetector T) : Prop :=
  forall (b b' : Utils.Collision.t T) (ray : Utils.Ray.t T),
    fst (detector b ray) = fst (detector b' ray)
    /\ (fst (detector b ray) = true -> snd (detector b ray) = snd (detector b' ray)).

(** [ray] hits an obstacle, with collision [c]. *)
Definition hits (detector : Utils.RaycastCollisionDetector T)
    (ray : Utils.Ray.t T) (c : Utils.Collision.t T) : Prop :=
  exists b : Utils.Collision.t T, detector b ray = (true, c).

(** What the loop over the rays [seen] has left. *)
Definition cast (detector : Utils.RaycastCollisionDetector T) (pos : T)
    (seen : list (Utils.Ray.t T)) (minDistanceSquare : option R)
    (minOutputCollision : Utils.Collision.t T) : Prop :=
  match minDistanceSquare with
  | None => forall ray c, In ray seen -> ~ hits detector ray c
  | Some d =>
      d = Vector.dst2 pos (Utils.Collision.point minOutputCollision)
      /\ (exists ray, In ray seen /\ hits detector ray minOutputCollision)
      /\ forall ray c,
           In ray seen -> hits detector ray c ->
           d <= Vector.dst2 pos (Utils.Collision.point c)
  end.

(** The point the owner seeks: the collision point moved along the
    normal by the bounding radius of the owner and the distance to keep. *)
Definition clearPoint (c : Utils.Collision.t T) (margin : R) : T :=
  Vector.add (Utils.Collision.point c)
             (Vector.scale (Utils.Collision.normal c) margin).

End Vocabulary.
End RayShape.

Module RaycastExample.

(** A wall at [x = 2] facing the owner: a ray collides when it ends
    beyond the wall. *)
Definition wall : Utils.RaycastCollisionDetector Vector2.t :=
  fun outputCollision ray =>
    if Rgt_dec (Vector2.x (Utils.Ray.end_ ray)) 2
    then (true, Utils.Collision.new (Vector2.make 2 0) (Vector2.make (-1) 0))
    else (false, outputCollision).

Definition ray : Utils.Ray.t Vector2.t :=
  Utils.Ray.new (Vector2.make 0 0) (Vector2.make 3 0).

Definition this : RaycastObstacleAvoidance.t Vector2.t :=
  RaycastObstacleAvoidance.mk
    (SteeringBehavior.mkBase SeekExample.owner None true)
    [ray] wall 1
    (Utils.Collision.new (Vector2.make 0 0) (Vector2.make 0 0))
    (Utils.Collision.new (Vector2.make 0 0) (Vector2.make 0 0)).

End RaycastExample.


Module SingleRayExample.

(** A ray of length 2 for the agent moving with velocity [(3, 4)]. *)
Definition this : SingleRayConfiguration.t Vector2.t :=
  SingleRayConfiguration.new SeekExample.moving 2.

End SingleRayExample.


Module JumpSteeringExample.

(** The jump of [JumpExample], with the tolerance 1 for position and
    velocity and the default time to target. *)
Definition this : JumpSteering.t Vector2.t :=
  JumpSteering.mk JumpExample.this None (1 / 10) 1 1.


(** The level jump of the owner at rest on the takeoff position. *)
Definition standing : JumpSteering.t Vector2.t :=
  JumpSteering.mk JumpExample.onLevel None (1 / 10) 1 1.

End JumpSteeringExample.


(** ** [steer/behaviors/FollowPath.ts]

    The behavior extends [Arrive]; the path is a [LinePath], the
    implementation of the [Path] interface among the sources, and [clamp]
    is the argument of its methods. *)

Module FollowPath.

Record t (T : Type) : Type := mk {
  super : Arrive.t T;
  path : LinePath.t T;
  pathOffset : R;
  pathParam : LinePathParam.t;
  arriveEnabled : bool;
  predictionTime : R;
  internalTargetPosition : T
}.
Arguments mk {T} _ _ _ _ _ _ _.
Arguments super {T} _.
Arguments path {T} _.
Arguments pathOffset {T} _.
Arguments pathParam {T} _.
Arguments arriveEnabled {T} _.
Arguments predictionTime {T} _.
Arguments internalTargetPosition {T} _.

Section Methods.
Context {T : Type} `{Vector.t T}.
Variable clamp : R -> R -> R -> R.

(** The target of [Arrive] is left unset by the constructor and is not
    read; a zero vector stands for it. *)
Definition new (owner : Steerable.t T) (path : LinePath.t T)
    (pathOffset predictionTime : R) : t T :=
  mk (Arrive.mk (SteeringBehavior.mkBase owner None true)
                (SteeringBehavior.newVector owner) 0 0 (1 / 10))
     path pathOffset LinePathParam.new true predictionTime
     (SteeringBehavior.newVector owner).

(** The final statements of the method: seek the target position. *)
Definition seek (this : t T) (steering : SteeringAcceleration.t T)
    (targetPosition : T) : SteeringAcceleration.t T :=
  let self := Arrive.self (super this) in
  SteeringAcceleration.new
    (Vector.scale
       (Vector.nor
          (Vector.sub
             (Vector.copy (SteeringAcceleration.linear steering) targetPosition)
             (Steerable.getPosition (SteeringBehavior.owner self))))
       (Limiter.getMaxLinearAcceleration
          (SteeringBehavior.getActualLimiter self)))
    0.

(** The statements that follow the choice of the location: returns the
    output and the behavior, of which the path, the parameter and the
    internal target position have changed. *)
Definition follow (this : t T) (steering : SteeringAcceleration.t T)
    (location : T) : Result (SteeringAcceleration.t T * t T) :=
  match LinePathMethods.calculateDistance clamp (path this) location
          (pathParam this) with
  | Throws m => Throws m
  | Returns (distance, pathParam, path) =>
      let targetDistance := distance + pathOffset this in
      match LinePathMethods.calculateTargetPosition path
              (internalTargetPosition this) pathParam targetDistance with
      | Throws m => Throws m
      | Returns internalTargetPosition =>
          let this' :=
            mk (super this) path (pathOffset this) pathParam
               (arriveEnabled this) (predictionTime this)
               internalTargetPosition in
          let arriving :=
            if arriveEnabled this && LinePathMethods.isOpen path then
              if Rge_dec (pathOffset this) 0 then
                if Rgt_dec targetDistance
                     (LinePathMethods.getLength path
                      - Arrive.decelerationRadius (super this))
                then true else false
              else
                if Rlt_dec targetDistance
                     (Arrive.decelerationRadius (super this))
                then true else false
            else false in
          if arriving
          then Returns (Arrive.arrive (super this) steering
                          internalTargetPosition, this')
          else Returns (seek this steering internalTargetPosition, this')
      end
  end.

(** The location is the position of the owner, or with a prediction time
    the position it will have, which is written to the linear part of the
    buffer. *)
Definition calculateRealSteering (this : t T)
    (steering : SteeringAcceleration.t T)
    : Result (SteeringAcceleration.t T * t T) :=
  let owner := SteeringBehavior.owner (Arrive.self (super this)) in
  if Req_dec_T (predictionTime this) 0 then
    follow this steering (Steerable.getPosition owner)
  else
    let location :=
      Vector.scaleAndAdd
        (Vector.copy (SteeringAcceleration.linear steering)
                     (Steerable.getPosition owner))
        (Steerable.getLinearVelocity owner) (predictionTime this) in
    follow this
      (SteeringAcceleration.new location (SteeringAcceleration.angular steering))
      location.

End Methods.
End FollowPath.

Module FollowPathExample.

(** The agent at the origin follows the example path with no offset and
    no prediction. *)
Definition this : FollowPath.t Vector2.t :=
  FollowPath.new SeekExample.owner PathExample.this 0 0.

End FollowPathExample.


(** ** [steer/behaviors/Wander.ts]

    The behavior extends [Face].  [angleToVector] is the method of the
    owner, which writes to the vector it is given and returns it; [delta]
    is what [getDeltaTime] returns and [r1], [r2] are the two values
    [Math.random] returns. *)

Module Wander.

Record t (T : Type) : Type := mk {
  super : Face.t T;
  angleToVector : T -> R -> T;
  wanderOffset : R;
  wanderRadius : R;
  wanderRate : R;
  wanderOrientation : R;
  faceEnabled : bool;
  internalTargetPosition : T;
  wanderCenter : T
}.
Arguments mk {T} _ _ _ _ _ _ _ _ _.
Arguments super {T} _.
Arguments angleToVector {T} _ _ _.
Arguments wanderOffset {T} _.
Arguments wanderRadius {T} _.
Arguments wanderRate {T} _.
Arguments wanderOrientation {T} _.
Arguments faceEnabled {T} _.
Arguments internalTargetPosition {T} _.
Arguments wanderCenter {T} _.

Section Methods.
Context {T : Type} `{Vector.t T}.

(** The linear part of the buffer is the temporary vector of the three
    calls of [angleToVector]; each [let] is its next content. *)
Definition calculateRealSteering (this : t T) (delta r1 r2 : R)
    (steering : SteeringAcceleration.t T) : SteeringAcceleration.t T * t T :=
  let self := ReachOrientation.self (Face.super (super this)) in
  let owner := SteeringBehavior.owner self in
  let wanderOrientation :=
    wanderOrientation this + randomTriangular r1 r2 (wanderRate this * delta) in
  let targetOrientation := wanderOrientation + Steerable.getOrientation owner in
  let linear :=
    angleToVector this (SteeringAcceleration.linear steering)
                  (Steerable.getOrientation owner) in
  let wanderCenter :=
    Vector.scaleAndAdd
      (Vector.copy (wanderCenter this) (Steerable.getPosition owner))
      linear (wanderOffset this) in
  let linear := angleToVector this linear targetOrientation in
  let internalTargetPosition :=
    Vector.scaleAndAdd
      (Vector.copy (internalTargetPosition this) wanderCenter)
      linear (wanderRadius this) in
  let maxLinearAcceleration :=
    Limiter.getMaxLinearAcceleration (SteeringBehavior.getActualLimiter self) in
  let this' :=
    mk (super this) (angleToVector this) (wanderOffset this)
       (wanderRadius this) (wanderRate this) wanderOrientation
       (faceEnabled this) internalTargetPosition wanderCenter in
  let steering :=
    SteeringAcceleration.new linear (SteeringAcceleration.angular steering) in
  if faceEnabled this then
    let steering := Face.face (super this) steering internalTargetPosition in
    let linear :=
      Vector.scale
        (angleToVector this (SteeringAcceleration.linear steering)
                       (Steerable.getOrientation owner))
        maxLinearAcceleration in
    (SteeringAcceleration.new linear (SteeringAcceleration.angular steering),
     this')
  else
    let linear :=
      Vector.scale
        (Vector.nor
           (Vector.sub
              (Vector.copy (SteeringAcceleration.linear steering)
                           internalTargetPosition)
              (Steerable.getPosition owner)))
        maxLinearAcceleration in
    (SteeringAcceleration.new linear 0, this').

End Methods.
End Wander.

Module WanderExample.

(** [angleToVector] of an owner for which every angle gives the unit
    vector along the x axis. *)
Definition angleToVector (outVector : Vector2.t) (angle : R) : Vector2.t :=
  Vector2.make 1 0.

(** Offset 3, radius 1 and rate 2, facing enabled. *)
Definition this : Wander.t Vector2.t :=
  Wander.mk FaceExample.this angleToVector 3 1 2 0 true
            (Vector2.make 0 0) (Vector2.make 0 0).

End WanderExample.


(** ** [steer/utils/rays/ParallelSideRayConfiguration.ts] and
    [CentralRayWithWhiskersConfiguration.ts]

    [vectorToAngle] and [angleToVector] are the methods of the owner;
    [angleToVector] writes to the vector it is given and returns it. *)

Module ParallelSideRayConfiguration.

Definition HALF_PI : R := PI * (5 / 10).

Record t (T : Type) : Type := mk {
  owner : Steerable.t T;
  vectorToAngle : T -> R;
  angleToVector : T -> R -> T;
  rays : list (Utils.Ray.t T);
  length : R;
  sideOffset : R
}.
Arguments mk {T} _ _ _ _ _ _.
Arguments owner {T} _.
Arguments vectorToAngle {T} _ _.
Arguments angleToVector {T} _ _ _.
Arguments rays {T} _.
Arguments length {T} _.
Arguments sideOffset {T} _.

Section Methods.
Context {T : Type} `{Vector.t T}.

(** The end of the first ray is completed last, after the second ray has
    copied its direction.  With fewer than two rays the read of a field of
    [undefined] throws. *)
Definition updateRays (this : t T) : Result (list (Utils.Ray.t T) * t T) :=
  match rays this with
  | ray0 :: ray1 :: rest =>
      let position := Steerable.getPosition (owner this) in
      let velocity := Steerable.getLinearVelocity (owner this) in
      let velocityAngle := vectorToAngle this velocity in
      let start0 :=
        Vector.add
          (Vector.scale
             (angleToVector this (Utils.Ray.start ray0) (velocityAngle - HALF_PI))
             (sideOffset this))
          position in
      let end0 :=
        Vector.scale (Vector.nor (Vector.copy (Utils.Ray.end_ ray0) velocity))
                     (length this) in
      let start1 :=
        Vector.add
          (Vector.scale
             (angleToVector this (Utils.Ray.start ray1) (velocityAngle + HALF_PI))
             (sideOffset this))
          position in
      let end1 := Vector.add (Vector.copy (Utils.Ray.end_ ray1) end0) start1 in
      let end0 := Vector.add end0 start0 in
      let rays := Utils.Ray.new start0 end0 :: Utils.Ray.new start1 end1 :: rest in
      Returns (rays,
               mk (owner this) (vectorToAngle this) (angleToVector this) rays
                  (length this) (sideOffset this))
  | _ => Throws Messages.typeError
  end.

End Methods.
End ParallelSideRayConfiguration.

Module CentralRayWithWhiskersConfiguration.

Record t (T : Type) : Type := mk {
  owner : Steerable.t T;
  vectorToAngle : T -> R;
  angleToVector : T -> R -> T;
  rays : list (Utils.Ray.t T);
  rayLength : R;
  whiskerLength : R;
  whiskerAngle : R
}.
Arguments mk {T} _ _ _ _ _ _ _.
Arguments owner {T} _.
Arguments vectorToAngle {T} _ _.
Arguments angleToVector {T} _ _ _.
Arguments rays {T} _.
Arguments rayLength {T} _.
Arguments whiskerLength {T} _.
Arguments whiskerAngle {T} _.

Section Methods.
Context {T : Type} `{Vector.t T}.

Definition updateRays (this : t T) : Result (list (Utils.Ray.t T) * t T) :=
  match rays this with
  | ray0 :: ray1 :: ray2 :: rest =>
      let ownerPosition := Steerable.getPosition (owner this) in
      let ownerVelocity := Steerable.getLinearVelocity (owner this) in
      let velocityAngle := vectorToAngle this ownerVelocity in
      let central :=
        Utils.Ray.new
          (Vector.copy (Utils.Ray.start ray0) ownerPosition)
          (Vector.add
             (Vector.scale
                (Vector.nor (Vector.copy (Utils.Ray.end_ ray0) ownerVelocity))
                (rayLength this))
             ownerPosition) in
      let left :=
        Utils.Ray.new
          (Vector.copy (Utils.Ray.start ray1) ownerPosition)
          (Vector.add
             (Vector.scale
                (angleToVector this (Utils.Ray.end_ ray1)
                               (velocityAngle - whiskerAngle this))
                (whiskerLength this))
             ownerPosition) in
      let right :=
        Utils.Ray.new
          (Vector.copy (Utils.Ray.start ray2) ownerPosition)
          (Vector.add
             (Vector.scale
                (angleToVector this (Utils.Ray.end_ ray2)
                               (velocityAngle + whiskerAngle this))
                (whiskerLength this))
             ownerPosition) in
      let rays := central :: left :: right :: rest in
      Returns (rays,
               mk (owner this) (vectorToAngle this) (angleToVector this) rays
                  (rayLength this) (whiskerLength this) (whiskerAngle this))
  | _ => Throws Messages.typeError
  end.

End Methods.
End CentralRayWithWhiskersConfiguration.

Module RaysExample.

Definition zeroRay : Utils.Ray.t Vector2.t :=
  Utils.Ray.new (Vector2.make 0 0) (Vector2.make 0 0).

(** Two parallel rays of length 2, 1 to each side of the agent moving
    with velocity [(3, 4)]. *)
Definition parallel : ParallelSideRayConfiguration.t Vector2.t :=
  ParallelSideRayConfiguration.mk SeekExample.moving FaceExample.vectorToAngle
    WanderExample.angleToVector [zeroRay; zeroRay] 2 1.

(** A central ray of length 2 and two whiskers of length 1. *)
Definition whiskers : CentralRayWithWhiskersConfiguration.t Vector2.t :=
  CentralRayWithWhiskersConfiguration.mk SeekExample.moving
    FaceExample.vectorToAngle WanderExample.angleToVector
    [zeroRay; zeroRay; zeroRay] 2 1 (1 / 2).

End RaysExample.


(** * Properties *)

Lemma JS_eqb_true (a b : R) : JS.eqb a b = true <-> a = b.
Proof. unfold JS.eqb. destruct (Req_dec_T a b); split; congruence. Qed.

(** ** The two implementations satisfy the laws *)

Lemma Vector2_ext (a b : Vector2.t) :
  Vector2.x a = Vector2.x b -> Vector2.y a = Vector2.y b -> a = b.
Proof.
  destruct a as [[ax ay]], b as [[bx b_y]]. unfold Vector2.x, Vector2.y. simpl.
  intros -> ->. reflexivity.
Qed.

Lemma Vector3_ext (a b : Vector3.t) :
  Vector3.x a = Vector3.x b -> Vector3.y a = Vector3.y b ->
  Vector3.z a = Vector3.z b -> a = b.
Proof.
  destruct a as [[ax ay az]], b as [[bx b_y bz]].
  unfold Vector3.x, Vector3.y, Vector3.z. simpl.
  intros -> -> ->. reflexivity.
Qed.

#[export] Instance Vector2_laws : VectorLaws.t Vector2.t.
Proof.
  constructor; simpl.
  - intros [[x y]]. reflexivity.
  - intros a [[x y]]. reflexivity.
  - intros [[x y]]. unfold Vector2.sqrLen, Vec2.sqrLen. simpl. nra.
  - intros v. reflexivity.
  - intros [[x y]] c. unfold Vector2.sqrLen, Vec2.sqrLen. simpl. ring.
  - intros v l. reflexivity.
  - intros [[x y]]. apply Vector2_ext; unfold Vector2.x, Vector2.y; simpl; ring.
  - intros [[x y]]. apply Vector2_ext; unfold Vector2.x, Vector2.y; simpl; ring.
  - intros [[x y]] a b.
    apply Vector2_ext; unfold Vector2.x, Vector2.y; simpl; ring.
  - intros a b. reflexivity.
  - intros v. unfold Vector2.sqrLen, Vec2.sqrLen. simpl. ring.
  - intros v. unfold Vector2.isZero, Vector2.x, Vector2.y. simpl.
    assert (E : JS.eqb 0 0 = true) by (apply JS_eqb_true; reflexivity).
    rewrite E. reflexivity.
  - intros [[x y]]. unfold Vector2.isZero, Vector2.x, Vector2.y,
      Vector2.sqrLen, Vec2.sqrLen. simpl.
    intros E. apply andb_true_iff in E as [Ex Ey].
    apply JS_eqb_true in Ex, Ey. subst. ring.
  - intros a v s. reflexivity.
Qed.

#[export] Instance Vector3_laws : VectorLaws.t Vector3.t.
Proof.
  constructor; simpl.
  - intros [[x y z]]. reflexivity.
  - intros a [[x y z]]. reflexivity.
  - intros [[x y z]]. unfold Vector3.sqrLen, Vec3.squaredLength. simpl. nra.
  - intros v. reflexivity.
  - intros [[x y z]] c. unfold Vector3.sqrLen, Vec3.squaredLength. simpl. ring.
  - intros v l. reflexivity.
  - intros [[x y z]].
    apply Vector3_ext; unfold Vector3.x, Vector3.y, Vector3.z; simpl; ring.
  - intros [[x y z]].
    apply Vector3_ext; unfold Vector3.x, Vector3.y, Vector3.z; simpl; ring.
  - intros [[x y z]] a b.
    apply Vector3_ext; unfold Vector3.x, Vector3.y, Vector3.z; simpl; ring.
  - intros a b. reflexivity.
  - intros v. unfold Vector3.sqrLen, Vec3.squaredLength. simpl. ring.
  - intros v. unfold Vector3.isZero, Vector3.x, Vector3.y, Vector3.z. simpl.
    assert (E : JS.eqb 0 0 = true) by (apply JS_eqb_true; reflexivity).
    rewrite E. reflexivity.
  - intros [[x y z]]. unfold Vector3.isZero, Vector3.x, Vector3.y, Vector3.z,
      Vector3.sqrLen, Vec3.squaredLength. simpl.
    intros E. apply andb_true_iff in E as [E Ez].
    apply andb_true_iff in E as [Ex Ey].
    apply JS_eqb_true in Ex, Ey, Ez. subst. ring.
  - intros a v s. reflexivity.
Qed.

(** ** [limit]: the magnitude is clamped downward only *)

Section Limit.
Context {T : Type} `{VectorLaws.t T}.

Lemma len_nonneg (v : T) : 0 <= Vector.len v.
Proof. rewrite VectorLaws.len_sqrLen. apply sqrt_pos. Qed.

Lemma len_square (v : T) : Vector.len v * Vector.len v = Vector.sqrLen v.
Proof.
  rewrite VectorLaws.len_sqrLen. apply sqrt_sqrt, VectorLaws.sqrLen_nonneg.
Qed.

(** Comparing squared lengths is comparing lengths. *)
Lemma sqrLen_gt_iff (v : T) (l : R) :
  0 <= l -> (Vector.sqrLen v > l * l <-> Vector.len v > l).
Proof.
  intros Hl. pose proof (len_nonneg v) as Hn. pose proof (len_square v) as Hs.
  split; intros Hgt; nra.
Qed.

Lemma limit_within (v : T) (l : R) :
  Vector.sqrLen v <= l * l -> Vector.limit v l = v.
Proof.
  intros Hle. rewrite VectorLaws.limit_eq.
  destruct (Rgt_dec (Vector.sqrLen v) (l * l)); [lra | reflexivity].
Qed.

Lemma limit_beyond (v : T) (l : R) :
  Vector.sqrLen v > l * l ->
  Vector.limit v l = Vector.scale v (sqrt (l * l / Vector.sqrLen v))
  /\ Vector.sqrLen (Vector.limit v l) = l * l.
Proof.
  intros Hgt. rewrite VectorLaws.limit_eq.
  destruct (Rgt_dec (Vector.sqrLen v) (l * l)) as [_ | Hn]; [| lra].
  split; [reflexivity |].
  rewrite VectorLaws.sqrLen_scale.
  assert (Hpos : 0 < Vector.sqrLen v) by nra.
  rewrite sqrt_sqrt.
  - field. lra.
  - apply Rmult_le_pos; [nra |]. left. apply Rinv_0_lt_compat. exact Hpos.
Qed.

Lemma limit_len_le (v : T) (l : R) :
  Vector.len (Vector.limit v l) <= Vector.len v.
Proof.
  destruct (Rgt_dec (Vector.sqrLen v) (l * l)) as [Hgt | Hle].
  - rewrite !VectorLaws.len_sqrLen.
    destruct (limit_beyond v l Hgt) as [_ ->].
    apply sqrt_le_1_alt. lra.
  - rewrite limit_within by lra. lra.
Qed.

Lemma limit_len_id (v : T) (l : R) :
  Vector.len v <= l -> Vector.limit v l = v.
Proof.
  intros Hle. apply limit_within.
  pose proof (len_nonneg v). pose proof (len_square v). nra.
Qed.

Lemma limit_len_cap (v : T) (l : R) :
  0 <= l -> Vector.len (Vector.limit v l) <= l.
Proof.
  intros Hl.
  destruct (Rgt_dec (Vector.sqrLen v) (l * l)) as [Hgt | Hle].
  - rewrite VectorLaws.len_sqrLen.
    destruct (limit_beyond v l Hgt) as [_ ->].
    rewrite sqrt_square by exact Hl. lra.
  - rewrite limit_within by lra.
    pose proof (len_nonneg v). pose proof (len_square v). nra.
Qed.

(** Beyond the cap the vector keeps its direction and takes the cap as
    its magnitude. *)
Lemma limit_len_beyond (v : T) (l : R) :
  0 <= l -> Vector.len v > l ->
  Vector.len (Vector.limit v l) = l
  /\ Vector.limit v l = Vector.scale v (l / Vector.len v)
  /\ 0 <= l / Vector.len v.
Proof.
  intros Hl Hgt.
  assert (Hsq : Vector.sqrLen v > l * l) by (apply sqrLen_gt_iff; assumption).
  destruct (limit_beyond v l Hsq) as [Heq Hlen].
  assert (Hpos : 0 < Vector.len v) by lra.
  assert (Hc : sqrt (l * l / Vector.sqrLen v) = l / Vector.len v).
  { rewrite <- (len_square v).
    replace (l * l / (Vector.len v * Vector.len v))
      with ((l / Vector.len v) * (l / Vector.len v)) by (field; lra).
    apply sqrt_square. apply Rmult_le_pos; [lra |].
    left. apply Rinv_0_lt_compat. exact Hpos. }
  repeat split.
  - rewrite VectorLaws.len_sqrLen, Hlen. apply sqrt_square. exact Hl.
  - rewrite Heq, Hc. reflexivity.
  - apply Rmult_le_pos; [lra |]. left. apply Rinv_0_lt_compat. exact Hpos.
Qed.

End Limit.

(** ** C9: [Vector2] *)

(** C9.  For every vector [v] and every bound [L]: subtracting [v] from
    its clone gives the zero vector; scaling by 1 leaves [v] unchanged;
    [limit] never increases the magnitude, and leaves [v] unchanged
    whenever its magnitude is at most [L].  (The claim asks this of the
    non-negative [L]; it holds of every [L].) *)
Theorem Vector2_clone_sub_scale_limit (v : Vector2.t) (L : R) :
  Vector2.sub (Vector2.clone v) v = Vector2.make 0 0
  /\ Vector2.isZero (Vector2.sub (Vector2.clone v) v) = true
  /\ Vector2.scale v 1 = v
  /\ Vector2.len (Vector2.limit v L) <= Vector2.len v
  /\ (Vector2.len v <= L -> Vector2.limit v L = v).
Proof.
  assert (Hz : Vector2.sub (Vector2.clone v) v = Vector2.make 0 0).
  { destruct v as [[x y]].
    apply Vector2_ext; unfold Vector2.x, Vector2.y; simpl; ring. }
  split; [exact Hz |]. split.
  { rewrite Hz. exact (VectorLaws.isZero_setZero v). }
  split; [exact (VectorLaws.scale_1 v) |]. split.
  - exact (limit_len_le v L).
  - exact (limit_len_id v L).
Qed.

Lemma Vector2_clone_sub_scale_limit_witness :
  Vector2.len (Vector2.make 3 4) <= 5
  /\ Vector2.limit (Vector2.make 3 4) 5 = Vector2.make 3 4.
Proof.
  assert (Hlen : Vector2.len (Vector2.make 3 4) <= 5).
  { unfold Vector2.len, Vec2.len, Vec2.sqrLen, JS.sqrt. simpl.
    replace (3 * 3 + 4 * 4) with (5 * 5) by ring.
    rewrite sqrt_square; lra. }
  split; [exact Hlen |].
  apply (Vector2_clone_sub_scale_limit (Vector2.make 3 4) 5). exact Hlen.
Defined.

(** The same holds of the 3D implementation. *)
Lemma Vector3_clone_sub_scale_limit (v : Vector3.t) (L : R) :
  Vector3.sub (Vector3.clone v) v = Vector3.make 0 0 0
  /\ Vector3.scale v 1 = v
  /\ Vector3.len (Vector3.limit v L) <= Vector3.len v
  /\ (Vector3.len v <= L -> Vector3.limit v L = v).
Proof.
  split.
  { destruct v as [[x y z]].
    apply Vector3_ext; unfold Vector3.x, Vector3.y, Vector3.z; simpl; ring. }
  split; [exact (VectorLaws.scale_1 v) |]. split.
  - exact (limit_len_le v L).
  - exact (limit_len_id v L).
Qed.

(** ** [SteeringAcceleration]: the magnitude counts the angular part *)

Section Magnitude.
Context {T : Type} `{VectorLaws.t T}.

Lemma calculateSquareMagnitude_nonneg (s : SteeringAcceleration.t T) :
  0 <= SteeringAcceleration.calculateSquareMagnitude s.
Proof.
  unfold SteeringAcceleration.calculateSquareMagnitude.
  pose proof (VectorLaws.sqrLen_nonneg (SteeringAcceleration.linear s)). nra.
Qed.

Lemma calculateSquareMagnitude_len (s : SteeringAcceleration.t T) :
  SteeringAcceleration.calculateSquareMagnitude s
  = Vector.len (SteeringAcceleration.linear s)
    * Vector.len (SteeringAcceleration.linear s)
    + SteeringAcceleration.angular s * SteeringAcceleration.angular s.
Proof.
  unfold SteeringAcceleration.calculateSquareMagnitude.
  rewrite len_square. reflexivity.
Qed.

Lemma calculateMagnitude_square (s : SteeringAcceleration.t T) (m : R) :
  0 <= m -> SteeringAcceleration.calculateMagnitude s = m ->
  SteeringAcceleration.calculateSquareMagnitude s = m * m.
Proof.
  unfold SteeringAcceleration.calculateMagnitude, JS.sqrt. intros Hm <-.
  symmetry. apply sqrt_sqrt, calculateSquareMagnitude_nonneg.
Qed.

End Magnitude.

(** ** [PrioritySteering] *)

Lemma last_cons {A : Type} (l : list A) :
  forall x d : A, last (x :: l) d = last l x.
Proof.
  induction l as [| y l IH]; intros x d.
  - reflexivity.
  - change (last (x :: y :: l) d) with (last (y :: l) d).
    rewrite (IH y d), (IH y x). reflexivity.
Qed.

Section Priority.
Context {T W : Type} `{VectorLaws.t T}.

Local Abbreviation mag2 := SteeringAcceleration.calculateSquareMagnitude.

(** The loop returns at the first child above the threshold. *)
Lemma scan_first_above (eps2 : R) (children : list (SteeringBehavior.t T W)) :
  forall (k : nat) (i sel : Z) w s sk wk,
    nth_error (Children.outputs children w s) k = Some (sk, wk) ->
    mag2 sk > eps2 ->
    (forall j sj wj,
        (j < k)%nat ->
        nth_error (Children.outputs children w s) j = Some (sj, wj) ->
        ~ mag2 sj > eps2) ->
    PrioritySteering.scan eps2 children i sel w s
    = (true, (i + Z.of_nat k)%Z, sk, wk).
Proof.
  induction children as [| child rest IH]; intros k i sel w s sk wk Hk Habove Hbelow.
  - destruct k; discriminate Hk.
  - simpl in Hk, Hbelow |- *.
    destruct (SteeringBehavior.calculateSteering child w s) as [s1 w1] eqn:E.
    destruct k as [| k'].
    + simpl in Hk. injection Hk as -> ->.
      destruct (Rgt_dec (mag2 sk) eps2) as [_ | Hn]; [| contradiction].
      rewrite Z.add_0_r. reflexivity.
    + destruct (Rgt_dec (mag2 s1) eps2) as [Hgt | _].
      * exfalso. apply (Hbelow 0%nat s1 w1); [lia | reflexivity | exact Hgt].
      * rewrite (IH k' (i + 1)%Z i w1 s1 sk wk Hk Habove).
        -- f_equal. f_equal. f_equal. lia.
        -- intros j sj wj Hj Hnth.
           apply (Hbelow (S j) sj wj); [lia | exact Hnth].
Qed.

(** When no child is above the threshold the loop runs to its end and
    the buffer holds what the last child wrote. *)
Lemma scan_none_above (eps2 : R) (children : list (SteeringBehavior.t T W)) :
  forall (i sel : Z) w s,
    (forall j sj wj,
        nth_error (Children.outputs children w s) j = Some (sj, wj) ->
        ~ mag2 sj > eps2) ->
    PrioritySteering.scan eps2 children i sel w s
    = (false,
       match children with
       | [] => sel
       | _ :: _ => (i + Z.of_nat (length children) - 1)%Z
       end,
       fst (last (Children.outputs children w s) (s, w)),
       snd (last (Children.outputs children w s) (s, w))).
Proof.
  induction children as [| child rest IH]; intros i sel w s Hbelow.
  - reflexivity.
  - simpl in Hbelow. cbn [PrioritySteering.scan Children.outputs].
    destruct (SteeringBehavior.calculateSteering child w s) as [s1 w1] eqn:E.
    destruct (Rgt_dec (mag2 s1) eps2) as [Hgt | _].
    + exfalso. apply (Hbelow 0%nat s1 w1); [reflexivity | exact Hgt].
    + rewrite (IH (i + 1)%Z i w1 s1).
      * rewrite last_cons.
        destruct rest as [| child' rest']; cbn [length];
          f_equal; f_equal; f_equal; lia.
      * intros j sj wj Hnth. apply (Hbelow (S j) sj wj). exact Hnth.
Qed.

End Priority.

Section PriorityClaims.
Context {T W : Type} `{VectorLaws.t T}.

Local Abbreviation mag2 := SteeringAcceleration.calculateSquareMagnitude.

(** The behavior after an evaluation that selected index [i]. *)
Local Abbreviation selecting this i :=
  (PrioritySteering.mk (PrioritySteering.self this)
     (PrioritySteering.epsilon this) (PrioritySteering.behaviors this)
     (Some i)).

Lemma calculateSteering_first_above (this : PrioritySteering.t T W) w steering
    (k : nat) sk wk :
  SteeringBehavior.isEnabled (PrioritySteering.self this) = true ->
  nth_error (Children.outputs (PrioritySteering.behaviors this) w steering) k
  = Some (sk, wk) ->
  mag2 sk > PrioritySteering.epsilon this * PrioritySteering.epsilon this ->
  (forall j sj wj,
      (j < k)%nat ->
      nth_error (Children.outputs (PrioritySteering.behaviors this) w steering) j
      = Some (sj, wj) ->
      ~ mag2 sj > PrioritySteering.epsilon this * PrioritySteering.epsilon this) ->
  PrioritySteering.calculateSteering this w steering
  = (sk, selecting this (Z.of_nat k), wk).
Proof.
  intros Hen Hk Habove Hbelow.
  unfold PrioritySteering.calculateSteering,
    PrioritySteering.calculateRealSteering.
  rewrite Hen.
  rewrite (scan_first_above _ _ k 0%Z (-1)%Z w steering sk wk Hk Habove Hbelow).
  reflexivity.
Qed.

Lemma calculateSteering_none_above (this : PrioritySteering.t T W) w steering :
  SteeringBehavior.isEnabled (PrioritySteering.self this) = true ->
  (forall j sj wj,
      nth_error (Children.outputs (PrioritySteering.behaviors this) w steering) j
      = Some (sj, wj) ->
      ~ mag2 sj > PrioritySteering.epsilon this * PrioritySteering.epsilon this) ->
  PrioritySteering.behaviors this <> [] ->
  PrioritySteering.calculateSteering this w steering
  = (fst (last (Children.outputs (PrioritySteering.behaviors this) w steering)
               (steering, w)),
     selecting this (Z.of_nat (length (PrioritySteering.behaviors this)) - 1)%Z,
     snd (last (Children.outputs (PrioritySteering.behaviors this) w steering)
               (steering, w))).
Proof.
  intros Hen Hbelow Hne.
  unfold PrioritySteering.calculateSteering,
    PrioritySteering.calculateRealSteering.
  rewrite Hen.
  rewrite (scan_none_above _ _ 0%Z (-1)%Z w steering Hbelow).
  destruct (PrioritySteering.behaviors this) as [| b bs] eqn:E;
    [contradiction |].
  reflexivity.
Qed.

Lemma calculateSteering_no_children (this : PrioritySteering.t T W) w steering :
  SteeringBehavior.isEnabled (PrioritySteering.self this) = true ->
  PrioritySteering.behaviors this = [] ->
  PrioritySteering.calculateSteering this w steering
  = (SteeringAcceleration.setZero steering, selecting this (-1)%Z, w).
Proof.
  intros Hen Hnil.
  unfold PrioritySteering.calculateSteering,
    PrioritySteering.calculateRealSteering.
  rewrite Hen, Hnil. reflexivity.
Qed.

(** C2.  An enabled [PrioritySteering] evaluates its children in list
    order.  (1) If child [k] is the first whose squared magnitude exceeds
    epsilon squared, the output is the output of child [k] and
    [getSelectedBehaviorIndex] returns [k].  (2) If no child exceeds the
    threshold and the list is not empty, the output is what the last child
    wrote, unchanged.  (3) With an empty list the output is zero: it is
    the buffer set to zero, [isZero] holds of it and its magnitude is 0;
    no index is selected (-1).
    (4) Four children of magnitudes 0, 0, 5 and 3 with epsilon 1: index 2
    is selected and the output is the output of child 2. *)
Theorem PrioritySteering_returns_first_above_epsilon :
  (forall (this : PrioritySteering.t T W) w steering,
      SteeringBehavior.isEnabled (PrioritySteering.self this) = true ->
      let outs :=
        Children.outputs (PrioritySteering.behaviors this) w steering in
      let eps2 := PrioritySteering.epsilon this * PrioritySteering.epsilon this in
      let '(out, this', w') :=
        PrioritySteering.calculateSteering this w steering in
      (forall (k : nat) sk wk,
          nth_error outs k = Some (sk, wk) ->
          mag2 sk > eps2 ->
          (forall j sj wj,
              (j < k)%nat -> nth_error outs j = Some (sj, wj) ->
              ~ mag2 sj > eps2) ->
          out = sk /\ w' = wk
          /\ PrioritySteering.getSelectedBehaviorIndex this'
             = Some (Z.of_nat k))
      /\ ((forall j sj wj,
              nth_error outs j = Some (sj, wj) -> ~ mag2 sj > eps2) ->
          PrioritySteering.behaviors this <> [] ->
          out = fst (last outs (steering, w))
          /\ w' = snd (last outs (steering, w)))
      /\ (PrioritySteering.behaviors this = [] ->
          out = SteeringAcceleration.setZero steering
          /\ SteeringAcceleration.isZero out = true
          /\ SteeringAcceleration.calculateMagnitude out = 0
          /\ w' = w
          /\ PrioritySteering.getSelectedBehaviorIndex this' = Some (-1)%Z))
  /\ (forall (this : PrioritySteering.t T W) w steering o0 o1 o2 o3 w0 w1 w2 w3,
      SteeringBehavior.isEnabled (PrioritySteering.self this) = true ->
      PrioritySteering.epsilon this = 1 ->
      Children.outputs (PrioritySteering.behaviors this) w steering
      = [(o0, w0); (o1, w1); (o2, w2); (o3, w3)] ->
      SteeringAcceleration.calculateMagnitude o0 = 0 ->
      SteeringAcceleration.calculateMagnitude o1 = 0 ->
      SteeringAcceleration.calculateMagnitude o2 = 5 ->
      SteeringAcceleration.calculateMagnitude o3 = 3 ->
      let '(out, this', w') :=
        PrioritySteering.calculateSteering this w steering in
      out = o2
      /\ PrioritySteering.getSelectedBehaviorIndex this' = Some 2%Z).
Proof.
  split.
  - intros this w steering Hen outs eps2.
    destruct (PrioritySteering.calculateSteering this w steering)
      as [[out this'] w'] eqn:E.
    split; [| split].
    + intros k sk wk Hk Habove Hbelow.
      rewrite (calculateSteering_first_above this w steering k sk wk
                 Hen Hk Habove Hbelow) in E.
      injection E as <- <- <-. repeat split; reflexivity.
    + intros Hbelow Hne.
      rewrite (calculateSteering_none_above this w steering Hen Hbelow Hne) in E.
      injection E as <- <- <-. split; reflexivity.
    + intros Hnil.
      rewrite (calculateSteering_no_children this w steering Hen Hnil) in E.
      injection E as <- <- <-.
      assert (E0 : JS.eqb 0 0 = true) by (apply JS_eqb_true; reflexivity).
      split; [reflexivity |]. split; [| split; [| split; reflexivity]].
      * unfold SteeringAcceleration.isZero, SteeringAcceleration.setZero.
        cbn [SteeringAcceleration.linear SteeringAcceleration.angular].
        rewrite E0, VectorLaws.isZero_setZero. reflexivity.
      * unfold SteeringAcceleration.calculateMagnitude,
          SteeringAcceleration.calculateSquareMagnitude,
          SteeringAcceleration.setZero, JS.sqrt.
        cbn [SteeringAcceleration.linear SteeringAcceleration.angular].
        rewrite VectorLaws.sqrLen_setZero.
        replace (0 + 0 * 0) with 0 by ring. apply sqrt_0.
  - intros this w steering o0 o1 o2 o3 w0 w1 w2 w3 Hen Heps Houts M0 M1 M2 M3.
    apply calculateMagnitude_square in M0, M1, M2; try lra.
    rewrite (calculateSteering_first_above this w steering 2 o2 w2 Hen).
    + split; reflexivity.
    + rewrite Houts. reflexivity.
    + rewrite Heps, M2. lra.
    + intros j sj wj Hj Hnth. rewrite Houts in Hnth. rewrite Heps.
      destruct j as [| [| j]]; [| | lia]; simpl in Hnth;
        injection Hnth as <- <-; lra.
Qed.

End PriorityClaims.

Lemma example_magnitude (x : R) :
  0 <= x -> SteeringAcceleration.calculateMagnitude (Examples.steering x 0 0) = x.
Proof.
  intros Hx.
  unfold SteeringAcceleration.calculateMagnitude,
    SteeringAcceleration.calculateSquareMagnitude, JS.sqrt. simpl.
  unfold Vector2.sqrLen, Vec2.sqrLen. simpl.
  replace (x * x + 0 * 0 + 0 * 0) with (x * x) by ring.
  apply sqrt_square. exact Hx.
Qed.

Lemma PrioritySteering_returns_first_above_epsilon_witness :
  (let '(out, this', _) :=
     PrioritySteering.calculateSteering PriorityExample.this tt
       (Examples.steering 7 7 7) in
   out = Examples.steering 5 0 0
   /\ PrioritySteering.getSelectedBehaviorIndex this' = Some 2%Z)
  /\ (let '(out, this', _) :=
        PrioritySteering.calculateSteering PriorityExample.childless tt
          (Examples.steering 7 7 7) in
      out = Examples.steering 0 0 0
      /\ SteeringAcceleration.isZero out = true
      /\ SteeringAcceleration.calculateMagnitude out = 0
      /\ PrioritySteering.getSelectedBehaviorIndex this' = Some (-1)%Z).
Proof.
  split.
  - apply (proj2 (@PrioritySteering_returns_first_above_epsilon
                    Vector2.t unit _ _)
             PriorityExample.this tt (Examples.steering 7 7 7)
             (Examples.steering 0 0 0) (Examples.steering 0 0 0)
             (Examples.steering 5 0 0) (Examples.steering 3 0 0) tt tt tt tt);
      try reflexivity; apply example_magnitude; lra.
  - pose proof (proj1 (@PrioritySteering_returns_first_above_epsilon
                         Vector2.t unit _ _)
                  PriorityExample.childless tt (Examples.steering 7 7 7)
                  eq_refl) as P.
    cbv zeta in P.
    destruct (PrioritySteering.calculateSteering PriorityExample.childless tt
                (Examples.steering 7 7 7)) as [[out this'] w'].
    destruct P as (_ & _ & P).
    destruct (P eq_refl) as (E & Z & M & _ & I).
    split; [rewrite E; reflexivity |].
    split; [exact Z |]. split; [exact M | exact I].
Defined.

Section PriorityAngular.
Context {T W : Type} `{VectorLaws.t T}.

Local Abbreviation mag2 := SteeringAcceleration.calculateSquareMagnitude.

(** C10.  The squared magnitude is the squared length of the linear part
    plus the square of the angular part.  Hence, for a threshold
    [epsilon >= 0], a child whose linear output is zero and whose angular
    output exceeds epsilon in absolute value is selected by an enabled
    [PrioritySteering] as soon as it is reached (no earlier child being
    above the threshold). *)
Theorem PrioritySteering_magnitude_includes_angular :
  (forall s : SteeringAcceleration.t T,
      mag2 s
      = Vector.len (SteeringAcceleration.linear s)
        * Vector.len (SteeringAcceleration.linear s)
        + SteeringAcceleration.angular s * SteeringAcceleration.angular s)
  /\ (forall (this : PrioritySteering.t T W) w steering (k : nat) sk wk,
      SteeringBehavior.isEnabled (PrioritySteering.self this) = true ->
      0 <= PrioritySteering.epsilon this ->
      let outs :=
        Children.outputs (PrioritySteering.behaviors this) w steering in
      let eps2 := PrioritySteering.epsilon this * PrioritySteering.epsilon this in
      nth_error outs k = Some (sk, wk) ->
      Vector.isZero (SteeringAcceleration.linear sk) = true ->
      JS.abs (SteeringAcceleration.angular sk) > PrioritySteering.epsilon this ->
      (forall j sj wj,
          (j < k)%nat -> nth_error outs j = Some (sj, wj) -> ~ mag2 sj > eps2) ->
      let '(out, this', w') :=
        PrioritySteering.calculateSteering this w steering in
      out = sk
      /\ PrioritySteering.getSelectedBehaviorIndex this' = Some (Z.of_nat k)).
Proof.
  split.
  - apply calculateSquareMagnitude_len.
  - intros this w steering k sk wk Hen Heps outs eps2 Hk Hzero Hang Hbelow.
    rewrite (calculateSteering_first_above this w steering k sk wk Hen Hk).
    + split; reflexivity.
    + unfold SteeringAcceleration.calculateSquareMagnitude.
      rewrite (VectorLaws.isZero_sqrLen _ Hzero).
      unfold JS.abs, Rabs in Hang.
      destruct (Rcase_abs (SteeringAcceleration.angular sk)); nra.
    + exact Hbelow.
Qed.

End PriorityAngular.

Lemma PrioritySteering_magnitude_includes_angular_witness :
  let '(out, this', _) :=
    PrioritySteering.calculateSteering PriorityExample.turning tt
      (Examples.steering 7 7 7) in
  out = Examples.steering 0 0 (-2)
  /\ PrioritySteering.getSelectedBehaviorIndex this' = Some 0%Z.
Proof.
  apply (proj2 (@PrioritySteering_magnitude_includes_angular
                  Vector2.t unit _ _)
           PriorityExample.turning tt (Examples.steering 7 7 7)
           0%nat (Examples.steering 0 0 (-2)) tt).
  - reflexivity.
  - simpl. lra.
  - reflexivity.
  - exact (VectorLaws.isZero_setZero (Vector2.make 0 0)).
  - simpl. unfold JS.abs. rewrite Rabs_left; lra.
  - intros j sj wj Hj. lia.
Defined.

(** ** [BlendedSteering] *)

Section Blended.
Context {T W : Type} `{VectorLaws.t T}.

(** The outputs of the children paired with their weights. *)
Local Abbreviation terms items w scratch :=
  (combine
     (map fst (Children.outputs (map BehaviorAndWeight.behavior items) w scratch))
     (map BehaviorAndWeight.weight items)).

(** The loop adds, in list order, weight times output to the accumulator. *)
Lemma blend_sum (items : list (BehaviorAndWeight.t T W)) :
  forall scratch acc w,
    let outs :=
      Children.outputs (map BehaviorAndWeight.behavior items) w scratch in
    BlendedSteering.blend items scratch acc w
    = (fst (last outs (scratch, w)),
       SteeringAcceleration.new
         (Children.linearSum (SteeringAcceleration.linear acc)
            (terms items w scratch))
         (SteeringAcceleration.angular acc
          + Children.angularSum (terms items w scratch)),
       snd (last outs (scratch, w))).
Proof.
  induction items as [| bw rest IH]; intros scratch acc w.
  - simpl. destruct acc as [l a]. simpl. f_equal. f_equal. f_equal. ring.
  - cbn [BlendedSteering.blend map Children.outputs].
    destruct (SteeringBehavior.calculateSteering
                (BehaviorAndWeight.behavior bw) w scratch) as [s1 w1] eqn:E.
    cbv zeta. rewrite IH. rewrite last_cons.
    cbn [map fst combine Children.linearSum Children.angularSum
         fold_left fold_right snd SteeringAcceleration.mulAdd
         SteeringAcceleration.linear SteeringAcceleration.angular].
    unfold SteeringAcceleration.mulAdd. simpl.
    rewrite VectorLaws.scaleAndAdd_eq.
    f_equal. f_equal. f_equal.
    unfold Children.angularSum. ring.
Qed.

(** What holds of the output of an enabled [BlendedSteering]: the linear
    part is the weighted sum [V] of the children's linear outputs clamped
    to the maximum linear acceleration; when the magnitude of [V] exceeds
    the cap, the output has the direction of [V] and the cap as magnitude.
    The angular part is the weighted sum unless that sum is above the
    maximum angular acceleration. *)
Lemma BlendedSteering_weighted_sum_clamped
    (this : BlendedSteering.t T W) w (out0 : SteeringAcceleration.t T) :
  SteeringBehavior.isEnabled (BlendedSteering.self this) = true ->
  let limiter := SteeringBehavior.getActualLimiter (BlendedSteering.self this) in
  let maxLinear := Limiter.getMaxLinearAcceleration limiter in
  let maxAngular := Limiter.getMaxAngularAcceleration limiter in
  let ts := terms (BlendedSteering.list this) w (BlendedSteering.steering this) in
  let V :=
    Children.linearSum (Vector.setZero (SteeringAcceleration.linear out0)) ts in
  let A := Children.angularSum ts in
  let '(out, _, _) := BlendedSteering.calculateSteering this w out0 in
  SteeringAcceleration.linear out = Vector.limit V maxLinear
  /\ (Vector.len V <= maxLinear -> SteeringAcceleration.linear out = V)
  /\ (0 <= maxLinear -> Vector.len V > maxLinear ->
      Vector.len (SteeringAcceleration.linear out) = maxLinear
      /\ SteeringAcceleration.linear out
         = Vector.scale V (maxLinear / Vector.len V)
      /\ 0 <= maxLinear / Vector.len V)
  /\ (A <= maxAngular -> SteeringAcceleration.angular out = A)
  /\ (A > maxAngular -> SteeringAcceleration.angular out = maxAngular).
Proof.
  intros Hen limiter maxLinear maxAngular ts V A.
  unfold BlendedSteering.calculateSteering,
    BlendedSteering.calculateRealSteering.
  rewrite Hen, blend_sum.
  cbn [SteeringAcceleration.linear SteeringAcceleration.angular
       SteeringAcceleration.setZero].
  fold limiter. fold maxLinear. fold maxAngular.
  replace (0 + Children.angularSum
                 (terms (BlendedSteering.list this) w
                        (BlendedSteering.steering this)))
    with A by (unfold A, ts; ring).
  fold ts. fold V.
  repeat split.
  - intros Hle. apply limit_len_id. exact Hle.
  - apply limit_len_beyond; assumption.
  - apply limit_len_beyond; assumption.
  - apply limit_len_beyond; assumption.
  - intros Hle. destruct (Rgt_dec A maxAngular); [lra | reflexivity].
  - intros Hgt. destruct (Rgt_dec A maxAngular); [reflexivity | lra].
Qed.

End Blended.

(** The linear part at work: the weighted sum of (6, 0) and (0, 4) with
    weights 1 and 2 is (6, 8), of magnitude 10; under the cap 5 the output
    is (3, 4). *)
Lemma BlendedSteering_linear_example :
  let '(out, _, _) :=
    BlendedSteering.calculateSteering BlendedExample.pushing tt
      (Examples.steering 7 7 7) in
  SteeringAcceleration.linear out = Vector2.make 3 4.
Proof.
  pose proof (@BlendedSteering_weighted_sum_clamped Vector2.t unit _ _
                BlendedExample.pushing tt (Examples.steering 7 7 7)
                eq_refl) as P.
  cbv zeta in P.
  destruct (BlendedSteering.calculateSteering BlendedExample.pushing tt
              (Examples.steering 7 7 7)) as [[out this'] w'].
  destruct P as (_ & _ & P & _).
  assert (Hlen : Vector.len
            (Children.linearSum
               (Vector.setZero
                  (SteeringAcceleration.linear (Examples.steering 7 7 7)))
               (combine
                  (map fst
                     (Children.outputs
                        (map BehaviorAndWeight.behavior
                           (BlendedSteering.list BlendedExample.pushing))
                        tt (BlendedSteering.steering BlendedExample.pushing)))
                  (map BehaviorAndWeight.weight
                     (BlendedSteering.list BlendedExample.pushing)))) = 10).
  { simpl. unfold Vector2.len, Vec2.len, Vec2.sqrLen, JS.sqrt. simpl.
    replace ((0 + 6 * 1 + 0 * 2) * (0 + 6 * 1 + 0 * 2)
             + (0 + 0 * 1 + 4 * 2) * (0 + 0 * 1 + 4 * 2))
      with (10 * 10) by ring.
    apply sqrt_square. lra. }
  rewrite Hlen in P. simpl in P.
  destruct P as (_ & -> & _); [lra | lra |].
  apply Vector2_ext; unfold Vector2.x, Vector2.y; simpl; field.
Qed.

(** C1, where the code departs from it.  One child of weight 1 asks for
    the angular acceleration -10 and the limiter's maximum angular
    acceleration is 1: the output keeps -10, of magnitude 10, because only
    a sum above the cap is replaced by it. *)
Theorem BlendedSteering_negative_angular_not_clamped :
  let limiter :=
    SteeringBehavior.getActualLimiter (BlendedSteering.self BlendedExample.this) in
  let '(out, _, _) :=
    BlendedSteering.calculateSteering BlendedExample.this tt
      (Examples.steering 0 0 0) in
  Limiter.getMaxAngularAcceleration limiter = 1
  /\ SteeringAcceleration.angular out = -10
  /\ JS.abs (SteeringAcceleration.angular out)
     > Limiter.getMaxAngularAcceleration limiter.
Proof.
  pose proof (@BlendedSteering_weighted_sum_clamped Vector2.t unit _ _
                BlendedExample.this tt (Examples.steering 0 0 0)
                eq_refl) as P.
  cbv zeta in P |- *.
  destruct (BlendedSteering.calculateSteering BlendedExample.this tt
              (Examples.steering 0 0 0)) as [[out this'] w'].
  destruct P as (_ & _ & _ & P & _).
  simpl in P. split; [reflexivity |].
  rewrite P by lra. split; [lra |].
  simpl. unfold JS.abs.
  replace (-10 * 1 + 0) with (-10) by ring.
  rewrite Rabs_left; lra.
Qed.

(** ** [Arrive] *)

Section ArriveProperties.
Context {T : Type} `{VectorLaws.t T}.

Lemma len_scale (v : T) (c : R) :
  Vector.len (Vector.scale v c) = Rabs c * Vector.len v.
Proof.
  rewrite !VectorLaws.len_sqrLen, VectorLaws.sqrLen_scale.
  rewrite sqrt_mult_alt by nra.
  fold (Rsqr c). rewrite sqrt_Rsqr_abs. reflexivity.
Qed.

Lemma setZero_isZero (s : SteeringAcceleration.t T) :
  SteeringAcceleration.isZero (SteeringAcceleration.setZero s) = true.
Proof.
  unfold SteeringAcceleration.isZero, SteeringAcceleration.setZero. simpl.
  rewrite VectorLaws.isZero_setZero.
  assert (E : JS.eqb 0 0 = true) by (apply JS_eqb_true; reflexivity).
  rewrite E. reflexivity.
Qed.

(** C3.  Let [distance] be the length of the vector from the owner to the
    target.  (1) When [distance] is at most [arrivalTolerance] the steering
    is exactly zero.  (2) Otherwise, for a non-negative tolerance, nonzero
    [timeToTarget] and non-negative caps: the desired velocity points to
    the target with magnitude the desired speed, which is [maxLinearSpeed]
    beyond [decelerationRadius] and [maxLinearSpeed] scaled by
    [distance / decelerationRadius] inside it; the linear output is
    (desired velocity - current velocity) / [timeToTarget] limited to
    [maxLinearAcceleration], so its magnitude is at most the cap and it is
    the unlimited value whenever that is within the cap; the angular
    output is zero. *)
Theorem Arrive_arrive_steering
    (this : Arrive.t T) (steering : SteeringAcceleration.t T) (targetPosition : T) :
  let owner := SteeringBehavior.owner (Arrive.self this) in
  let limiter := SteeringBehavior.getActualLimiter (Arrive.self this) in
  let maxSpeed := Limiter.getMaxLinearSpeed limiter in
  let maxAcceleration := Limiter.getMaxLinearAcceleration limiter in
  let toTarget := Vector.sub targetPosition (Steerable.getPosition owner) in
  let distance := Vector.len toTarget in
  let out := Arrive.arrive this steering targetPosition in
  (distance <= Arrive.arrivalTolerance this ->
   SteeringAcceleration.isZero out = true
   /\ out = SteeringAcceleration.setZero steering)
  /\ (distance > Arrive.arrivalTolerance this ->
      0 <= Arrive.arrivalTolerance this ->
      Arrive.timeToTarget this <> 0 ->
      0 <= maxSpeed -> 0 <= maxAcceleration ->
      let speed :=
        if Rgt_dec distance (Arrive.decelerationRadius this)
        then maxSpeed
        else maxSpeed * (distance / Arrive.decelerationRadius this) in
      let desiredVelocity := Vector.scale toTarget (speed / distance) in
      let unlimited :=
        Vector.scale
          (Vector.sub desiredVelocity (Steerable.getLinearVelocity owner))
          (1 / Arrive.timeToTarget this) in
      Vector.len desiredVelocity = speed
      /\ SteeringAcceleration.linear out = Vector.limit unlimited maxAcceleration
      /\ Vector.len (SteeringAcceleration.linear out) <= maxAcceleration
      /\ (Vector.len unlimited <= maxAcceleration ->
          SteeringAcceleration.linear out = unlimited)
      /\ (Vector.len unlimited > maxAcceleration ->
          Vector.len (SteeringAcceleration.linear out) = maxAcceleration
          /\ SteeringAcceleration.linear out
             = Vector.scale unlimited (maxAcceleration / Vector.len unlimited))
      /\ SteeringAcceleration.angular out = 0).
Proof.
  intros owner limiter maxSpeed maxAcceleration toTarget distance out.
  subst out. unfold Arrive.arrive. rewrite VectorLaws.copy_eq.
  fold owner. fold toTarget. fold distance.
  split.
  - intros Hle.
    destruct (Rle_dec distance (Arrive.arrivalTolerance this)); [| lra].
    split; [apply setZero_isZero |].
    unfold SteeringAcceleration.setZero. simpl.
    f_equal. apply VectorLaws.setZero_const.
  - intros Hgt Htol Httt Hspeed Hacc.
    destruct (Rle_dec distance (Arrive.arrivalTolerance this)); [lra |].
    assert (Hd : 0 < distance) by lra.
    set (speed := if Rgt_dec distance (Arrive.decelerationRadius this)
                  then maxSpeed
                  else maxSpeed * (distance / Arrive.decelerationRadius this)).
    assert (Hsp : Arrive.targetSpeed this distance = speed).
    { unfold Arrive.targetSpeed, speed. fold limiter. fold maxSpeed.
      destruct (Rle_dec distance (Arrive.decelerationRadius this));
        destruct (Rgt_dec distance (Arrive.decelerationRadius this));
        try lra; reflexivity. }
    rewrite Hsp. fold limiter. fold maxAcceleration.
    set (desiredVelocity := Vector.scale toTarget (speed / distance)).
    set (unlimited :=
           Vector.scale
             (Vector.sub desiredVelocity (Steerable.getLinearVelocity owner))
             (1 / Arrive.timeToTarget this)).
    cbn [SteeringAcceleration.linear SteeringAcceleration.angular].
    assert (Hs0 : 0 <= speed).
    { unfold speed.
      destruct (Rgt_dec distance (Arrive.decelerationRadius this)) as [| Hin];
        [exact Hspeed |].
      apply Rmult_le_pos; [exact Hspeed |].
      apply Rmult_le_pos; [lra |].
      left. apply Rinv_0_lt_compat. lra. }
    split.
    { unfold desiredVelocity. rewrite len_scale. fold distance.
      rewrite Rabs_right.
      - field. lra.
      - apply Rle_ge. apply Rmult_le_pos; [exact Hs0 |].
        left. apply Rinv_0_lt_compat. exact Hd. }
    split; [reflexivity |].
    split; [apply limit_len_cap; exact Hacc |].
    split; [apply limit_len_id |].
    split; [| reflexivity].
    intros Hbeyond.
    destruct (limit_len_beyond unlimited maxAcceleration Hacc Hbeyond)
      as (Hl & He & _).
    split; assumption.
Qed.

End ArriveProperties.

Lemma Vector2_len_make (a b n : R) :
  0 <= n -> a * a + b * b = n * n -> Vector2.len (Vector2.make a b) = n.
Proof.
  intros Hn E. unfold Vector2.len, Vec2.len, Vec2.sqrLen, JS.sqrt. simpl.
  rewrite E. apply sqrt_square. exact Hn.
Qed.

Lemma Vector2_len_sub_make (a b c d n : R) :
  0 <= n -> (a - c) * (a - c) + (b - d) * (b - d) = n * n ->
  Vector2.len (Vector2.sub (Vector2.make a b) (Vector2.make c d)) = n.
Proof.
  intros Hn E. unfold Vector2.len, Vec2.len, Vec2.sqrLen, JS.sqrt. simpl.
  rewrite E. apply sqrt_square. exact Hn.
Qed.

Lemma Arrive_arrive_steering_witness :
  (let out :=
     Arrive.arrive ArriveExample.there (Examples.steering 7 7 7)
                   (Vector2.make 0 0) in
   SteeringAcceleration.isZero out = true)
  /\ (let out :=
        Arrive.arrive ArriveExample.this (Examples.steering 7 7 7)
                      (Vector2.make 3 4) in
      Vector.len (SteeringAcceleration.linear out) <= 5
      /\ SteeringAcceleration.angular out = 0).
Proof.
  split.
  - apply (proj1 (Arrive_arrive_steering ArriveExample.there
                    (Examples.steering 7 7 7) (Vector2.make 0 0))).
    change (Vector2.len (Vector2.sub (Vector2.make 0 0) (Vector2.make 0 0))
            <= 1).
    rewrite (Vector2_len_sub_make 0 0 0 0 0); [lra | lra | ring].
  - destruct (proj2 (Arrive_arrive_steering ArriveExample.this
                       (Examples.steering 7 7 7) (Vector2.make 3 4)))
      as (_ & _ & Hcap & _ & _ & Hang).
    + change (Vector2.len (Vector2.sub (Vector2.make 3 4) (Vector2.make 0 0))
              > 1).
      rewrite (Vector2_len_sub_make 3 4 0 0 5); [lra | lra | ring].
    + change (0 <= 1). lra.
    + change (1 / 10 <> 0). lra.
    + change (0 <= 10). lra.
    + change (0 <= 5). lra.
    + split; [exact Hcap | exact Hang].
Defined.

(** ** [wrapAngleAroundZero] *)

Lemma trunc_nonneg (x : R) : 0 <= x -> JS.trunc x = Int_part x.
Proof. intros Hx. unfold JS.trunc. destruct (Rle_dec 0 x); [reflexivity | lra]. Qed.

(** On a non-negative dividend and a positive divisor the remainder lies
    between 0 and the divisor. *)
Lemma rem_bounds (a b : R) : 0 <= a -> 0 < b -> 0 <= JS.rem a b < b.
Proof.
  intros Ha Hb. unfold JS.rem.
  assert (Hq : 0 <= a / b).
  { apply Rmult_le_pos; [exact Ha |]. left. apply Rinv_0_lt_compat. exact Hb. }
  rewrite (trunc_nonneg _ Hq).
  destruct (base_Int_part (a / b)) as [Hlo Hhi].
  assert (Ea : a = b * (a / b)) by (field; lra).
  set (n := IZR (Int_part (a / b))) in *.
  split; nra.
Qed.

Lemma rem_small (a b : R) : 0 <= a < b -> JS.rem a b = a.
Proof.
  intros [Ha Hb]. unfold JS.rem.
  assert (Hq : 0 <= a / b).
  { apply Rmult_le_pos; [exact Ha |]. left. apply Rinv_0_lt_compat. lra. }
  rewrite (trunc_nonneg _ Hq).
  rewrite <- (Int_part_spec (a / b) 0%Z).
  - simpl. ring.
  - assert (Hlt : a / b < 1).
    { apply (Rmult_lt_reg_r b); [lra |].
      replace (a / b * b) with a by (field; lra). lra. }
    simpl. lra.
Qed.

Lemma PI2_pos : 0 < PI2.
Proof. unfold PI2. pose proof PI_RGT_0. lra. Qed.

Lemma wrapAngleAroundZero_range (a : R) :
  - PI <= wrapAngleAroundZero a <= PI.
Proof.
  pose proof PI_RGT_0 as Hpi. pose proof PI2_pos as Hp.
  unfold wrapAngleAroundZero.
  destruct (Rge_dec a 0) as [Ha | Ha].
  - destruct (rem_bounds a PI2) as [Hlo Hhi]; [lra | exact Hp |].
    unfold PI2 in *.
    destruct (Rgt_dec (JS.rem a (PI * 2)) PI); lra.
  - destruct (rem_bounds (- a) PI2) as [Hlo Hhi]; [lra | exact Hp |].
    unfold PI2 in *.
    destruct (Rgt_dec (JS.rem (- a) (PI * 2)) PI); lra.
Qed.

(** The wrapped angle differs from the angle by a whole number of turns. *)
Lemma wrapAngleAroundZero_turns (a : R) :
  exists k : Z, wrapAngleAroundZero a = a + IZR k * (2 * PI).
Proof.
  unfold wrapAngleAroundZero, JS.rem, PI2.
  destruct (Rge_dec a 0) as [Ha | Ha].
  - set (n := JS.trunc (a / (PI * 2))).
    destruct (Rgt_dec (a - PI * 2 * IZR n) PI) as [Hgt | Hgt].
    + exists (- n - 1)%Z. rewrite minus_IZR, opp_IZR. ring.
    + exists (- n)%Z. rewrite opp_IZR. ring.
  - set (m := JS.trunc (- a / (PI * 2))).
    destruct (Rgt_dec (- a - PI * 2 * IZR m) PI) as [Hgt | Hgt].
    + exists (m + 1)%Z. rewrite plus_IZR. ring.
    + exists m. ring.
Qed.

(** An angle between minus pi and pi is left as it is. *)
Lemma wrapAngleAroundZero_id (a : R) :
  - PI <= a <= PI -> wrapAngleAroundZero a = a.
Proof.
  intros [Hlo Hhi]. pose proof PI_RGT_0 as Hpi.
  unfold wrapAngleAroundZero.
  destruct (Rge_dec a 0) as [Ha | Ha].
  - rewrite rem_small by (unfold PI2; lra).
    destruct (Rgt_dec a PI); [lra | reflexivity].
  - rewrite rem_small by (unfold PI2; lra).
    destruct (Rgt_dec (- a) PI); [lra | ring].
Qed.

(** Just past half a turn the shortest way is the other way round. *)
Lemma wrapAngleAroundZero_past_PI (d : R) :
  0 < d < PI -> wrapAngleAroundZero (PI + d) = - PI + d.
Proof.
  intros [Hd Hdpi]. unfold wrapAngleAroundZero.
  destruct (Rge_dec (PI + d) 0) as [_ | Hn]; [| lra].
  rewrite rem_small by (unfold PI2; lra).
  destruct (Rgt_dec (PI + d) PI); [| lra].
  unfold PI2. ring.
Qed.

Lemma rotationSize_abs (x : R) : (if Rlt_dec x 0 then - x else x) = JS.abs x.
Proof.
  unfold JS.abs. destruct (Rlt_dec x 0).
  - rewrite Rabs_left; lra.
  - rewrite Rabs_right; lra.
Qed.

(** ** [ReachOrientation] *)

Section ReachOrientationProperties.
Context {T : Type} `{VectorLaws.t T}.

(** C4.  [rotation] is the difference between the target angle and the
    owner's angle wrapped to the range from minus pi to pi: it differs from
    the difference by whole turns and lies in that range; for an owner at
    angle 0 and a target at pi + 0.1 it is -pi + 0.1.  (1) When
    [|rotation| <= alignTolerance] the steering is exactly zero.
    (2) Otherwise, for a non-negative tolerance, nonzero [timeToTarget]
    and non-negative caps: the desired rotation has the sign of [rotation]
    and as magnitude the desired rotation speed, [maxAngularSpeed] beyond
    [decelerationRadius] and scaled by [|rotation| / decelerationRadius]
    inside it; the angular output is (desired rotation - current angular
    velocity) / [timeToTarget] with its magnitude capped at
    [maxAngularAcceleration]; the linear output is zero. *)
Theorem ReachOrientation_reachOrientation_steering
    (this : ReachOrientation.t T) (steering : SteeringAcceleration.t T)
    (targetOrientation : R) :
  let owner := SteeringBehavior.owner (ReachOrientation.self this) in
  let limiter := SteeringBehavior.getActualLimiter (ReachOrientation.self this) in
  let maxSpeed := Limiter.getMaxAngularSpeed limiter in
  let maxAcceleration := Limiter.getMaxAngularAcceleration limiter in
  let rotation := ReachOrientation.rotation this targetOrientation in
  let out := ReachOrientation.reachOrientation this steering targetOrientation in
  (- PI <= rotation <= PI
   /\ exists k : Z,
        rotation
        = targetOrientation - Steerable.getOrientation owner + IZR k * (2 * PI))
  /\ (Steerable.getOrientation owner = 0 ->
      targetOrientation = PI + 1 / 10 ->
      rotation = - PI + 1 / 10)
  /\ (JS.abs rotation <= ReachOrientation.alignTolerance this ->
      SteeringAcceleration.isZero out = true
      /\ out = SteeringAcceleration.setZero steering)
  /\ (JS.abs rotation > ReachOrientation.alignTolerance this ->
      0 <= ReachOrientation.alignTolerance this ->
      ReachOrientation.timeToTarget this <> 0 ->
      0 <= maxSpeed -> 0 <= maxAcceleration ->
      let speed :=
        if Rgt_dec (JS.abs rotation) (ReachOrientation.decelerationRadius this)
        then maxSpeed
        else maxSpeed
             * (JS.abs rotation / ReachOrientation.decelerationRadius this) in
      let desired := speed * (rotation / JS.abs rotation) in
      let unlimited :=
        (desired - Steerable.getAngularVelocity owner)
        / ReachOrientation.timeToTarget this in
      JS.abs desired = speed
      /\ 0 <= desired * rotation
      /\ (JS.abs unlimited <= maxAcceleration ->
          SteeringAcceleration.angular out = unlimited)
      /\ (JS.abs unlimited > maxAcceleration ->
          SteeringAcceleration.angular out
          = unlimited * (maxAcceleration / JS.abs unlimited)
          /\ JS.abs (SteeringAcceleration.angular out) = maxAcceleration)
      /\ JS.abs (SteeringAcceleration.angular out) <= maxAcceleration
      /\ Vector.isZero (SteeringAcceleration.linear out) = true).
Proof.
  intros owner limiter maxSpeed maxAcceleration rotation out.
  split; [| split; [| split]].
  - split; [apply wrapAngleAroundZero_range |].
    apply wrapAngleAroundZero_turns.
  - intros Ho Ht. unfold rotation, ReachOrientation.rotation.
    fold owner. rewrite Ho, Ht.
    replace (PI + 1 / 10 - 0) with (PI + 1 / 10) by ring.
    apply wrapAngleAroundZero_past_PI. pose proof PI2_1. lra.
  - intros Hle. subst out. unfold ReachOrientation.reachOrientation.
    fold rotation. rewrite rotationSize_abs.
    destruct (Rle_dec (JS.abs rotation) (ReachOrientation.alignTolerance this));
      [| lra].
    split; [apply setZero_isZero | reflexivity].
  - intros Hgt Htol Httt Hspeed Hacc.
    subst out. unfold ReachOrientation.reachOrientation.
    fold rotation. fold owner. rewrite rotationSize_abs.
    destruct (Rle_dec (JS.abs rotation) (ReachOrientation.alignTolerance this));
      [lra |].
    set (speed :=
           if Rgt_dec (JS.abs rotation) (ReachOrientation.decelerationRadius this)
           then maxSpeed
           else maxSpeed
                * (JS.abs rotation / ReachOrientation.decelerationRadius this)).
    set (desired := speed * (rotation / JS.abs rotation)).
    assert (Hsize : 0 < JS.abs rotation) by lra.
    assert (Hrot : ReachOrientation.targetRotation this rotation = desired).
    { unfold ReachOrientation.targetRotation, desired, speed.
      rewrite rotationSize_abs. fold limiter. fold maxSpeed.
      destruct (Rle_dec (JS.abs rotation)
                  (ReachOrientation.decelerationRadius this));
        destruct (Rgt_dec (JS.abs rotation)
                    (ReachOrientation.decelerationRadius this));
        try lra; reflexivity. }
    rewrite Hrot. fold limiter. fold maxAcceleration.
    set (unlimited :=
           (desired - Steerable.getAngularVelocity owner)
           / ReachOrientation.timeToTarget this).
    rewrite rotationSize_abs.
    cbn [SteeringAcceleration.linear SteeringAcceleration.angular].
    assert (Hs0 : 0 <= speed).
    { unfold speed.
      destruct (Rgt_dec (JS.abs rotation)
                  (ReachOrientation.decelerationRadius this)) as [| Hin];
        [exact Hspeed |].
      apply Rmult_le_pos; [exact Hspeed |].
      apply Rmult_le_pos; [lra |].
      left. apply Rinv_0_lt_compat. lra. }
    assert (Hsign : rotation / JS.abs rotation = 1
                    \/ rotation / JS.abs rotation = -1).
    { unfold JS.abs in *. unfold Rabs in *.
      destruct (Rcase_abs rotation); [right | left]; field; lra. }
    split.
    { unfold desired.
      destruct Hsign as [-> | ->]; unfold JS.abs.
      - rewrite Rmult_1_r. apply Rabs_right. lra.
      - replace (speed * -1) with (- speed) by ring.
        rewrite Rabs_Ropp. apply Rabs_right. lra. }
    split.
    { unfold desired. unfold JS.abs in *. unfold Rabs in *.
      destruct (Rcase_abs rotation).
      - replace (speed * (rotation / - rotation) * rotation)
          with (speed * (- rotation)) by (field; lra).
        apply Rmult_le_pos; lra.
      - replace (speed * (rotation / rotation) * rotation)
          with (speed * rotation) by (field; lra).
        apply Rmult_le_pos; lra. }
    assert (Hcapped :
              JS.abs unlimited > maxAcceleration ->
              JS.abs (unlimited * (maxAcceleration / JS.abs unlimited))
              = maxAcceleration).
    { intros Hb. unfold JS.abs in *.
      assert (Hu : 0 < Rabs unlimited) by lra.
      rewrite Rabs_mult.
      rewrite (Rabs_right (maxAcceleration / Rabs unlimited)).
      - field. lra.
      - apply Rle_ge. apply Rmult_le_pos; [exact Hacc |].
        left. apply Rinv_0_lt_compat. exact Hu. }
    split.
    { intros Hw. destruct (Rgt_dec (JS.abs unlimited) maxAcceleration);
        [lra | reflexivity]. }
    split.
    { intros Hb. destruct (Rgt_dec (JS.abs unlimited) maxAcceleration);
        [| lra].
      split; [reflexivity | apply Hcapped; exact Hb]. }
    split.
    { destruct (Rgt_dec (JS.abs unlimited) maxAcceleration) as [Hb | Hw].
      - rewrite (Hcapped Hb). lra.
      - lra. }
    apply VectorLaws.isZero_setZero.
Qed.

End ReachOrientationProperties.

Lemma ReachOrientation_reachOrientation_steering_witness :
  let this := ReachOrientationExample.this in
  let out :=
    ReachOrientation.reachOrientation this (Examples.steering 7 7 7)
                                      (PI + 1 / 10) in
  ReachOrientation.rotation this (PI + 1 / 10) = - PI + 1 / 10
  /\ JS.abs (SteeringAcceleration.angular out) <= 1
  /\ Vector.isZero (SteeringAcceleration.linear out) = true.
Proof.
  intros this out.
  destruct (ReachOrientation_reachOrientation_steering
              ReachOrientationExample.this (Examples.steering 7 7 7)
              (PI + 1 / 10))
    as (_ & Hrot & _ & Hrest).
  specialize (Hrot eq_refl eq_refl).
  split; [exact Hrot |].
  destruct Hrest as (_ & _ & _ & _ & Hcap & Hlin).
  - rewrite Hrot. change (JS.abs (- PI + 1 / 10) > 0).
    unfold JS.abs. pose proof PI2_1. rewrite Rabs_left; lra.
  - change (0 <= 0). lra.
  - change (1 / 10 <> 0). lra.
  - change (0 <= 10). lra.
  - change (0 <= 1). lra.
  - split; [exact Hcap | exact Hlin].
Defined.

(** ** [LinePath] *)

Section LinePathProperties.
Context {T : Type} `{Vector.t T}.

(** C8.  Constructing a [LinePath] from [null] or from fewer than two
    waypoints throws; constructing it from two or more waypoints returns a
    path. *)
Theorem LinePath_new_throws_below_two_waypoints :
  (forall isOpen : bool,
      LinePath.new (T := T) None isOpen = Throws Messages.waypoints)
  /\ (forall (waypoints : list T) (isOpen : bool),
      (length waypoints < 2)%nat ->
      LinePath.new (Some waypoints) isOpen = Throws Messages.waypoints)
  /\ (forall (waypoints : list T) (isOpen : bool),
      (2 <= length waypoints)%nat ->
      exists path : LinePath.t T,
        LinePath.new (Some waypoints) isOpen = Returns path).
Proof.
  split; [| split].
  - intros isOpen. reflexivity.
  - intros waypoints isOpen Hlen.
    unfold LinePath.new, LinePath.createPath.
    destruct (Nat.ltb_spec (length waypoints) 2) as [_ | Hge]; [| lia].
    reflexivity.
  - intros waypoints isOpen Hlen.
    unfold LinePath.new, LinePath.createPath.
    destruct (Nat.ltb_spec (length waypoints) 2) as [Hlt | _]; [lia |].
    destruct waypoints as [| first rest]; [simpl in Hlen; lia |].
    destruct (LinePath.createSegments isOpen first first rest [] 0)
      as [segments pathLength].
    eexists. reflexivity.
Qed.

End LinePathProperties.

Lemma LinePath_new_throws_below_two_waypoints_witness :
  LinePath.new (Some [Vector2.make 0 0]) true = Throws Messages.waypoints
  /\ exists path : LinePath.t Vector2.t,
       LinePath.new (Some [Vector2.make 0 0; Vector2.make 3 4]) true
       = Returns path.
Proof.
  split.
  - apply (proj1 (proj2 (@LinePath_new_throws_below_two_waypoints
                           Vector2.t _))).
    simpl. lia.
  - apply (proj2 (proj2 (@LinePath_new_throws_below_two_waypoints
                           Vector2.t _))).
    simpl. lia.
Defined.

(** ** [RadiusProximity] *)

Section RadiusProximityProperties.
Context {T : Type} `{Vector.t T}.

(** On a new frame the callback is called on the agents in range, in the
    order of the list. *)
Lemma scanNew_reportAll {S : Type} (this : RadiusProximity.t T)
    (callback : ProximityCallback T S) (rest : list (Steerable.t T)) :
  forall (s : S) (count : nat),
    let '(_, s', count') := RadiusProximity.scanNew this callback rest s count in
    (s', count')
    = Neighbors.reportAll callback
        (filter (RadiusProximity.inRange this) rest) s count.
Proof.
  induction rest as [| agent rest IH]; intros s count.
  - reflexivity.
  - cbn [RadiusProximity.scanNew filter].
    destruct (RadiusProximity.inRange this agent).
    + cbn [Neighbors.reportAll].
      destruct (callback s agent) as [[|] s1].
      * specialize (IH s1 (Datatypes.S count)).
        destruct (RadiusProximity.scanNew this callback rest s1
                    (Datatypes.S count)) as [[done s2] n2].
        exact IH.
      * specialize (IH s1 count).
        destruct (RadiusProximity.scanNew this callback rest s1 count)
          as [[done s2] n2].
        exact IH.
    + specialize (IH s count).
      destruct (RadiusProximity.scanNew this callback rest s count)
        as [[done s2] n2].
      exact IH.
Qed.

Lemma inRange_spec (this : RadiusProximity.t T) (agent : Steerable.t T) :
  RadiusProximity.inRange this agent = true
  <-> Steerable.ref agent <> Steerable.ref (RadiusProximity.owner this)
      /\ Vector.dst2 (Steerable.getPosition (RadiusProximity.owner this))
                     (Steerable.getPosition agent)
         < (RadiusProximity.radius this + Steerable.getBoundingRadius agent)
           * (RadiusProximity.radius this + Steerable.getBoundingRadius agent).
Proof.
  unfold RadiusProximity.inRange, Steerable.neq.
  destruct (Nat.eqb_spec (Steerable.ref agent)
              (Steerable.ref (RadiusProximity.owner this))) as [E | E]; simpl.
  - split; [discriminate | intros [Hn _]; contradiction].
  - match goal with |- context [Rlt_dec ?a ?b] => destruct (Rlt_dec a b) end.
    + split; [intros _; split; assumption | reflexivity].
    + split; [discriminate | intros [_ Hlt]; contradiction].
Qed.

(** The count is the number of agents the callback accepted: with a
    callback that accepts all, it is the number of agents reported. *)
Lemma reportAll_recording (neighbors : list (Steerable.t T)) :
  forall (log : list (Steerable.t T)) (count : nat),
    Neighbors.reportAll Neighbors.recording neighbors log count
    = (log ++ neighbors, (count + length neighbors)%nat).
Proof.
  induction neighbors as [| a rest IH]; intros log count.
  - simpl. rewrite app_nil_r, Nat.add_0_r. reflexivity.
  - simpl. rewrite IH. rewrite <- app_assoc. simpl.
    f_equal. lia.
Qed.

(** On a new frame [findNeighbors] is the report of the agents in range. *)
Lemma findNeighbors_fresh {S : Type} (this : RadiusProximity.t T)
    (currentTime : R) (callback : ProximityCallback T S) (s : S) :
  RadiusProximity.lastTime this <> currentTime ->
  RadiusProximity.findNeighbors this currentTime callback s
  = (snd (Neighbors.reportAll callback
            (filter (RadiusProximity.inRange this)
                    (RadiusProximity.agents this)) s 0),
     fst (Neighbors.reportAll callback
            (filter (RadiusProximity.inRange this)
                    (RadiusProximity.agents this)) s 0),
     RadiusProximity.mk (RadiusProximity.owner this)
       (fst (fst (RadiusProximity.scanNew this callback
                    (RadiusProximity.agents this) s 0)))
       (RadiusProximity.radius this) currentTime).
Proof.
  intros Hfresh. unfold RadiusProximity.findNeighbors.
  destruct (Req_dec_T (RadiusProximity.lastTime this) currentTime);
    [contradiction |].
  pose proof (scanNew_reportAll this callback
                (RadiusProximity.agents this) s 0) as P.
  destruct (RadiusProximity.scanNew this callback
              (RadiusProximity.agents this) s 0) as [[done s'] n'].
  rewrite <- P. reflexivity.
Qed.

(** Seen from a group behavior, the proximity then reports those agents. *)
Lemma asProximity_fresh {S : Type} (this : RadiusProximity.t T)
    (currentTime : R) (callback : ProximityCallback T S) (s : S) :
  RadiusProximity.lastTime this <> currentTime ->
  RadiusProximity.asProximity this currentTime S callback s
  = Collision.reporting
      (filter (RadiusProximity.inRange this) (RadiusProximity.agents this))
      S callback s.
Proof.
  intros Hfresh. unfold RadiusProximity.asProximity, Collision.reporting.
  rewrite (findNeighbors_fresh this currentTime callback s Hfresh).
  destruct (Neighbors.reportAll callback _ s 0). reflexivity.
Qed.

End RadiusProximityProperties.

Lemma RadiusProximityExample_in_range :
  filter (RadiusProximity.inRange RadiusProximityExample.this)
         (RadiusProximity.agents RadiusProximityExample.this)
  = [RadiusProximityExample.agent1].
Proof.
  assert (H0 : RadiusProximity.inRange RadiusProximityExample.this
                 RadiusProximityExample.agent0 = false) by reflexivity.
  assert (H1 : RadiusProximity.inRange RadiusProximityExample.this
                 RadiusProximityExample.agent1 = true).
  { apply inRange_spec. split; [simpl; lia |].
    simpl. unfold Vector2.dst2, Vec2.squaredDistance. simpl. lra. }
  assert (H2 : RadiusProximity.inRange RadiusProximityExample.this
                 RadiusProximityExample.agent2 = false).
  { destruct (RadiusProximity.inRange RadiusProximityExample.this
                RadiusProximityExample.agent2) eqn:E; [| reflexivity].
    apply inRange_spec in E. destruct E as [_ E]. exfalso.
    simpl in E. unfold Vector2.dst2, Vec2.squaredDistance in E.
    simpl in E. lra. }
  change (RadiusProximity.agents RadiusProximityExample.this)
    with [RadiusProximityExample.agent0; RadiusProximityExample.agent1;
          RadiusProximityExample.agent2].
  cbn [filter]. rewrite H0, H1, H2. reflexivity.
Qed.

(** C7.  Called with a tick id other than the last one seen,
    [findNeighbors] calls the callback on exactly the agents of its list
    that are not the owner and whose squared distance from the owner's
    position is less than the square of the radius plus their bounding
    radius, in list order, and returns the number of agents the callback
    accepted; it records the tick id.  With the agents at (0,0), (3,0) and
    (10,0) of bounding radius 0, the first being the owner, radius 5 and a
    callback that accepts all, exactly the agent at (3,0) is reported and
    the count is 1. *)
Theorem RadiusProximity_findNeighbors_fresh_tick :
  (forall (T S : Type) (V : Vector.t T) (this : RadiusProximity.t T)
          (currentTime : R) (callback : ProximityCallback T S) (s : S),
      RadiusProximity.lastTime this <> currentTime ->
      let reported :=
        filter (RadiusProximity.inRange this) (RadiusProximity.agents this) in
      let '(count, s', this') :=
        RadiusProximity.findNeighbors this currentTime callback s in
      (s', count) = Neighbors.reportAll callback reported s 0
      /\ (forall agent,
             In agent reported <->
             In agent (RadiusProximity.agents this)
             /\ Steerable.ref agent <> Steerable.ref (RadiusProximity.owner this)
             /\ Vector.dst2 (Steerable.getPosition (RadiusProximity.owner this))
                            (Steerable.getPosition agent)
                < (RadiusProximity.radius this
                   + Steerable.getBoundingRadius agent)
                  * (RadiusProximity.radius this
                     + Steerable.getBoundingRadius agent))
      /\ RadiusProximity.lastTime this' = currentTime)
  /\ (let '(count, log, _) :=
        RadiusProximity.findNeighbors RadiusProximityExample.this 1
          Neighbors.recording [] in
      log = [RadiusProximityExample.agent1] /\ count = 1%nat).
Proof.
  split.
  - intros T S V this currentTime callback s Hfresh reported.
    rewrite (findNeighbors_fresh this currentTime callback s Hfresh).
    fold reported.
    split; [destruct (Neighbors.reportAll callback reported s 0); reflexivity |].
    split; [| reflexivity].
    intros agent. unfold reported. rewrite filter_In, inRange_spec. tauto.
  - rewrite findNeighbors_fresh by (simpl; lra).
    rewrite RadiusProximityExample_in_range, reportAll_recording.
    split; reflexivity.
Qed.

Lemma RadiusProximity_findNeighbors_fresh_tick_witness :
  let '(count, log, this') :=
    RadiusProximity.findNeighbors RadiusProximityExample.this 1
      Neighbors.recording [] in
  (log, count)
  = Neighbors.reportAll Neighbors.recording
      (filter (RadiusProximity.inRange RadiusProximityExample.this)
              (RadiusProximity.agents RadiusProximityExample.this)) [] 0
  /\ RadiusProximity.lastTime this' = 1.
Proof.
  pose proof (proj1 RadiusProximity_findNeighbors_fresh_tick
                Vector2.t (list (Steerable.t Vector2.t)) _
                RadiusProximityExample.this 1 Neighbors.recording [])
    as P.
  cbv zeta in P.
  destruct (RadiusProximity.findNeighbors RadiusProximityExample.this 1
              Neighbors.recording []) as [[count log] this'].
  destruct P as (P1 & _ & P3).
  - change (0 <> 1). lra.
  - split; [exact P1 | exact P3].
Defined.

(** ** [CollisionAvoidance] *)

Section CollisionAvoidanceProperties.
Context {T : Type} `{VectorLaws.t T}.

(** The scratch vectors apart, a rejected report leaves the behavior as
    it was. *)
Lemma sameCollision_scratch (this : CollisionAvoidance.t T) (p v : T) :
  Collision.sameCollision this
    (CollisionAvoidance.mk (CollisionAvoidance.self this)
       (CollisionAvoidance.shortestTime this)
       (CollisionAvoidance.firstNeighbor this)
       (CollisionAvoidance.firstMinSeparation this)
       (CollisionAvoidance.firstDistance this)
       (CollisionAvoidance.firstRelativePosition this)
       (CollisionAvoidance.firstRelativeVelocity this) p v).
Proof. repeat split. Qed.

(** [reportNeighborWith] in the vocabulary of the statements. *)
Lemma reportNeighborWith_cases (div : R -> R -> R)
    (this : CollisionAvoidance.t T) (neighbor : Steerable.t T) :
  let owner := SteeringBehavior.owner (CollisionAvoidance.self this) in
  let rp := Collision.relativePosition owner neighbor in
  let rv := Collision.relativeVelocity owner neighbor in
  let ttc := div (- Vector.dot rp rv) (Vector.sqrLen rv) in
  let sep := Vector.len rp - sqrt (Vector.sqrLen rv) * ttc in
  let rejected :=
    CollisionAvoidance.mk (CollisionAvoidance.self this)
      (CollisionAvoidance.shortestTime this)
      (CollisionAvoidance.firstNeighbor this)
      (CollisionAvoidance.firstMinSeparation this)
      (CollisionAvoidance.firstDistance this)
      (CollisionAvoidance.firstRelativePosition this)
      (CollisionAvoidance.firstRelativeVelocity this) rp rv in
  CollisionAvoidance.reportNeighborWith div this neighbor
  = if Req_dec_T (Vector.sqrLen rv) 0 then (false, rejected)
    else if Rle_dec ttc 0 then (false, rejected)
    else if CollisionAvoidance.geShortest ttc
              (CollisionAvoidance.shortestTime this) then (false, rejected)
    else if Rgt_dec sep (Steerable.getBoundingRadius owner
                         + Steerable.getBoundingRadius neighbor)
    then (false, rejected)
    else (true,
          CollisionAvoidance.mk (CollisionAvoidance.self this)
            (Some ttc) (Some neighbor) sep (Vector.len rp) rp rv rp rv).
Proof.
  intros owner rp rv ttc sep rejected.
  unfold CollisionAvoidance.reportNeighborWith.
  rewrite !VectorLaws.copy_eq.
  reflexivity.
Qed.

(** The quotient by zero is never used. *)
Lemma reportNeighborWith_division (div : R -> R -> R)
    (this : CollisionAvoidance.t T) (neighbor : Steerable.t T) :
  (forall a b : R, b <> 0 -> div a b = a / b) ->
  CollisionAvoidance.reportNeighborWith div this neighbor
  = CollisionAvoidance.reportNeighbor this neighbor.
Proof.
  intros Hdiv. unfold CollisionAvoidance.reportNeighbor.
  rewrite !reportNeighborWith_cases. cbv zeta.
  destruct (Req_dec_T _ 0) as [E | E]; [reflexivity |].
  rewrite (Hdiv _ _ E). reflexivity.
Qed.

(** A neighbor that cannot collide is rejected. *)
Lemma reportNeighbor_cannotCollide
    (this : CollisionAvoidance.t T) (neighbor : Steerable.t T) :
  Collision.cannotCollide
    (SteeringBehavior.owner (CollisionAvoidance.self this)) neighbor ->
  fst (CollisionAvoidance.reportNeighbor this neighbor) = false
  /\ Collision.sameCollision this
       (snd (CollisionAvoidance.reportNeighbor this neighbor)).
Proof.
  intros Hno. unfold CollisionAvoidance.reportNeighbor.
  rewrite reportNeighborWith_cases. cbv zeta.
  unfold Collision.cannotCollide, Collision.minSeparation,
    Collision.timeToCollision in Hno.
  destruct (Req_dec_T _ 0) as [E | E];
    [cbn [fst snd]; split; [reflexivity | apply sameCollision_scratch] |].
  destruct (Rle_dec _ 0) as [L | L];
    [cbn [fst snd]; split; [reflexivity | apply sameCollision_scratch] |].
  destruct (CollisionAvoidance.geShortest _ _) eqn:Hge;
    [cbn [fst snd]; split; [reflexivity | apply sameCollision_scratch] |].
  destruct (Rgt_dec _ _) as [G | G];
    [cbn [fst snd]; split; [reflexivity | apply sameCollision_scratch] |].
  exfalso. destruct Hno as [Hz | [Ht | Hs]]; [contradiction | | ].
  - apply L. exact Ht.
  - apply G. exact Hs.
Qed.

Lemma reportAll_cannotCollide (neighbors : list (Steerable.t T)) :
  forall (this : CollisionAvoidance.t T) (count : nat),
    (forall neighbor,
        In neighbor neighbors ->
        Collision.cannotCollide
          (SteeringBehavior.owner (CollisionAvoidance.self this)) neighbor) ->
    snd (Neighbors.reportAll CollisionAvoidance.reportNeighbor
           neighbors this count) = count
    /\ Collision.sameCollision this
         (fst (Neighbors.reportAll CollisionAvoidance.reportNeighbor
                 neighbors this count)).
Proof.
  induction neighbors as [| n rest IH]; intros this count Hall.
  - split; [reflexivity | repeat split].
  - cbn [Neighbors.reportAll].
    destruct (reportNeighbor_cannotCollide this n) as [Hrej Hsame].
    { apply Hall. left. reflexivity. }
    destruct (CollisionAvoidance.reportNeighbor this n) as [accepted this1].
    simpl in Hrej, Hsame. subst accepted.
    destruct (IH this1 count) as [Hc Hs].
    + intros neighbor Hin.
      destruct Hsame as (Hself & _). rewrite <- Hself.
      apply Hall. right. exact Hin.
    + split; [exact Hc |].
      unfold Collision.sameCollision in *.
      destruct Hsame as (A1 & A2 & A3 & A4 & A5 & A6 & A7).
      destruct Hs as (B1 & B2 & B3 & B4 & B5 & B6 & B7).
      repeat split; congruence.
Qed.

(** Nothing to avoid: the steering is zero. *)
Lemma calculateSteering_cannotCollide (this : CollisionAvoidance.t T)
    (neighbors : list (Steerable.t T)) (steering : SteeringAcceleration.t T) :
  SteeringBehavior.isEnabled (CollisionAvoidance.self this) = true ->
  (forall neighbor,
      In neighbor neighbors ->
      Collision.cannotCollide
        (SteeringBehavior.owner (CollisionAvoidance.self this)) neighbor) ->
  fst (CollisionAvoidance.calculateSteering
         (Collision.reporting neighbors) this steering)
  = SteeringAcceleration.setZero steering.
Proof.
  intros Hen Hall.
  unfold CollisionAvoidance.calculateSteering. rewrite Hen.
  unfold CollisionAvoidance.calculateRealSteering, Collision.reporting.
  set (start :=
         CollisionAvoidance.mk (CollisionAvoidance.self this) None None 0 0
           (CollisionAvoidance.firstRelativePosition this)
           (CollisionAvoidance.firstRelativeVelocity this)
           (SteeringAcceleration.linear steering)
           (CollisionAvoidance.relativeVelocity this)).
  destruct (reportAll_cannotCollide neighbors start 0%nat Hall)
    as [Hcount Hsame].
  destruct (Neighbors.reportAll CollisionAvoidance.reportNeighbor
              neighbors start 0) as [after count].
  simpl in Hcount, Hsame.
  destruct Hsame as (_ & _ & Hfirst & _).
  simpl in Hfirst. rewrite <- Hfirst.
  unfold CollisionAvoidance.returnZero. cbn [fst].
  unfold SteeringAcceleration.setZero. simpl.
  f_equal. apply VectorLaws.setZero_const.
Qed.

(** The same with a [RadiusProximity] on a new frame: when no agent in
    range can collide with the owner, the steering is zero. *)
Lemma calculateSteering_RadiusProximity_zero (this : CollisionAvoidance.t T)
    (proximity : RadiusProximity.t T) (currentTime : R)
    (steering : SteeringAcceleration.t T) :
  SteeringBehavior.isEnabled (CollisionAvoidance.self this) = true ->
  RadiusProximity.lastTime proximity <> currentTime ->
  (forall agent,
      In agent (RadiusProximity.agents proximity) ->
      RadiusProximity.inRange proximity agent = true ->
      Collision.cannotCollide
        (SteeringBehavior.owner (CollisionAvoidance.self this)) agent) ->
  fst (CollisionAvoidance.calculateSteering
         (RadiusProximity.asProximity proximity currentTime) this steering)
  = SteeringAcceleration.setZero steering.
Proof.
  intros Hen Hfresh Hall.
  rewrite <- (calculateSteering_cannotCollide this
                (filter (RadiusProximity.inRange proximity)
                        (RadiusProximity.agents proximity)) steering Hen).
  - unfold CollisionAvoidance.calculateSteering,
      CollisionAvoidance.calculateRealSteering.
    rewrite (asProximity_fresh proximity currentTime _ _ Hfresh).
    reflexivity.
  - intros neighbor Hin. apply filter_In in Hin as [Hin Hrange].
    apply Hall; assumption.
Qed.

End CollisionAvoidanceProperties.

Section CollisionAvoidanceClaim.
Context {T : Type} `{VectorLaws.t T}.

(** C6.  For a report of [neighbor] to the behavior:
    (1) the outcome does not depend on what a division by zero yields
        (the 0/0 time to collision is never used);
    (2) a neighbor whose relative velocity is zero is rejected;
    (3) so is one whose time of closest approach is negative (or zero);
    (4) so is one that is not more imminent than the most imminent so far;
    (5) so is one whose minimum separation exceeds the sum of the two
        bounding radii;
    each rejection leaving the tracked collision as it was.
    (6) When every reported neighbor is such that it cannot collide, the
        enabled behavior returns exactly zero. *)
Theorem CollisionAvoidance_rejections_and_zero :
  (forall (this : CollisionAvoidance.t T) (neighbor : Steerable.t T),
      let owner := SteeringBehavior.owner (CollisionAvoidance.self this) in
      let accepted := fst (CollisionAvoidance.reportNeighbor this neighbor) in
      let this' := snd (CollisionAvoidance.reportNeighbor this neighbor) in
      (forall div : R -> R -> R,
          (forall a b : R, b <> 0 -> div a b = a / b) ->
          CollisionAvoidance.reportNeighborWith div this neighbor
          = (accepted, this'))
      /\ (Vector.isZero (Collision.relativeVelocity owner neighbor) = true ->
          accepted = false /\ Collision.sameCollision this this')
      /\ (Collision.timeToCollision owner neighbor <= 0 ->
          accepted = false /\ Collision.sameCollision this this')
      /\ (forall shortest : R,
             CollisionAvoidance.shortestTime this = Some shortest ->
             Collision.timeToCollision owner neighbor >= shortest ->
             accepted = false /\ Collision.sameCollision this this')
      /\ (Collision.minSeparation owner neighbor
          > Steerable.getBoundingRadius owner
            + Steerable.getBoundingRadius neighbor ->
          accepted = false /\ Collision.sameCollision this this'))
  /\ (forall (this : CollisionAvoidance.t T) (neighbors : list (Steerable.t T))
             (steering : SteeringAcceleration.t T),
      SteeringBehavior.isEnabled (CollisionAvoidance.self this) = true ->
      (forall neighbor,
          In neighbor neighbors ->
          Collision.cannotCollide
            (SteeringBehavior.owner (CollisionAvoidance.self this)) neighbor) ->
      let out :=
        fst (CollisionAvoidance.calculateSteering
               (Collision.reporting neighbors) this steering) in
      SteeringAcceleration.isZero out = true
      /\ out = SteeringAcceleration.setZero steering).
Proof.
  split.
  - intros this neighbor owner accepted this'.
    split.
    { intros div Hdiv. rewrite (reportNeighborWith_division div _ _ Hdiv).
      subst accepted this'.
      destruct (CollisionAvoidance.reportNeighbor this neighbor); reflexivity. }
    split.
    { intros Hz. apply reportNeighbor_cannotCollide.
      left. apply VectorLaws.isZero_sqrLen. exact Hz. }
    split.
    { intros Ht. apply reportNeighbor_cannotCollide. right. left. exact Ht. }
    split.
    { intros shortest Hst Hge. subst accepted this'.
      unfold CollisionAvoidance.reportNeighbor.
      rewrite reportNeighborWith_cases. cbv zeta.
      fold owner.
      change (- Vector.dot (Collision.relativePosition owner neighbor)
                           (Collision.relativeVelocity owner neighbor)
              / Vector.sqrLen (Collision.relativeVelocity owner neighbor))
        with (Collision.timeToCollision owner neighbor).
      destruct (Req_dec_T _ 0) as [E | E];
        [cbn [fst snd]; split; [reflexivity | apply sameCollision_scratch] |].
      destruct (Rle_dec _ 0) as [L | L];
        [cbn [fst snd]; split; [reflexivity | apply sameCollision_scratch] |].
      rewrite Hst. cbn [CollisionAvoidance.geShortest].
      destruct (Rge_dec (Collision.timeToCollision owner neighbor) shortest);
        [| contradiction].
      cbn [fst snd]. split; [reflexivity |].
      rewrite <- Hst. apply sameCollision_scratch. }
    { intros Hs. apply reportNeighbor_cannotCollide. right. right. exact Hs. }
  - intros this neighbors steering Hen Hall out. subst out.
    rewrite (calculateSteering_cannotCollide this neighbors steering Hen Hall).
    split; [apply setZero_isZero | reflexivity].
Qed.

End CollisionAvoidanceClaim.

Lemma CollisionAvoidance_rejections_and_zero_witness :
  fst (CollisionAvoidance.reportNeighbor CollisionAvoidanceExample.this
         CollisionAvoidanceExample.neighbor) = false
  /\ SteeringAcceleration.isZero
       (fst (CollisionAvoidance.calculateSteering
               (Collision.reporting [CollisionAvoidanceExample.neighbor])
               CollisionAvoidanceExample.this (Examples.steering 7 7 7)))
     = true.
Proof.
  assert (Hzero : Vector.isZero
                    (Collision.relativeVelocity CollisionAvoidanceExample.owner
                       CollisionAvoidanceExample.neighbor) = true).
  { change (Vector2.isZero (Vector2.sub (Vector2.make 0 0) (Vector2.make 0 0))
            = true).
    assert (E : Vector2.sub (Vector2.make 0 0) (Vector2.make 0 0)
                = Vector2.make 0 0).
    { apply Vector2_ext; unfold Vector2.x, Vector2.y; simpl; ring. }
    rewrite E. exact (VectorLaws.isZero_setZero (Vector2.make 0 0)). }
  split.
  - destruct (proj1 (@CollisionAvoidance_rejections_and_zero Vector2.t _ _)
                CollisionAvoidanceExample.this
                CollisionAvoidanceExample.neighbor) as (_ & Hrej & _).
    apply Hrej. exact Hzero.
  - apply (proj2 (@CollisionAvoidance_rejections_and_zero Vector2.t _ _)
             CollisionAvoidanceExample.this [CollisionAvoidanceExample.neighbor]
             (Examples.steering 7 7 7)).
    + reflexivity.
    + intros neighbor [<- | []]. left.
      apply (VectorLaws.isZero_sqrLen _ Hzero).
Defined.

(** ** [Jump] *)

Section JumpProperties.
Context {T : Type} `{VectorLaws.t T}.

Lemma roots_solve (this : Jump.t T) (jumpDescriptor : JumpDescriptor.t T) :
  Trajectory.g this <> 0 ->
  0 <= Trajectory.discriminant this jumpDescriptor ->
  Trajectory.solves this jumpDescriptor
    (Trajectory.firstTime this jumpDescriptor)
  /\ Trajectory.solves this jumpDescriptor
       (Trajectory.secondTime this jumpDescriptor).
Proof.
  intros Hg HD.
  unfold Trajectory.solves, Trajectory.firstTime, Trajectory.secondTime.
  pose proof (sqrt_sqrt _ HD) as Hs.
  set (s := sqrt (Trajectory.discriminant this jumpDescriptor)) in *.
  unfold Trajectory.discriminant in Hs.
  set (g := Trajectory.g this) in *. set (v := Trajectory.v0 this) in *.
  set (d := Trajectory.dy this jumpDescriptor) in *.
  split.
  - replace (v * ((- v + s) / g)
             + g * ((- v + s) / g * ((- v + s) / g)) / 2)
      with ((s * s - v * v) / (2 * g)) by (field; exact Hg).
    rewrite Hs. field. exact Hg.
  - replace (v * ((- v - s) / g)
             + g * ((- v - s) / g * ((- v - s) / g)) / 2)
      with ((s * s - v * v) / (2 * g)) by (field; exact Hg).
    rewrite Hs. field. exact Hg.
Qed.

Lemma firstTime_le_secondTime (this : Jump.t T)
    (jumpDescriptor : JumpDescriptor.t T) :
  Trajectory.g this < 0 ->
  Trajectory.firstTime this jumpDescriptor
  <= Trajectory.secondTime this jumpDescriptor.
Proof.
  intros Hg. unfold Trajectory.firstTime, Trajectory.secondTime, Rdiv.
  pose proof (sqrt_pos (Trajectory.discriminant this jumpDescriptor)) as Hs.
  pose proof (Rinv_lt_0_compat _ Hg) as Hi.
  nra.
Qed.

(** [checkAirborneTimeAndCalculateVelocity] at a time that is a number,
    in the vocabulary above. *)
Lemma check_cases (this : Jump.t T) (outVelocity : T) (time : R)
    (jumpDescriptor : JumpDescriptor.t T) (maxLinearSpeed : R) :
  fst (Jump.checkAirborneTimeAndCalculateVelocity this outVelocity
         (Number.finite time) jumpDescriptor maxLinearSpeed)
  = if Trajectory.accepts this jumpDescriptor maxLinearSpeed time
    then (true, Trajectory.stored this jumpDescriptor outVelocity time)
    else (false, outVelocity).
Proof.
  unfold Jump.checkAirborneTimeAndCalculateVelocity, Trajectory.accepts,
    Trajectory.stored, Trajectory.merged, Trajectory.planar,
    Trajectory.scaled, Number.div.
  destruct (Req_dec_T time 0).
  - destruct (Rlt_dec 0 1); [reflexivity | lra].
  - rewrite !VectorLaws.copy_eq.
    destruct (Rlt_dec _ _); reflexivity.
Qed.

(** At a time that is not a number nothing is accepted and nothing is
    written. *)
Lemma check_NaN (this : Jump.t T) (outVelocity : T)
    (jumpDescriptor : JumpDescriptor.t T) (maxLinearSpeed : R) :
  Jump.checkAirborneTimeAndCalculateVelocity this outVelocity Number.NaN
    jumpDescriptor maxLinearSpeed
  = (false, outVelocity, this).
Proof. reflexivity. Qed.

(** At an infinite time the factor is zero: the planar velocity is the
    jump covered zero times. *)
Lemma check_infinite (this : Jump.t T) (outVelocity : T) (time : Number.t)
    (jumpDescriptor : JumpDescriptor.t T) (maxLinearSpeed : R) :
  time = Number.Infinity \/ time = Number.NegInfinity ->
  fst (Jump.checkAirborneTimeAndCalculateVelocity this outVelocity time
         jumpDescriptor maxLinearSpeed)
  = if Rlt_dec (Vector.sqrLen (Trajectory.scaled this jumpDescriptor 0))
               (maxLinearSpeed * maxLinearSpeed)
    then (true,
          Trajectory.merged this (Trajectory.scaled this jumpDescriptor 0)
            outVelocity)
    else (false, outVelocity).
Proof.
  intros [-> | ->];
    unfold Jump.checkAirborneTimeAndCalculateVelocity, Trajectory.merged,
      Trajectory.scaled, Number.div;
    rewrite !VectorLaws.copy_eq;
    destruct (Rlt_dec _ _); reflexivity.
Qed.

(** The check changes nothing of the behavior but its scratch vector. *)
Lemma check_scratch (this : Jump.t T) (outVelocity : T) (time : Number.t)
    (jumpDescriptor : JumpDescriptor.t T) (maxLinearSpeed : R) :
  exists v : T,
    snd (Jump.checkAirborneTimeAndCalculateVelocity this outVelocity time
           jumpDescriptor maxLinearSpeed)
    = Jump.setPlanarVelocity this v.
Proof.
  unfold Jump.checkAirborneTimeAndCalculateVelocity.
  destruct (Number.div (Number.finite 1) time).
  - eexists. destruct (Rlt_dec _ _); reflexivity.
  - exists (Jump.planarVelocity this). destruct this; reflexivity.
  - exists (Jump.planarVelocity this). destruct this; reflexivity.
  - exists (Jump.planarVelocity this). destruct this; reflexivity.
Qed.

(** The answer of the check and what it writes do not depend on the
    content of the scratch vector. *)
Lemma check_fst_scratch (this : Jump.t T) (v outVelocity : T)
    (time : Number.t) (jumpDescriptor : JumpDescriptor.t T)
    (maxLinearSpeed : R) :
  fst (Jump.checkAirborneTimeAndCalculateVelocity
         (Jump.setPlanarVelocity this v) outVelocity time jumpDescriptor
         maxLinearSpeed)
  = fst (Jump.checkAirborneTimeAndCalculateVelocity this outVelocity time
           jumpDescriptor maxLinearSpeed).
Proof.
  unfold Jump.checkAirborneTimeAndCalculateVelocity.
  destruct (Number.div (Number.finite 1) time); try reflexivity.
  rewrite !VectorLaws.copy_eq.
  cbn [Jump.setPlanarVelocity Jump.gravityComponentHandler].
  destruct (Rlt_dec _ _); reflexivity.
Qed.

(** The two times the source computes and what it makes of the two
    checks. *)
Lemma calculate_checks (this : Jump.t T) (outVelocity : T)
    (jumpDescriptor : JumpDescriptor.t T) (maxLinearSpeed : R) :
  let sqrtTerm := Number.sqrt (Trajectory.discriminant this jumpDescriptor) in
  let time1 :=
    Number.div (Number.add (Number.finite (- Trajectory.v0 this)) sqrtTerm)
               (Number.finite (Trajectory.g this)) in
  let time2 :=
    Number.div (Number.sub (Number.finite (- Trajectory.v0 this)) sqrtTerm)
               (Number.finite (Trajectory.g this)) in
  fst (Jump.calculateAirborneTimeAndVelocity this outVelocity jumpDescriptor
         maxLinearSpeed)
  = let '(ok1, out1) :=
      fst (Jump.checkAirborneTimeAndCalculateVelocity this outVelocity time1
             jumpDescriptor maxLinearSpeed) in
    if ok1 then (time1, out1)
    else
      let '(ok2, out2) :=
        fst (Jump.checkAirborneTimeAndCalculateVelocity this out1 time2
               jumpDescriptor maxLinearSpeed) in
      if ok2 then (time2, out2) else (Number.finite (-1), out2).
Proof.
  intros sqrtTerm time1 time2.
  unfold Jump.calculateAirborneTimeAndVelocity. cbv zeta.
  change (Number.sqrt _) with sqrtTerm.
  change (Number.div (Number.add _ sqrtTerm) _) with time1.
  destruct (check_scratch this outVelocity time1 jumpDescriptor maxLinearSpeed)
    as [v1 S1].
  destruct (Jump.checkAirborneTimeAndCalculateVelocity this outVelocity
              time1 jumpDescriptor maxLinearSpeed) as [[ok1 out1] this1].
  cbn [fst snd] in S1 |- *. subst this1.
  destruct ok1; cbn [negb]; [reflexivity |].
  change (Number.div
            (Number.sub
               (Number.finite
                  (- Jump.maxVerticalVelocity (Jump.setPlanarVelocity this v1)))
               sqrtTerm) _)
    with time2.
  rewrite <- (check_fst_scratch this v1 out1 time2 jumpDescriptor
                maxLinearSpeed).
  destruct (Jump.checkAirborneTimeAndCalculateVelocity
              (Jump.setPlanarVelocity this v1) out1 time2 jumpDescriptor
              maxLinearSpeed) as [[ok2 out2] this2].
  cbn [fst]. destruct ok2; reflexivity.
Qed.

(** The two times are the two roots when the gravity component is not
    zero and the discriminant is not negative. *)
Lemma times_are_roots (this : Jump.t T) (jumpDescriptor : JumpDescriptor.t T) :
  Trajectory.g this <> 0 ->
  0 <= Trajectory.discriminant this jumpDescriptor ->
  let sqrtTerm := Number.sqrt (Trajectory.discriminant this jumpDescriptor) in
  Number.div (Number.add (Number.finite (- Trajectory.v0 this)) sqrtTerm)
             (Number.finite (Trajectory.g this))
  = Number.finite (Trajectory.firstTime this jumpDescriptor)
  /\ Number.div (Number.sub (Number.finite (- Trajectory.v0 this)) sqrtTerm)
                (Number.finite (Trajectory.g this))
     = Number.finite (Trajectory.secondTime this jumpDescriptor).
Proof.
  intros Hg HD. cbv zeta.
  unfold Number.sqrt, Number.add, Number.sub, Number.div.
  destruct (Rlt_dec _ 0); [lra |].
  destruct (Req_dec_T _ 0); [contradiction |]. split; reflexivity.
Qed.

(** [calculateAirborneTimeAndVelocity] in the vocabulary above, for a
    gravity component that is not zero and a discriminant that is not
    negative. *)
Lemma calculate_cases (this : Jump.t T) (outVelocity : T)
    (jumpDescriptor : JumpDescriptor.t T) (maxLinearSpeed : R) :
  Trajectory.g this <> 0 ->
  0 <= Trajectory.discriminant this jumpDescriptor ->
  fst (Jump.calculateAirborneTimeAndVelocity this outVelocity jumpDescriptor
         maxLinearSpeed)
  = let t1 := Trajectory.firstTime this jumpDescriptor in
    let t2 := Trajectory.secondTime this jumpDescriptor in
    if Trajectory.accepts this jumpDescriptor maxLinearSpeed t1
    then (Number.finite t1,
          Trajectory.stored this jumpDescriptor outVelocity t1)
    else if Trajectory.accepts this jumpDescriptor maxLinearSpeed t2
    then (Number.finite t2,
          Trajectory.stored this jumpDescriptor outVelocity t2)
    else (Number.finite (-1), outVelocity).
Proof.
  intros Hg HD.
  destruct (times_are_roots this jumpDescriptor Hg HD) as [E1 E2].
  cbv zeta in E1, E2.
  rewrite calculate_checks. cbv zeta.
  rewrite E1, E2, check_cases.
  destruct (Trajectory.accepts this jumpDescriptor maxLinearSpeed
              (Trajectory.firstTime this jumpDescriptor)); [reflexivity |].
  rewrite check_cases.
  destruct (Trajectory.accepts this jumpDescriptor maxLinearSpeed
              (Trajectory.secondTime this jumpDescriptor)); reflexivity.
Qed.

(** For a negative discriminant the square root is [NaN] and so are both
    times: -1 is returned and the output vector is unchanged. *)
Lemma calculate_negative_discriminant (this : Jump.t T) (outVelocity : T)
    (jumpDescriptor : JumpDescriptor.t T) (maxLinearSpeed : R) :
  Trajectory.discriminant this jumpDescriptor < 0 ->
  fst (Jump.calculateAirborneTimeAndVelocity this outVelocity jumpDescriptor
         maxLinearSpeed)
  = (Number.finite (-1), outVelocity).
Proof.
  intros HD. rewrite calculate_checks. cbv zeta.
  unfold Number.sqrt.
  destruct (Rlt_dec _ 0) as [_ | Hge]; [| contradiction].
  reflexivity.
Qed.

(** Without gravity and with a positive vertical speed, the first time is
    0 / 0 and the second one is -Infinity: the planar velocity is the jump
    covered zero times, and where its length is below the maximum it is
    written and -Infinity is returned. *)
Lemma calculate_zero_gravity (this : Jump.t T) (outVelocity : T)
    (jumpDescriptor : JumpDescriptor.t T) (maxLinearSpeed : R) :
  Trajectory.g this = 0 ->
  0 < Trajectory.v0 this ->
  fst (Jump.calculateAirborneTimeAndVelocity this outVelocity jumpDescriptor
         maxLinearSpeed)
  = if Rlt_dec (Vector.sqrLen (Trajectory.scaled this jumpDescriptor 0))
               (maxLinearSpeed * maxLinearSpeed)
    then (Number.NegInfinity,
          Trajectory.merged this (Trajectory.scaled this jumpDescriptor 0)
            outVelocity)
    else (Number.finite (-1), outVelocity).
Proof.
  intros Hg Hv.
  assert (HD : Trajectory.discriminant this jumpDescriptor
               = Trajectory.v0 this * Trajectory.v0 this).
  { unfold Trajectory.discriminant. rewrite Hg. ring. }
  assert (Hs : JS.sqrt (Trajectory.discriminant this jumpDescriptor)
               = Trajectory.v0 this).
  { rewrite HD. unfold JS.sqrt. apply sqrt_square. lra. }
  rewrite calculate_checks. cbv zeta.
  unfold Number.sqrt.
  destruct (Rlt_dec _ 0) as [Hneg | _]; [rewrite HD in Hneg; nra |].
  rewrite Hs, Hg. unfold Number.add, Number.sub, Number.div.
  destruct (Req_dec_T 0 0) as [_ | n]; [| contradiction].
  destruct (Rlt_dec 0 (- Trajectory.v0 this + Trajectory.v0 this)); [lra |].
  destruct (Rlt_dec (- Trajectory.v0 this + Trajectory.v0 this) 0); [lra |].
  rewrite check_NaN. cbn [fst].
  destruct (Rlt_dec 0 (- Trajectory.v0 this - Trajectory.v0 this)); [lra |].
  destruct (Rlt_dec (- Trajectory.v0 this - Trajectory.v0 this) 0); [| lra].
  rewrite check_infinite by (right; reflexivity).
  destruct (Rlt_dec _ _); reflexivity.
Qed.

Lemma accepts_true (this : Jump.t T) (jumpDescriptor : JumpDescriptor.t T)
    (maxLinearSpeed t : R) :
  t <> 0 ->
  Vector.sqrLen (Trajectory.planar this jumpDescriptor t)
  < maxLinearSpeed * maxLinearSpeed ->
  Trajectory.accepts this jumpDescriptor maxLinearSpeed t = true.
Proof.
  intros Ht Hs. unfold Trajectory.accepts.
  destruct (Req_dec_T t 0); [contradiction |].
  destruct (Rlt_dec _ _); [reflexivity | contradiction].
Qed.

Lemma accepts_false (this : Jump.t T) (jumpDescriptor : JumpDescriptor.t T)
    (maxLinearSpeed t : R) :
  t = 0
  \/ Vector.sqrLen (Trajectory.planar this jumpDescriptor t)
     > maxLinearSpeed * maxLinearSpeed ->
  Trajectory.accepts this jumpDescriptor maxLinearSpeed t = false.
Proof.
  intros Hno. unfold Trajectory.accepts.
  destruct (Req_dec_T t 0); [reflexivity |].
  destruct (Rlt_dec _ _); [| reflexivity].
  destruct Hno as [E | G]; [contradiction | lra].
Qed.

(** What [calculateTarget] stores, from what
    [calculateAirborneTimeAndVelocity] returns on the velocity of the jump
    target with the maximum linear speed of the limiter. *)
Lemma calculateTarget_stores (this : Jump.t T) (time : Number.t)
    (velocity : T) :
  fst (Jump.calculateAirborneTimeAndVelocity this
         (JumpTarget.linearVelocity (Jump.jumpTarget this))
         (Jump.jumpDescriptor this)
         (Limiter.getMaxLinearSpeed
            (SteeringBehavior.getActualLimiter (Jump.self this))))
  = (time, velocity) ->
  let this' := Jump.calculateTarget this in
  Jump.airborneTime this' = time
  /\ Jump.isJumpAchievable this' = Number.geb time (Number.finite 0)
  /\ Jump.jumpTarget this'
     = JumpTarget.mk
         (Some (JumpDescriptor.takeoffPosition (Jump.jumpDescriptor this)))
         velocity
  /\ Jump.self this' = Jump.self this
  /\ Jump.maxVerticalVelocity this' = Jump.maxVerticalVelocity this.
Proof.
  intros E. cbv zeta. unfold Jump.calculateTarget.
  destruct (Jump.calculateAirborneTimeAndVelocity this _ _ _)
    as [[time' velocity'] this1] eqn:Ec.
  cbn [fst] in E. injection E as -> ->.
  assert (Hkeep : Jump.self this1 = Jump.self this
                  /\ Jump.jumpDescriptor this1 = Jump.jumpDescriptor this
                  /\ Jump.maxVerticalVelocity this1
                     = Jump.maxVerticalVelocity this).
  { revert Ec. unfold Jump.calculateAirborneTimeAndVelocity. cbv zeta.
    destruct (check_scratch this
                (JumpTarget.linearVelocity (Jump.jumpTarget this))
                (Number.div
                   (Number.add (Number.finite (- Jump.maxVerticalVelocity this))
                      (Number.sqrt
                         (2 * GravityComponentHandler.getComponent
                                (Jump.gravityComponentHandler this)
                                (Jump.gravity this)
                          * GravityComponentHandler.getComponent
                              (Jump.gravityComponentHandler this)
                              (JumpDescriptor.delta (Jump.jumpDescriptor this))
                          + Jump.maxVerticalVelocity this
                            * Jump.maxVerticalVelocity this)))
                   (Number.finite
                      (GravityComponentHandler.getComponent
                         (Jump.gravityComponentHandler this)
                         (Jump.gravity this))))
                (Jump.jumpDescriptor this)
                (Limiter.getMaxLinearSpeed
                   (SteeringBehavior.getActualLimiter (Jump.self this))))
      as [v1 S1].
    destruct (Jump.checkAirborneTimeAndCalculateVelocity this _ _ _ _)
      as [[ok1 out1] this2].
    cbn [snd] in S1. subst this2.
    destruct ok1; cbn [negb].
    - intros E. injection E as _ _ <-. repeat split.
    - match goal with
      | |- context [Jump.checkAirborneTimeAndCalculateVelocity ?a ?b ?c ?d ?e] =>
          destruct (check_scratch a b c d e) as [v2 S2];
          destruct (Jump.checkAirborneTimeAndCalculateVelocity a b c d e)
            as [[ok2 out2] this3]
      end.
      cbn [snd] in S2. subst this3.
      destruct ok2; cbn [negb]; intros E; injection E as _ _ <-;
        repeat split. }
  destruct Hkeep as (Hself & _ & Hv).
  cbn. repeat split; assumption.
Qed.

End JumpProperties.

(** *** The jump 2 across and 8 down, gravity -1, vertical speed 3 *)

Lemma JumpExample_g : Trajectory.g JumpExample.this <> 0.
Proof. unfold Trajectory.g. cbn. unfold Vector2.y. cbn. lra. Qed.

Lemma JumpExample_discriminant :
  Trajectory.discriminant JumpExample.this JumpExample.descriptor = 25.
Proof.
  unfold Trajectory.discriminant, Trajectory.g, Trajectory.dy, Trajectory.v0.
  cbn. unfold Vector2.y, Vector2.x. cbn. ring.
Qed.

Lemma JumpExample_firstTime :
  Trajectory.firstTime JumpExample.this JumpExample.descriptor = -2.
Proof.
  unfold Trajectory.firstTime. rewrite JumpExample_discriminant.
  replace 25 with (5 * 5) by ring. rewrite sqrt_square by lra.
  unfold Trajectory.g, Trajectory.v0. cbn. unfold Vector2.y. cbn. field.
Qed.

Lemma JumpExample_secondTime :
  Trajectory.secondTime JumpExample.this JumpExample.descriptor = 8.
Proof.
  unfold Trajectory.secondTime. rewrite JumpExample_discriminant.
  replace 25 with (5 * 5) by ring. rewrite sqrt_square by lra.
  unfold Trajectory.g, Trajectory.v0. cbn. unfold Vector2.y. cbn. field.
Qed.

Lemma JumpExample_planar (t : R) :
  Trajectory.planar JumpExample.this JumpExample.descriptor t
  = Vector2.make ((2 - 0) * (1 / t)) 0.
Proof. reflexivity. Qed.

Lemma JumpExample_speed (t : R) :
  Vector.sqrLen (Trajectory.planar JumpExample.this JumpExample.descriptor t)
  = (2 * (1 / t)) * (2 * (1 / t)).
Proof.
  rewrite JumpExample_planar. cbn. unfold Vector2.sqrLen, Vec2.sqrLen. cbn.
  ring.
Qed.

Lemma JumpExample_run :
  fst (Jump.calculateAirborneTimeAndVelocity JumpExample.this
         (Vector2.make 0 0) JumpExample.descriptor 10)
  = (Number.finite (-2), Vector2.make (-1) 0).
Proof.
  rewrite calculate_cases;
    [| exact JumpExample_g | rewrite JumpExample_discriminant; lra].
  cbv zeta. rewrite JumpExample_firstTime.
  rewrite accepts_true.
  - assert (E : Trajectory.planar JumpExample.this JumpExample.descriptor (-2)
                = Vector2.make (-1) 0).
    { rewrite JumpExample_planar.
      apply Vector2_ext; unfold Vector2.x, Vector2.y; cbn; field. }
    unfold Trajectory.stored. rewrite E. reflexivity.
  - lra.
  - rewrite JumpExample_speed. lra.
Qed.

(** C5.  The code departs from the claim, and from its own documentation
    (the time of flight or -1 is returned, and at -1 the output vector is
    unchanged), on the jump 2 across and 8 down with gravity -1 and
    vertical takeoff speed 3, under the maximum linear speed 10.  The
    time 8 is a non-negative root of the equation of motion and the planar
    speed 1/4 it requires is within the maximum; the only other root is
    -2: the claim has 8 returned.  The code returns -2, which it tries first
    and whose sign it does not test, and it overwrites the output vector
    with the reversed planar velocity (-1, 0): the result is neither -1
    nor a non-negative root.  [calculateTarget], for which a time below 0
    is a jump that is not achievable, then takes this jump for not
    achievable, with the velocity of the jump target overwritten. *)
Theorem Jump_prefers_root_tried_first_even_negative :
  let '(time, out, _) :=
    Jump.calculateAirborneTimeAndVelocity JumpExample.this (Vector2.make 0 0)
      JumpExample.descriptor 10 in
  (Trajectory.solves JumpExample.this JumpExample.descriptor 8
   /\ 0 <= 8
   /\ Vector.len (Trajectory.planar JumpExample.this JumpExample.descriptor 8)
      <= 10
   /\ forall t : R,
        Trajectory.solves JumpExample.this JumpExample.descriptor t ->
        t = -2 \/ t = 8)
  /\ time = Number.finite (-2)
  /\ out = Vector2.make (-1) 0
  /\ out <> Vector2.make 0 0
  /\ ~ Trajectory.nonNegativeRootOrMinusOne JumpExample.this
         JumpExample.descriptor time
  /\ (let computed := Jump.calculateTarget JumpExample.this in
      Jump.airborneTime computed = Number.finite (-2)
      /\ Jump.isJumpAchievable computed = false
      /\ JumpTarget.linearVelocity (Jump.jumpTarget JumpExample.this)
         = Vector2.make 0 0
      /\ JumpTarget.linearVelocity (Jump.jumpTarget computed)
         = Vector2.make (-1) 0).
Proof.
  pose proof JumpExample_run as Run.
  pose proof (calculateTarget_stores JumpExample.this (Number.finite (-2))
                (Vector2.make (-1) 0) JumpExample_run) as Stored.
  cbv zeta in Stored.
  destruct (Jump.calculateAirborneTimeAndVelocity JumpExample.this
              (Vector2.make 0 0) JumpExample.descriptor 10)
    as [[time out] this'].
  cbn [fst] in Run. injection Run as -> ->.
  split; [| split; [reflexivity | split; [reflexivity | split; [| split]]]].
  - split; [| split; [lra | split]].
    + rewrite <- JumpExample_secondTime.
      apply (roots_solve JumpExample.this JumpExample.descriptor).
      * exact JumpExample_g.
      * rewrite JumpExample_discriminant. lra.
    + rewrite VectorLaws.len_sqrLen, JumpExample_speed.
      replace (2 * (1 / 8) * (2 * (1 / 8))) with ((1 / 4) * (1 / 4)) by field.
      rewrite sqrt_square; lra.
    + intros t Ht. unfold Trajectory.solves, Trajectory.v0, Trajectory.g,
        Trajectory.dy in Ht. cbn in Ht. unfold Vector2.y, Vector2.x in Ht.
      cbn in Ht.
      assert (E : (t + 2) * (t - 8) = 0) by lra.
      apply Rmult_integral in E. destruct E; [left | right]; lra.
  - intros E. apply (f_equal Vector2.x) in E.
    unfold Vector2.x in E. cbn in E. lra.
  - unfold Trajectory.nonNegativeRootOrMinusOne.
    intros [E | (t & E & Hneg & _)]; injection E as E; lra.
  - cbv zeta. destruct Stored as (Ht & Ha & Hj & _).
    split; [exact Ht |]. split; [| split; [reflexivity |]].
    + rewrite Ha. unfold Number.geb.
      destruct (Rge_dec (-2) 0); [lra | reflexivity].
    + rewrite Hj. reflexivity.
Qed.

(** *** Other jumps *)

(** On the level the first time is zero: it is passed over and the time
    of flight 2 is returned with the planar velocity (2, 0). *)
Lemma Jump_level_example :
  fst (Jump.calculateAirborneTimeAndVelocity JumpExample.onLevel
         (Vector2.make 0 0) JumpExample.level 5)
  = (Number.finite 2, Vector2.make 2 0).
Proof.
  assert (Hg : Trajectory.g JumpExample.onLevel <> 0).
  { unfold Trajectory.g. cbn. unfold Vector2.y. cbn. lra. }
  assert (HD : Trajectory.discriminant JumpExample.onLevel JumpExample.level
               = 9 * 9).
  { unfold Trajectory.discriminant, Trajectory.g, Trajectory.dy, Trajectory.v0.
    cbn. unfold Vector2.y, Vector2.x. cbn. ring. }
  assert (H1 : Trajectory.firstTime JumpExample.onLevel JumpExample.level = 0).
  { unfold Trajectory.firstTime. rewrite HD, sqrt_square by lra.
    unfold Trajectory.g, Trajectory.v0. cbn. unfold Vector2.y. cbn. field. }
  assert (H2 : Trajectory.secondTime JumpExample.onLevel JumpExample.level = 2).
  { unfold Trajectory.secondTime. rewrite HD, sqrt_square by lra.
    unfold Trajectory.g, Trajectory.v0. cbn. unfold Vector2.y. cbn. field. }
  assert (E : Trajectory.planar JumpExample.onLevel JumpExample.level 2
              = Vector2.make 2 0).
  { apply Vector2_ext; unfold Vector2.x, Vector2.y; cbn; field. }
  rewrite calculate_cases; [| exact Hg | rewrite HD; lra].
  cbv zeta. rewrite H1, H2.
  rewrite accepts_false by (left; reflexivity).
  rewrite accepts_true.
  - unfold Trajectory.stored. rewrite E. reflexivity.
  - lra.
  - rewrite E. cbn. unfold Vector2.sqrLen, Vec2.sqrLen. cbn. lra.
Qed.


(** A jump 8 up is out of reach of the vertical speed 3 under gravity -1:
    the discriminant is -7, its square root is [NaN], -1 is returned and
    the output vector is unchanged. *)
Lemma Jump_out_of_reach_example :
  Trajectory.discriminant JumpExample.this JumpExample.upward = -7
  /\ fst (Jump.calculateAirborneTimeAndVelocity JumpExample.this
            (Vector2.make 7 1) JumpExample.upward 10)
     = (Number.finite (-1), Vector2.make 7 1).
Proof.
  assert (HD : Trajectory.discriminant JumpExample.this JumpExample.upward
               = -7).
  { unfold Trajectory.discriminant, Trajectory.g, Trajectory.dy, Trajectory.v0.
    cbn. unfold Vector2.y, Vector2.x. cbn. ring. }
  split; [exact HD |].
  apply calculate_negative_discriminant. rewrite HD. lra.
Qed.

(** Without gravity the first time is 0 / 0 and the second is -6 / 0:
    -Infinity is returned and the planar part of the output vector is set
    to zero, its vertical component being kept; [calculateTarget] takes
    the jump for not achievable. *)
Lemma Jump_weightless_example :
  fst (Jump.calculateAirborneTimeAndVelocity JumpExample.weightless
         (Vector2.make 7 1) JumpExample.descriptor 10)
  = (Number.NegInfinity, Vector2.make 0 1)
  /\ Jump.airborneTime (Jump.calculateTarget JumpExample.weightless)
     = Number.NegInfinity
  /\ Jump.isJumpAchievable (Jump.calculateTarget JumpExample.weightless)
     = false.
Proof.
  assert (Hg : Trajectory.g JumpExample.weightless = 0) by reflexivity.
  assert (Hv : 0 < Trajectory.v0 JumpExample.weightless).
  { unfold Trajectory.v0. cbn. lra. }
  assert (Hz : Trajectory.scaled JumpExample.weightless JumpExample.descriptor 0
               = Vector2.make 0 0).
  { apply Vector2_ext; unfold Vector2.x, Vector2.y; cbn; ring. }
  assert (Hrun : forall out : Vector2.t,
    fst (Jump.calculateAirborneTimeAndVelocity JumpExample.weightless
           out JumpExample.descriptor 10)
    = (Number.NegInfinity, Vector2.make 0 (Vector2.y out))).
  { intros out. rewrite (calculate_zero_gravity _ _ _ _ Hg Hv), Hz.
    destruct (Rlt_dec _ _) as [_ | Hno].
    - reflexivity.
    - exfalso. apply Hno. cbn. unfold Vector2.sqrLen, Vec2.sqrLen. cbn. lra. }
  split; [exact (Hrun (Vector2.make 7 1)) |].
  pose proof (calculateTarget_stores JumpExample.weightless
                Number.NegInfinity (Vector2.make 0 0)
                (Hrun (Vector2.make 0 0))) as Stored.
  cbv zeta in Stored. destruct Stored as (Ht & Ha & _).
  split; [exact Ht | rewrite Ha; reflexivity].
Qed.

(** Head on, the neighbor is accepted with time to collision 2 and the
    owner is pushed straight back with the maximum linear acceleration. *)
Lemma CollisionAvoidance_head_on_example :
  fst (CollisionAvoidance.reportNeighbor CollisionAvoidanceExample.headOn
         CollisionAvoidanceExample.oncoming) = true
  /\ CollisionAvoidance.shortestTime
       (snd (CollisionAvoidance.reportNeighbor CollisionAvoidanceExample.headOn
               CollisionAvoidanceExample.oncoming)) = Some 2
  /\ fst (CollisionAvoidance.calculateSteering
            (Collision.reporting [CollisionAvoidanceExample.oncoming])
            CollisionAvoidanceExample.headOn (Examples.steering 7 7 7))
     = Examples.steering (-10) 0 0.
Proof.
  assert (Hrp : Collision.relativePosition CollisionAvoidanceExample.runner
                  CollisionAvoidanceExample.oncoming = Vector2.make 4 0).
  { apply Vector2_ext; unfold Vector2.x, Vector2.y; cbn; ring. }
  assert (Hrv : Collision.relativeVelocity CollisionAvoidanceExample.runner
                  CollisionAvoidanceExample.oncoming = Vector2.make (-2) 0).
  { apply Vector2_ext; unfold Vector2.x, Vector2.y; cbn; ring. }
  assert (Hsq : Vector.sqrLen (Vector2.make (-2) 0) = 2 * 2).
  { cbn. unfold Vector2.sqrLen, Vec2.sqrLen. cbn. ring. }
  assert (Hdot : Vector.dot (Vector2.make 4 0) (Vector2.make (-2) 0) = -8).
  { cbn. unfold Vector2.dot, Vec2.dot. cbn. ring. }
  assert (Hlen : Vector.len (Vector2.make 4 0) = 4).
  { apply Vector2_len_make; lra. }
  assert (Hreport :
            forall this,
              CollisionAvoidance.self this
              = CollisionAvoidance.self CollisionAvoidanceExample.headOn ->
              CollisionAvoidance.shortestTime this = None ->
              CollisionAvoidance.reportNeighbor this
                CollisionAvoidanceExample.oncoming
              = (true,
                 CollisionAvoidance.mk (CollisionAvoidance.self this)
                   (Some 2) (Some CollisionAvoidanceExample.oncoming)
                   0 4 (Vector2.make 4 0) (Vector2.make (-2) 0)
                   (Vector2.make 4 0) (Vector2.make (-2) 0))).
  { intros this Hself Hinf. unfold CollisionAvoidance.reportNeighbor.
    rewrite reportNeighborWith_cases. cbv zeta.
    rewrite Hself, Hinf.
    change (SteeringBehavior.owner
              (CollisionAvoidance.self CollisionAvoidanceExample.headOn))
      with CollisionAvoidanceExample.runner.
    rewrite Hrp, Hrv, Hsq, Hdot, Hlen.
    rewrite sqrt_square by lra.
    change (Steerable.getBoundingRadius CollisionAvoidanceExample.runner)
      with 1.
    change (Steerable.getBoundingRadius CollisionAvoidanceExample.oncoming)
      with 1.
    replace (- -8 / (2 * 2)) with 2 by field.
    replace (4 - 2 * 2) with 0 by ring.
    cbn [CollisionAvoidance.geShortest].
    destruct (Req_dec_T (2 * 2) 0); [lra |].
    destruct (Rle_dec 2 0); [lra |].
    destruct (Rgt_dec 0 (1 + 1)); [lra |].
    reflexivity. }
  split; [rewrite Hreport; reflexivity |].
  split; [rewrite Hreport; reflexivity |].
  unfold CollisionAvoidance.calculateSteering,
    CollisionAvoidance.calculateRealSteering, Collision.reporting.
  cbn [SteeringBehavior.isEnabled SteeringBehavior.enabled
       CollisionAvoidance.self CollisionAvoidanceExample.headOn
       Neighbors.reportAll].
  rewrite Hreport by reflexivity.
  cbn [CollisionAvoidance.firstNeighbor CollisionAvoidance.firstMinSeparation
       Nat.eqb fst].
  destruct (Rle_dec 0 0); [| lra].
  unfold Examples.steering. f_equal.
  assert (Hnor : Vec2.normalize
                   (Vec2.sub (Vec2.copy (mkVec2 4 0)) (mkVec2 0 0))
                 = mkVec2 1 0).
  { unfold Vec2.normalize, Vec2.sub, Vec2.copy, Vec2.sqrLen, JS.sqrt.
    cbn [v2x v2y].
    replace ((4 - 0) * (4 - 0) + (0 - 0) * (0 - 0)) with (4 * 4) by ring.
    rewrite sqrt_square by lra.
    destruct (Rgt_dec (4 * 4) 0); [| lra].
    f_equal; field. }
  apply Vector2_ext; unfold Vector2.x, Vector2.y; cbn; rewrite Hnor;
    cbn [v2x v2y]; ring.
Qed.

(** * Further properties *)

(** ** The geometry of both vector classes *)

Local Ltac vec2_simpl :=
  unfold Vector2.sqrLen, Vector2.dst2, Vector2.dst, Vector2.dot, Vector2.add,
    Vector2.sub, Vector2.scale, Vector2.setZero, Vector2.x, Vector2.y,
    Vec2.sqrLen, Vec2.squaredDistance, Vec2.distance, Vec2.dot, Vec2.add,
    Vec2.sub, Vec2.scale, Vec2.set; simpl.

Local Ltac vec3_simpl :=
  unfold Vector3.sqrLen, Vector3.dst2, Vector3.dst, Vector3.dot, Vector3.add,
    Vector3.sub, Vector3.scale, Vector3.setZero, Vector3.x, Vector3.y,
    Vector3.z, Vec3.squaredLength, Vec3.squaredDistance, Vec3.distance,
    Vec3.dot, Vec3.add, Vec3.sub, Vec3.scale, Vec3.set; simpl.

#[export] Instance Vector2_geometry : VectorGeometry.t Vector2.t.
Proof.
  constructor; simpl.
  - intros [[x y]].
    unfold Vector2.nor, Vec2.normalize, Vector2.scale, Vec2.scale,
      Vector2.sqrLen, JS.sqrt.
    simpl. destruct (Rgt_dec _ 0); reflexivity.
  - intros [[x y]]. vec2_simpl. intros E.
    assert (x = 0) by nra. assert (y = 0) by nra. subst. reflexivity.
  - intros [[x y]]. unfold Vector2.isZero. vec2_simpl. split.
    + intros E. apply andb_true_iff in E as [Ex Ey].
      apply JS_eqb_true in Ex, Ey. subst. ring.
    + intros E. assert (x = 0) by nra. assert (y = 0) by nra. subst.
      assert (E0 : JS.eqb 0 0 = true) by (apply JS_eqb_true; reflexivity).
      rewrite E0. reflexivity.
  - intros a b. reflexivity.
  - intros [[x y]] [[x' y']]. vec2_simpl. ring.
  - intros [[x y]] [[x' y']]. vec2_simpl. ring.
  - intros [[x y]] [[x' y']]. vec2_simpl.
    pose proof (Rle_0_sqr (x * y' - y * x')) as E. unfold Rsqr in E. nra.
  - intros [[x y]] [[x' y']]. apply Vector2_ext; vec2_simpl; ring.
  - intros [[x y]] [[x' y']]. apply Vector2_ext; vec2_simpl; ring.
  - intros [[x y]] [[x' y']]. apply Vector2_ext; vec2_simpl; ring.
  - intros [[x y]] [[x' y']]. apply Vector2_ext; vec2_simpl; ring.
  - intros [[x y]] [[x' y']]. apply Vector2_ext; vec2_simpl; ring.
  - intros [[x y]] [[x' y']]. apply Vector2_ext; vec2_simpl; ring.
  - intros [[x y]] [[x' y']] [[x'' y'']] s. vec2_simpl. ring.
  - intros [[x y]] [[x' y']] s. apply Vector2_ext; vec2_simpl; ring.
  - intros [[x y]] [[x' y']] s. vec2_simpl. ring.
Qed.

#[export] Instance Vector3_geometry : VectorGeometry.t Vector3.t.
Proof.
  constructor; simpl.
  - intros [[x y z]].
    unfold Vector3.nor, Vec3.normalize, Vector3.scale, Vec3.scale,
      Vector3.sqrLen, JS.sqrt.
    simpl. destruct (Rgt_dec _ 0); reflexivity.
  - intros [[x y z]]. vec3_simpl. intros E.
    assert (x = 0) by nra. assert (y = 0) by nra. assert (z = 0) by nra.
    subst. reflexivity.
  - intros [[x y z]]. unfold Vector3.isZero. vec3_simpl. split.
    + intros E. apply andb_true_iff in E as [E Ez].
      apply andb_true_iff in E as [Ex Ey].
      apply JS_eqb_true in Ex, Ey, Ez. subst. ring.
    + intros E.
      assert (x = 0) by nra. assert (y = 0) by nra. assert (z = 0) by nra.
      subst.
      assert (E0 : JS.eqb 0 0 = true) by (apply JS_eqb_true; reflexivity).
      rewrite E0. reflexivity.
  - intros a b. reflexivity.
  - intros [[x y z]] [[x' y' z']]. vec3_simpl. ring.
  - intros [[x y z]] [[x' y' z']]. vec3_simpl. ring.
  - intros [[x y z]] [[x' y' z']]. vec3_simpl.
    pose proof (Rle_0_sqr (x * y' - y * x')) as E1.
    pose proof (Rle_0_sqr (x * z' - z * x')) as E2.
    pose proof (Rle_0_sqr (y * z' - z * y')) as E3.
    unfold Rsqr in E1, E2, E3. nra.
  - intros [[x y z]] [[x' y' z']]. apply Vector3_ext; vec3_simpl; ring.
  - intros [[x y z]] [[x' y' z']]. apply Vector3_ext; vec3_simpl; ring.
  - intros [[x y z]] [[x' y' z']]. apply Vector3_ext; vec3_simpl; ring.
  - intros [[x y z]] [[x' y' z']]. apply Vector3_ext; vec3_simpl; ring.
  - intros [[x y z]] [[x' y' z']]. apply Vector3_ext; vec3_simpl; ring.
  - intros [[x y z]] [[x' y' z']]. apply Vector3_ext; vec3_simpl; ring.
  - intros [[x y z]] [[x' y' z']] [[x'' y'' z'']] s. vec3_simpl. ring.
  - intros [[x y z]] [[x' y' z']] s. apply Vector3_ext; vec3_simpl; ring.
  - intros [[x y z]] [[x' y' z']] s. vec3_simpl. ring.
Qed.

(** ** [wrapAngleAroundZero], [randomTriangular] *)

Lemma rem_zero (b : R) : JS.rem 0 b = 0.
Proof.
  unfold JS.rem, JS.trunc.
  replace (0 / b) with 0 by (unfold Rdiv; ring).
  destruct (Rle_dec 0 0) as [_ | n]; [| lra].
  replace (Int_part 0) with 0%Z; [simpl; ring |].
  apply Int_part_spec. simpl. lra.
Qed.

(** X1.  [wrapAngleAroundZero] is an odd function, and wrapping a wrapped
    angle changes nothing. *)
Theorem wrapAngleAroundZero_odd_idempotent (a : R) :
  wrapAngleAroundZero (- a) = - wrapAngleAroundZero a
  /\ wrapAngleAroundZero (wrapAngleAroundZero a) = wrapAngleAroundZero a.
Proof.
  split.
  - unfold wrapAngleAroundZero.
    destruct (Rge_dec (- a) 0) as [Hn | Hn]; destruct (Rge_dec a 0) as [Ha | Ha].
    + assert (a = 0) by lra. subst a. rewrite Ropp_0, rem_zero.
      destruct (Rgt_dec 0 PI); [pose proof PI_RGT_0; lra | ring].
    + ring.
    + rewrite Ropp_involutive. reflexivity.
    + lra.
  - apply wrapAngleAroundZero_id, wrapAngleAroundZero_range.
Qed.

(** X2.  With two draws of [Math.random], which lie in [0, 1), the result
    of [randomTriangular] lies strictly between [- max] and [max] for a
    positive [max], and is zero when the draws are equal. *)
Theorem randomTriangular_between (r1 r2 max : R) :
  0 <= r1 < 1 -> 0 <= r2 < 1 -> 0 < max ->
  - max < randomTriangular r1 r2 max < max
  /\ randomTriangular r1 r1 max = 0.
Proof.
  intros H1 H2 Hmax. unfold randomTriangular. split; [nra | ring].
Qed.

Lemma randomTriangular_between_witness :
  - 2 < randomTriangular (3 / 4) (1 / 4) 2 < 2
  /\ randomTriangular (3 / 4) (3 / 4) 2 = 0.
Proof.
  apply (randomTriangular_between (3 / 4) (1 / 4) 2); lra.
Defined.

(** ** Vectors and [SteeringAcceleration] *)

Section VectorProperties.
Context {T : Type} `{VectorLaws.t T} `{!VectorGeometry.t T}.

Lemma sqrLen_nor (v : T) :
  Vector.sqrLen v > 0 -> Vector.sqrLen (Vector.nor v) = 1.
Proof.
  intros Hpos. rewrite VectorGeometry.nor_eq.
  destruct (Rgt_dec (Vector.sqrLen v) 0) as [_ | n]; [| lra].
  rewrite VectorLaws.sqrLen_scale.
  pose proof (sqrt_sqrt (Vector.sqrLen v)) as Hs.
  assert (Hr : sqrt (Vector.sqrLen v) <> 0).
  { intros E. rewrite E in Hs. lra. }
  replace (1 / sqrt (Vector.sqrLen v) * (1 / sqrt (Vector.sqrLen v))
           * Vector.sqrLen v)
    with (Vector.sqrLen v / (sqrt (Vector.sqrLen v) * sqrt (Vector.sqrLen v)))
    by (field; exact Hr).
  rewrite Hs by lra. field. lra.
Qed.

Lemma nor_zero (v : T) : Vector.sqrLen v = 0 -> Vector.nor v = v.
Proof.
  intros E. rewrite VectorGeometry.nor_eq.
  destruct (Rgt_dec (Vector.sqrLen v) 0); [lra | reflexivity].
Qed.

Lemma len_nor (v : T) : Vector.sqrLen v > 0 -> Vector.len (Vector.nor v) = 1.
Proof.
  intros Hpos. rewrite VectorLaws.len_sqrLen, (sqrLen_nor v Hpos). apply sqrt_1.
Qed.

Lemma len_zero (v : T) : Vector.sqrLen v = 0 -> Vector.len v = 0.
Proof. intros E. rewrite VectorLaws.len_sqrLen, E. apply sqrt_0. Qed.

Lemma sqrLen_pos_or_zero (v : T) : Vector.sqrLen v > 0 \/ Vector.sqrLen v = 0.
Proof. pose proof (VectorLaws.sqrLen_nonneg v). lra. Qed.

(** X3.  [nor] gives a vector of length 1, except that a zero vector is
    left as it is; normalising twice is normalising once. *)
Theorem Vector_nor_unit_length (v : T) :
  Vector.len (Vector.nor v) = (if Vector.isZero v then 0 else 1)
  /\ (Vector.isZero v = true -> Vector.nor v = v)
  /\ Vector.nor (Vector.nor v) = Vector.nor v.
Proof.
  destruct (sqrLen_pos_or_zero v) as [Hpos | Hz].
  - assert (Hnz : Vector.isZero v = false).
    { destruct (Vector.isZero v) eqn:E; [| reflexivity].
      apply VectorGeometry.isZero_iff in E. lra. }
    rewrite Hnz. split; [apply len_nor, Hpos |]. split; [discriminate |].
    pose proof (sqrLen_nor v Hpos) as Hone.
    rewrite (VectorGeometry.nor_eq (Vector.nor v)).
    destruct (Rgt_dec (Vector.sqrLen (Vector.nor v)) 0) as [_ | n]; [| lra].
    rewrite Hone, sqrt_1. replace (1 / 1) with 1 by field.
    apply VectorLaws.scale_1.
  - assert (Hzero : Vector.isZero v = true)
      by (apply VectorGeometry.isZero_iff; exact Hz).
    rewrite Hzero, (nor_zero v Hz). split; [apply len_zero, Hz |].
    split; [reflexivity | apply nor_zero, Hz].
Qed.

(** X4.  A steering acceleration is zero exactly when its squared
    magnitude is zero; [scl] multiplies the magnitude by the absolute value
    of the scalar; [mulAdd] is [scl] followed by [add]. *)
Theorem SteeringAcceleration_magnitude_algebra
    (s t : SteeringAcceleration.t T) (c : R) :
  (SteeringAcceleration.isZero s = true
   <-> SteeringAcceleration.calculateSquareMagnitude s = 0)
  /\ SteeringAcceleration.calculateMagnitude (SteeringAcceleration.scl s c)
     = JS.abs c * SteeringAcceleration.calculateMagnitude s
  /\ SteeringAcceleration.mulAdd s t c
     = SteeringAcceleration.add s (SteeringAcceleration.scl t c).
Proof.
  split; [| split].
  - unfold SteeringAcceleration.isZero,
      SteeringAcceleration.calculateSquareMagnitude.
    pose proof (VectorLaws.sqrLen_nonneg (SteeringAcceleration.linear s)) as Hn.
    split.
    + intros E. apply andb_true_iff in E as [Ea El].
      apply JS_eqb_true in Ea. apply VectorGeometry.isZero_iff in El.
      rewrite Ea, El. ring.
    + intros E.
      assert (Ea : SteeringAcceleration.angular s = 0) by nra.
      assert (El : Vector.sqrLen (SteeringAcceleration.linear s) = 0) by nra.
      apply andb_true_iff. split.
      * apply JS_eqb_true. exact Ea.
      * apply VectorGeometry.isZero_iff. exact El.
  - unfold SteeringAcceleration.calculateMagnitude,
      SteeringAcceleration.calculateSquareMagnitude, SteeringAcceleration.scl,
      JS.sqrt, JS.abs.
    simpl. rewrite VectorLaws.sqrLen_scale.
    replace (c * c * Vector.sqrLen (SteeringAcceleration.linear s)
             + SteeringAcceleration.angular s * c
               * (SteeringAcceleration.angular s * c))
      with (c * c * (Vector.sqrLen (SteeringAcceleration.linear s)
                     + SteeringAcceleration.angular s
                       * SteeringAcceleration.angular s)) by ring.
    rewrite sqrt_mult_alt by nra.
    fold (Rsqr c). rewrite sqrt_Rsqr_abs. reflexivity.
  - unfold SteeringAcceleration.mulAdd, SteeringAcceleration.add,
      SteeringAcceleration.scl.
    simpl. rewrite VectorLaws.scaleAndAdd_eq. reflexivity.
Qed.

End VectorProperties.

Lemma Vector_nor_unit_length_witness :
  Vector.len (Vector.nor (Vector2.make 3 4)) = 1
  /\ Vector.nor (Vector.nor (Vector2.make 3 4)) = Vector.nor (Vector2.make 3 4).
Proof.
  destruct (Vector_nor_unit_length (Vector2.make 3 4)) as (Hlen & _ & Hidem).
  split; [| exact Hidem].
  assert (E : Vector.isZero (Vector2.make 3 4) = false).
  { unfold Vector.isZero, Vector2_Vector, Vector2.isZero, Vector2.x, Vector2.y,
      Vector2.make, JS.eqb.
    simpl. destruct (Req_dec_T 3 0); [lra | reflexivity]. }
  rewrite E in Hlen. exact Hlen.
Defined.

Lemma SteeringAcceleration_magnitude_algebra_witness :
  SteeringAcceleration.mulAdd (Examples.steering 1 2 3) (Examples.steering 4 5 6) 2
  = SteeringAcceleration.add (Examples.steering 1 2 3)
      (SteeringAcceleration.scl (Examples.steering 4 5 6) 2).
Proof.
  apply (SteeringAcceleration_magnitude_algebra
           (Examples.steering 1 2 3) (Examples.steering 4 5 6) 2).
Defined.

(** X5.  [Vector2.epsilonEquals]: a [null] argument is never equal; for a
    non-negative tolerance a vector equals itself; the test is symmetric;
    with a negative tolerance nothing is equal. *)
Theorem Vector2_epsilonEquals_properties (a b : Vector2.t) (epsilon : R) :
  Vector2.epsilonEquals a None epsilon = false
  /\ Vector2.epsilonEquals a (Some b) epsilon
     = Vector2.epsilonEquals b (Some a) epsilon
  /\ Vector2.epsilonEquals a (Some a) epsilon
     = (if Rle_dec 0 epsilon then true else false)
  /\ (Vector2.epsilonEquals a (Some b) epsilon = true
      <-> JS.abs (Vector2.x b - Vector2.x a) <= epsilon
          /\ JS.abs (Vector2.y b - Vector2.y a) <= epsilon).
Proof.
  unfold Vector2.epsilonEquals, JS.abs.
  split; [reflexivity |]. split; [| split].
  - rewrite (Rabs_minus_sym (Vector2.x a)), (Rabs_minus_sym (Vector2.y a)).
    reflexivity.
  - replace (Vector2.x a - Vector2.x a) with 0 by ring.
    replace (Vector2.y a - Vector2.y a) with 0 by ring.
    rewrite Rabs_R0.
    destruct (Rgt_dec 0 epsilon), (Rle_dec 0 epsilon); try reflexivity; lra.
  - destruct (Rgt_dec (Rabs (Vector2.x b - Vector2.x a)) epsilon);
      [split; [discriminate | lra] |].
    destruct (Rgt_dec (Rabs (Vector2.y b - Vector2.y a)) epsilon);
      [split; [discriminate | lra] |].
    split; [lra | reflexivity].
Qed.

(** ** [Seek], [MatchVelocity] *)

Section SeekProperties.
Context {T : Type} `{VectorLaws.t T} `{!VectorGeometry.t T}.

Lemma isZero_scale_setZero (v : T) (c : R) :
  Vector.isZero (Vector.scale (Vector.setZero v) c) = true.
Proof.
  apply VectorGeometry.isZero_iff.
  rewrite VectorLaws.sqrLen_scale, VectorLaws.sqrLen_setZero. ring.
Qed.

Lemma len_pos (v : T) : Vector.sqrLen v > 0 -> Vector.len v > 0.
Proof.
  intros Hpos. rewrite VectorLaws.len_sqrLen. apply sqrt_lt_R0. lra.
Qed.

(** X6.  [Seek] never turns the owner.  When the target is not the
    position of the owner and the cap is non-negative, the linear output
    is the vector to the target rescaled to [maxLinearAcceleration]: full
    acceleration, whatever the distance.  When the target is the position
    of the owner the output is zero. *)
Theorem Seek_full_acceleration_toward_target
    (this : Seek.t T) (steering : SteeringAcceleration.t T) :
  let owner := SteeringBehavior.owner (Seek.self this) in
  let maxAcceleration :=
    Limiter.getMaxLinearAcceleration
      (SteeringBehavior.getActualLimiter (Seek.self this)) in
  let toTarget := Vector.sub (Seek.target this) (Steerable.getPosition owner) in
  let out := Seek.calculateRealSteering this steering in
  SteeringAcceleration.angular out = 0
  /\ (Seek.target this = Steerable.getPosition owner ->
      SteeringAcceleration.isZero out = true)
  /\ (Vector.sqrLen toTarget > 0 -> 0 <= maxAcceleration ->
      Vector.len (SteeringAcceleration.linear out) = maxAcceleration
      /\ SteeringAcceleration.linear out
         = Vector.scale toTarget (maxAcceleration / Vector.len toTarget)).
Proof.
  intros owner maxAcceleration toTarget out.
  unfold out, Seek.calculateRealSteering. simpl.
  rewrite VectorLaws.copy_eq.
  fold owner. fold toTarget. fold maxAcceleration.
  split; [reflexivity |]. split.
  - intros E. unfold SteeringAcceleration.isZero. simpl.
    assert (E0 : JS.eqb 0 0 = true) by (apply JS_eqb_true; reflexivity).
    rewrite E0. simpl.
    unfold toTarget. rewrite E, VectorLaws.sub_self.
    rewrite nor_zero by apply VectorLaws.sqrLen_setZero.
    apply isZero_scale_setZero.
  - intros Hpos Hmax.
    pose proof (len_pos toTarget Hpos) as Hlen.
    split.
    + rewrite len_scale, (len_nor toTarget Hpos).
      rewrite Rabs_right by lra. ring.
    + rewrite VectorGeometry.nor_eq.
      destruct (Rgt_dec (Vector.sqrLen toTarget) 0) as [_ | n]; [| lra].
      rewrite VectorLaws.scale_scale, <- VectorLaws.len_sqrLen.
      f_equal. field. lra.
Qed.

(** X7.  [MatchVelocity] never turns the owner.  Its linear output is the
    velocity difference divided by [timeToTarget], limited to
    [maxLinearAcceleration]: at most the cap in magnitude, the unlimited
    value when that is within the cap, and zero when the velocities are
    already equal. *)
Theorem MatchVelocity_capped_velocity_difference
    (this : MatchVelocity.t T) (steering : SteeringAcceleration.t T) :
  let owner := SteeringBehavior.owner (MatchVelocity.self this) in
  let maxAcceleration :=
    Limiter.getMaxLinearAcceleration
      (SteeringBehavior.getActualLimiter (MatchVelocity.self this)) in
  let unlimited :=
    Vector.scale
      (Vector.sub (Steerable.getLinearVelocity (MatchVelocity.target this))
                  (Steerable.getLinearVelocity owner))
      (1 / MatchVelocity.timeToTarget this) in
  let out := MatchVelocity.calculateRealSteering this steering in
  MatchVelocity.timeToTarget this <> 0 -> 0 <= maxAcceleration ->
  SteeringAcceleration.angular out = 0
  /\ SteeringAcceleration.linear out = Vector.limit unlimited maxAcceleration
  /\ Vector.len (SteeringAcceleration.linear out) <= maxAcceleration
  /\ (Vector.len unlimited <= maxAcceleration ->
      SteeringAcceleration.linear out = unlimited)
  /\ (Steerable.getLinearVelocity (MatchVelocity.target this)
      = Steerable.getLinearVelocity owner ->
      SteeringAcceleration.isZero out = true).
Proof.
  intros owner maxAcceleration unlimited out Httt Hmax.
  unfold out, MatchVelocity.calculateRealSteering, MatchVelocity.matchVelocity.
  simpl. rewrite VectorLaws.copy_eq.
  fold owner. fold unlimited. fold maxAcceleration.
  split; [reflexivity |]. split; [reflexivity |].
  split; [apply limit_len_cap, Hmax |].
  split; [apply limit_len_id |].
  intros E. unfold SteeringAcceleration.isZero. simpl.
  assert (E0 : JS.eqb 0 0 = true) by (apply JS_eqb_true; reflexivity).
  rewrite E0. simpl.
  assert (Hz : Vector.sqrLen unlimited = 0).
  { unfold unlimited. rewrite E, VectorLaws.sub_self.
    rewrite VectorLaws.sqrLen_scale, VectorLaws.sqrLen_setZero. ring. }
  rewrite limit_within by (rewrite Hz; nra).
  apply VectorGeometry.isZero_iff, Hz.
Qed.

End SeekProperties.

Lemma Seek_full_acceleration_toward_target_witness :
  Vector.len
    (SteeringAcceleration.linear
       (Seek.calculateRealSteering SeekExample.this (Examples.steering 7 7 7)))
  = 5.
Proof.
  destruct (Seek_full_acceleration_toward_target SeekExample.this
              (Examples.steering 7 7 7)) as (_ & _ & Hfull).
  destruct Hfull as [Hlen _].
  - change (Vector2.sqrLen (Vector2.sub (Vector2.make 3 4) (Vector2.make 0 0))
            > 0).
    vec2_simpl. lra.
  - change (0 <= 5). lra.
  - exact Hlen.
Defined.

Lemma MatchVelocity_capped_velocity_difference_witness :
  let out :=
    MatchVelocity.calculateRealSteering SeekExample.matching
      (Examples.steering 7 7 7) in
  SteeringAcceleration.angular out = 0
  /\ Vector.len (SteeringAcceleration.linear out) <= 5.
Proof.
  destruct (MatchVelocity_capped_velocity_difference SeekExample.matching
              (Examples.steering 7 7 7)) as (Hang & _ & Hcap & _).
  - change (1 / 10 <> 0). lra.
  - change (0 <= 5). lra.
  - split; [exact Hang | exact Hcap].
Defined.

(** ** [Face], [LookWhereYouAreGoing] *)

Section FaceProperties.
Context {T : Type} `{VectorLaws.t T} `{!VectorGeometry.t T}.

(** The output of [reachOrientation] does not depend on the content of
    the linear part of the buffer it is given. *)
Lemma reachOrientation_buffer (this : ReachOrientation.t T)
    (steering : SteeringAcceleration.t T) (v : T) (targetOrientation : R) :
  ReachOrientation.reachOrientation this
    (SteeringAcceleration.new v (SteeringAcceleration.angular steering))
    targetOrientation
  = ReachOrientation.reachOrientation this steering targetOrientation.
Proof.
  unfold ReachOrientation.reachOrientation, SteeringAcceleration.setZero. simpl.
  rewrite (VectorLaws.setZero_const v (SteeringAcceleration.linear steering)).
  reflexivity.
Qed.

Lemma reachOrientation_turns_only (this : ReachOrientation.t T)
    (steering : SteeringAcceleration.t T) (targetOrientation : R) :
  let maxAcceleration :=
    Limiter.getMaxAngularAcceleration
      (SteeringBehavior.getActualLimiter (ReachOrientation.self this)) in
  let out := ReachOrientation.reachOrientation this steering targetOrientation in
  0 <= maxAcceleration ->
  Vector.isZero (SteeringAcceleration.linear out) = true
  /\ JS.abs (SteeringAcceleration.angular out) <= maxAcceleration.
Proof.
  intros maxAcceleration out Hmax. unfold out, ReachOrientation.reachOrientation.
  destruct (Rle_dec _ (ReachOrientation.alignTolerance this)).
  - simpl. split; [apply VectorLaws.isZero_setZero |].
    unfold JS.abs. rewrite Rabs_R0. exact Hmax.
  - cbv zeta. simpl. split; [apply VectorLaws.isZero_setZero |].
    fold maxAcceleration.
    set (angular := (_ - _) / ReachOrientation.timeToTarget this).
    rewrite (rotationSize_abs angular). unfold JS.abs.
    destruct (Rgt_dec (Rabs angular) maxAcceleration) as [Hgt | Hle].
    + unfold Rdiv. rewrite !Rabs_mult, Rabs_inv, Rabs_Rabsolu.
      rewrite (Rabs_right maxAcceleration) by lra.
      assert (Rabs angular <> 0) by lra.
      apply Req_le. field. assumption.
    + lra.
Qed.

Lemma setZero_zero (s : SteeringAcceleration.t T) :
  Vector.isZero (SteeringAcceleration.linear (SteeringAcceleration.setZero s))
  = true
  /\ SteeringAcceleration.angular (SteeringAcceleration.setZero s) = 0.
Proof. split; [apply VectorLaws.isZero_setZero | reflexivity]. Qed.

(** X8.  For a non-negative tolerance, a nonzero [timeToTarget] and a
    non-negative cap, [Face] turns the owner and never pushes it: the
    linear output is zero and the angular output is within
    [maxAngularAcceleration].  When
    the squared distance to the target is below the zero threshold of the
    limiter the output is zero; otherwise it is what [reachOrientation]
    gives for the angle of the vector from the owner to the target, the
    use of the linear part of the buffer as a scratch vector leaving no
    trace. *)
Theorem Face_face_turns_only
    (this : Face.t T) (steering : SteeringAcceleration.t T) (targetPosition : T) :
  let self := ReachOrientation.self (Face.super this) in
  let limiter := SteeringBehavior.getActualLimiter self in
  let toTarget :=
    Vector.sub targetPosition (Steerable.getPosition (SteeringBehavior.owner self)) in
  let out := Face.face this steering targetPosition in
  0 <= ReachOrientation.alignTolerance (Face.super this) ->
  ReachOrientation.timeToTarget (Face.super this) <> 0 ->
  0 <= Limiter.getMaxAngularAcceleration limiter ->
  Vector.isZero (SteeringAcceleration.linear out) = true
  /\ JS.abs (SteeringAcceleration.angular out)
     <= Limiter.getMaxAngularAcceleration limiter
  /\ (Vector.sqrLen toTarget < Limiter.getZeroLinearSpeedThreshold limiter ->
      SteeringAcceleration.isZero out = true)
  /\ (Vector.sqrLen toTarget >= Limiter.getZeroLinearSpeedThreshold limiter ->
      out = ReachOrientation.reachOrientation (Face.super this) steering
              (Face.vectorToAngle this toTarget)).
Proof.
  intros self limiter toTarget out _ _ Hmax.
  unfold out, Face.face. rewrite VectorLaws.copy_eq.
  fold self. fold limiter. fold toTarget.
  destruct (Rlt_dec (Vector.sqrLen toTarget)
                    (Limiter.getZeroLinearSpeedThreshold limiter)) as [Hlt | Hge].
  - split; [apply VectorLaws.isZero_setZero |].
    split; [simpl; unfold JS.abs; rewrite Rabs_R0; exact Hmax |].
    split; [intros _; apply setZero_isZero | intros Hge; lra].
  - rewrite reachOrientation_buffer.
    destruct (reachOrientation_turns_only (Face.super this) steering
                (Face.vectorToAngle this toTarget) Hmax) as [Hlin Hang].
    split; [exact Hlin |]. split; [exact Hang |].
    split; [intros Hlt; lra | reflexivity].
Qed.

(** X9.  For a non-negative tolerance, a nonzero [timeToTarget] and a
    non-negative cap, [LookWhereYouAreGoing] turns the owner and never
    pushes it: the linear output is zero and the angular output is within
    [maxAngularAcceleration].  When the squared speed of the owner is
    below the zero threshold of the limiter the output is zero; otherwise
    it is what [reachOrientation] gives for the angle of the velocity of
    the owner. *)
Theorem LookWhereYouAreGoing_turns_toward_velocity
    (this : LookWhereYouAreGoing.t T) (steering : SteeringAcceleration.t T) :
  let self := ReachOrientation.self (LookWhereYouAreGoing.super this) in
  let limiter := SteeringBehavior.getActualLimiter self in
  let velocity := Steerable.getLinearVelocity (SteeringBehavior.owner self) in
  let out := LookWhereYouAreGoing.calculateRealSteering this steering in
  0 <= ReachOrientation.alignTolerance (LookWhereYouAreGoing.super this) ->
  ReachOrientation.timeToTarget (LookWhereYouAreGoing.super this) <> 0 ->
  0 <= Limiter.getMaxAngularAcceleration limiter ->
  Vector.isZero (SteeringAcceleration.linear out) = true
  /\ JS.abs (SteeringAcceleration.angular out)
     <= Limiter.getMaxAngularAcceleration limiter
  /\ (Vector.sqrLen velocity < Limiter.getZeroLinearSpeedThreshold limiter ->
      SteeringAcceleration.isZero out = true)
  /\ (Vector.sqrLen velocity >= Limiter.getZeroLinearSpeedThreshold limiter ->
      out = ReachOrientation.reachOrientation (LookWhereYouAreGoing.super this)
              steering (LookWhereYouAreGoing.vectorToAngle this velocity)).
Proof.
  intros self limiter velocity out _ _ Hmax.
  unfold out, LookWhereYouAreGoing.calculateRealSteering.
  fold self. fold limiter. fold velocity.
  destruct (Rlt_dec (Vector.sqrLen velocity)
                    (Limiter.getZeroLinearSpeedThreshold limiter)) as [Hlt | Hge].
  - split; [apply VectorLaws.isZero_setZero |].
    split; [simpl; unfold JS.abs; rewrite Rabs_R0; exact Hmax |].
    split; [intros _; apply setZero_isZero | intros Hge; lra].
  - destruct (reachOrientation_turns_only (LookWhereYouAreGoing.super this)
                steering (LookWhereYouAreGoing.vectorToAngle this velocity) Hmax)
      as [Hlin Hang].
    split; [exact Hlin |]. split; [exact Hang |].
    split; [intros Hlt; lra | reflexivity].
Qed.

End FaceProperties.

Lemma Face_face_turns_only_witness :
  let out := Face.face FaceExample.this (Examples.steering 7 7 7)
                       (Vector2.make 3 4) in
  Vector.isZero (SteeringAcceleration.linear out) = true
  /\ JS.abs (SteeringAcceleration.angular out) <= 10.
Proof.
  destruct (Face_face_turns_only FaceExample.this (Examples.steering 7 7 7)
              (Vector2.make 3 4)) as (Hlin & Hang & _).
  - change (0 <= 0). lra.
  - change (1 / 10 <> 0). lra.
  - change (0 <= 10). lra.
  - split; [exact Hlin | exact Hang].
Defined.

Lemma LookWhereYouAreGoing_turns_toward_velocity_witness :
  let out :=
    LookWhereYouAreGoing.calculateRealSteering FaceExample.looking
      (Examples.steering 7 7 7) in
  Vector.isZero (SteeringAcceleration.linear out) = true
  /\ JS.abs (SteeringAcceleration.angular out) <= 10.
Proof.
  destruct (LookWhereYouAreGoing_turns_toward_velocity FaceExample.looking
              (Examples.steering 7 7 7)) as (Hlin & Hang & _).
  - change (0 <= 0). lra.
  - change (1 / 10 <> 0). lra.
  - change (0 <= 10). lra.
  - split; [exact Hlin | exact Hang].
Defined.

(** ** [CollisionAvoidance]: the most imminent collision *)

Section MostImminent.
Context {T : Type} `{VectorLaws.t T}.

Lemma threat_not_cannotCollide (owner n : Steerable.t T) :
  Threat.threat owner n <-> ~ Collision.cannotCollide owner n.
Proof.
  unfold Threat.threat, Collision.cannotCollide. split.
  - intros (Hv & Ht & Hs) [E | [E | E]]; [exact (Hv E) | lra | lra].
  - intros Hn. split; [| split].
    + intros E. apply Hn. left. exact E.
    + destruct (Rle_dec (Collision.timeToCollision owner n) 0) as [E | E];
        [exfalso; apply Hn; right; left; exact E | lra].
    + destruct (Rgt_dec (Collision.minSeparation owner n)
                  (Steerable.getBoundingRadius owner
                   + Steerable.getBoundingRadius n)) as [E | E];
        [exfalso; apply Hn; right; right; exact E | lra].
Qed.

(** One more neighbor reported. *)
Lemma reportNeighbor_scanned (this : CollisionAvoidance.t T)
    (seen : list (Steerable.t T)) (count : nat) (n : Steerable.t T) :
  Threat.scanned this seen count ->
  let '(accepted, this') := CollisionAvoidance.reportNeighbor this n in
  CollisionAvoidance.self this' = CollisionAvoidance.self this
  /\ Threat.scanned this' (seen ++ [n]) (if accepted then S count else count).
Proof.
  intros Hinv. unfold CollisionAvoidance.reportNeighbor.
  rewrite reportNeighborWith_cases. cbv zeta.
  set (owner := SteeringBehavior.owner (CollisionAvoidance.self this)) in *.
  assert (Hrej : forall p v,
    (Threat.threat owner n ->
     match CollisionAvoidance.shortestTime this with
     | Some t => t <= Collision.timeToCollision owner n
     | None => False
     end) ->
    Threat.scanned
      (CollisionAvoidance.mk (CollisionAvoidance.self this)
         (CollisionAvoidance.shortestTime this)
         (CollisionAvoidance.firstNeighbor this)
         (CollisionAvoidance.firstMinSeparation this)
         (CollisionAvoidance.firstDistance this)
         (CollisionAvoidance.firstRelativePosition this)
         (CollisionAvoidance.firstRelativeVelocity this) p v)
      (seen ++ [n]) count).
  { intros p v Hn. subst owner. unfold Threat.scanned in *. cbn.
    destruct (CollisionAvoidance.firstNeighbor this) as [first |] eqn:Ef.
    - destruct Hinv as (Hc & Htr & Hin & Hth & Hmin).
      split; [exact Hc |]. split.
      + unfold Threat.tracks in *. cbn in *.
        destruct Htr as (? & ? & ? & ? & ? & ?).
        repeat split; solve [assumption | reflexivity].
      + split; [apply in_or_app; left; exact Hin |]. split; [exact Hth |].
        intros m Hm Htm. apply in_app_or in Hm as [Hm | [<- | []]].
        * apply Hmin; assumption.
        * specialize (Hn Htm).
          destruct Htr as (Hs & _). cbn in Hs. rewrite Hs in Hn.
          exact Hn.
    - destruct Hinv as (Hs & Hc & Hno).
      split; [exact Hs |]. split; [exact Hc |].
      intros m Hm Htm. apply in_app_or in Hm as [Hm | [<- | []]].
      + exact (Hno m Hm Htm).
      + specialize (Hn Htm). rewrite Hs in Hn. exact Hn. }
  fold (Collision.relativePosition owner n).
  fold (Collision.relativeVelocity owner n).
  fold (Collision.timeToCollision owner n).
  fold (Collision.minSeparation owner n).
  destruct (Req_dec_T _ 0) as [E | E].
  { split; [reflexivity |]. apply Hrej. intros (Hv & _). contradiction. }
  destruct (Rle_dec _ 0) as [Et | Et].
  { split; [reflexivity |]. apply Hrej. intros (_ & Ht & _). lra. }
  destruct (CollisionAvoidance.geShortest _ _) eqn:Eg.
  { split; [reflexivity |]. apply Hrej. intros _.
    unfold CollisionAvoidance.geShortest in Eg.
    destruct (CollisionAvoidance.shortestTime this) as [t |];
      [| discriminate].
    destruct (Rge_dec _ t); [lra | discriminate]. }
  destruct (Rgt_dec _ _) as [Es | Es].
  { split; [reflexivity |]. apply Hrej. intros (_ & _ & Hs). lra. }
  split; [reflexivity |].
  assert (Hthreat : Threat.threat owner n).
  { split; [exact E |]. split; lra. }
  unfold Threat.scanned. cbn. fold owner.
  split; [lia |]. split.
  { unfold Threat.tracks. cbn. fold owner. repeat split. }
  split; [apply in_or_app; right; left; reflexivity |].
  split; [exact Hthreat |].
  intros m Hm Htm. apply in_app_or in Hm as [Hm | [<- | []]]; [| lra].
  unfold CollisionAvoidance.geShortest in Eg.
  unfold Threat.scanned in Hinv. fold owner in Hinv.
  destruct (CollisionAvoidance.firstNeighbor this) as [first |].
  - destruct Hinv as (_ & (Hs & _) & _ & _ & Hmin). fold owner in Hs.
    rewrite Hs in Eg.
    destruct (Rge_dec _ _) as [| Hlt]; [discriminate |].
    specialize (Hmin m Hm Htm). lra.
  - destruct Hinv as (_ & _ & Hno). exfalso. exact (Hno m Hm Htm).
Qed.

Lemma reportAll_scanned (agents : list (Steerable.t T)) :
  forall (this : CollisionAvoidance.t T) (seen : list (Steerable.t T))
         (count : nat),
    Threat.scanned this seen count ->
    let '(this', count') :=
      Neighbors.reportAll CollisionAvoidance.reportNeighbor agents this count in
    CollisionAvoidance.self this' = CollisionAvoidance.self this
    /\ Threat.scanned this' (seen ++ agents) count'.
Proof.
  induction agents as [| n rest IH]; intros this seen count Hinv.
  - simpl. rewrite app_nil_r. split; [reflexivity | exact Hinv].
  - cbn [Neighbors.reportAll].
    pose proof (reportNeighbor_scanned this seen count n Hinv) as Hstep.
    destruct (CollisionAvoidance.reportNeighbor this n) as [accepted this1].
    destruct Hstep as [Hself Hstep].
    specialize (IH this1 (seen ++ [n]) _ Hstep).
    destruct (Neighbors.reportAll CollisionAvoidance.reportNeighbor rest this1 _)
      as [this' count'].
    destruct IH as [Hself' IH]. rewrite <- app_assoc in IH.
    split; [congruence | exact IH].
Qed.

End MostImminent.

Section MostImminentSteering.
Context {T : Type} `{VectorLaws.t T} `{!VectorGeometry.t T}.

(** X10.  Called on the agents in turn, from the state in which
    [calculateRealSteering] resets the behavior, [reportNeighbor] leaves
    the data of the most imminent collision: when none of the agents is
    going to collide with the owner nothing is stored and none is
    accepted; otherwise the stored neighbor is one of the agents, is going
    to collide with the owner, no other collision of the agents comes
    sooner, and the stored time, separation, distance and relative
    position and velocity are those of that neighbor. *)
Theorem CollisionAvoidance_reportNeighbor_tracks_most_imminent
    (this : CollisionAvoidance.t T) (agents : list (Steerable.t T)) :
  CollisionAvoidance.shortestTime this = None ->
  CollisionAvoidance.firstNeighbor this = None ->
  let '(this', count) :=
    Neighbors.reportAll CollisionAvoidance.reportNeighbor agents this 0%nat in
  CollisionAvoidance.self this' = CollisionAvoidance.self this
  /\ Threat.scanned this' agents count.
Proof.
  intros Hs Hf.
  apply (reportAll_scanned agents this [] 0%nat).
  unfold Threat.scanned. rewrite Hf.
  split; [exact Hs |]. split; [reflexivity |]. intros n [].
Qed.

(** X11.  With a proximity that reports the given agents,
    [CollisionAvoidance] returns zero when none of them is going to
    collide with the owner.  Otherwise it steers away from the most
    imminent collision: the output has no angular part and its linear part
    is the normalised vector to the avoided point, scaled by minus
    [maxLinearAcceleration]; so its magnitude is the cap whenever the
    avoided point is not the owner's own position. *)
Theorem CollisionAvoidance_steers_away_from_most_imminent
    (this : CollisionAvoidance.t T) (agents : list (Steerable.t T))
    (steering : SteeringAcceleration.t T) :
  let owner := SteeringBehavior.owner (CollisionAvoidance.self this) in
  let maxAcceleration :=
    Limiter.getMaxLinearAcceleration
      (SteeringBehavior.getActualLimiter (CollisionAvoidance.self this)) in
  let out :=
    fst (CollisionAvoidance.calculateRealSteering (Collision.reporting agents)
           this steering) in
  ((forall n, In n agents -> ~ Threat.threat owner n) ->
   SteeringAcceleration.isZero out = true)
  /\ ((exists n, In n agents /\ Threat.threat owner n) ->
      exists first,
        Threat.mostImminent owner agents first
        /\ out
           = SteeringAcceleration.new
               (Vector.scale (Vector.nor (Threat.avoided owner first))
                             (- maxAcceleration)) 0
        /\ (Vector.sqrLen (Threat.avoided owner first) > 0 ->
            0 <= maxAcceleration ->
            Vector.len (SteeringAcceleration.linear out) = maxAcceleration)).
Proof.
  intros owner maxAcceleration out.
  unfold out, CollisionAvoidance.calculateRealSteering, Collision.reporting.
  set (reset := CollisionAvoidance.mk (CollisionAvoidance.self this) None None
                  0 0 (CollisionAvoidance.firstRelativePosition this)
                  (CollisionAvoidance.firstRelativeVelocity this)
                  (SteeringAcceleration.linear steering)
                  (CollisionAvoidance.relativeVelocity this)).
  assert (Hinit : Threat.scanned reset [] 0%nat).
  { unfold Threat.scanned. cbn. split; [reflexivity |].
    split; [reflexivity |]. intros n []. }
  pose proof (reportAll_scanned agents reset [] 0%nat Hinit) as Hscan.
  destruct (Neighbors.reportAll CollisionAvoidance.reportNeighbor agents reset 0)
    as [this' count].
  destruct Hscan as [Hself Hscan]. cbn [app] in Hscan.
  change (CollisionAvoidance.self reset) with (CollisionAvoidance.self this)
    in Hself.
  unfold Threat.scanned in Hscan. rewrite Hself in Hscan. fold owner in Hscan.
  destruct (CollisionAvoidance.firstNeighbor this') as [first |].
  - destruct Hscan as (Hcount & Htracks & Hmost).
    destruct (Nat.eqb_spec count 0) as [E | _]; [lia |].
    unfold Threat.tracks in Htracks. rewrite Hself in Htracks.
    fold owner in Htracks.
    destruct Htracks as (Hs & _ & Hsep & Hdist & Hrp & Hrv).
    cbn [fst]. rewrite Hself. fold owner. fold maxAcceleration.
    assert (Havoid :
      (if Rle_dec (CollisionAvoidance.firstMinSeparation this') 0
       then Vector.sub
              (Vector.copy (CollisionAvoidance.relativePosition this')
                           (Steerable.getPosition first))
              (Steerable.getPosition owner)
       else if Rlt_dec (CollisionAvoidance.firstDistance this')
                 (Steerable.getBoundingRadius owner
                  + Steerable.getBoundingRadius first)
       then Vector.sub
              (Vector.copy (CollisionAvoidance.relativePosition this')
                           (Steerable.getPosition first))
              (Steerable.getPosition owner)
       else Vector.scaleAndAdd
              (Vector.copy (CollisionAvoidance.relativePosition this')
                 (CollisionAvoidance.firstRelativePosition this'))
              (CollisionAvoidance.firstRelativeVelocity this')
              (CollisionAvoidance.shortestTimeValue this'))
      = Threat.avoided owner first).
    { unfold Threat.avoided, CollisionAvoidance.shortestTimeValue.
      rewrite Hs, Hsep, Hdist, Hrp, Hrv, !VectorLaws.copy_eq,
        VectorLaws.scaleAndAdd_eq.
      reflexivity. }
    rewrite Havoid.
    split.
    + intros Hno. destruct Hmost as (Hin & Hth & _).
      exfalso. exact (Hno first Hin Hth).
    + intros _. exists first. split; [exact Hmost |].
      split; [reflexivity |].
      intros Hpos Hmax. cbn [SteeringAcceleration.linear].
      rewrite len_scale, (len_nor _ Hpos), Rabs_Ropp, Rabs_right by lra.
      ring.
  - destruct Hscan as (_ & _ & Hno). split.
    + intros _. unfold CollisionAvoidance.returnZero. cbn [fst].
      apply setZero_isZero.
    + intros (n & Hin & Hth). exfalso. exact (Hno n Hin Hth).
Qed.

End MostImminentSteering.

Lemma headOn_threat :
  Threat.threat CollisionAvoidanceExample.runner
                CollisionAvoidanceExample.oncoming.
Proof.
  assert (Hrp : Collision.relativePosition CollisionAvoidanceExample.runner
                  CollisionAvoidanceExample.oncoming = Vector2.make 4 0).
  { apply Vector2_ext; unfold Vector2.x, Vector2.y; cbn; ring. }
  assert (Hrv : Collision.relativeVelocity CollisionAvoidanceExample.runner
                  CollisionAvoidanceExample.oncoming = Vector2.make (-2) 0).
  { apply Vector2_ext; unfold Vector2.x, Vector2.y; cbn; ring. }
  assert (Hsq : Vector.sqrLen (Vector2.make (-2) 0) = 2 * 2).
  { cbn. unfold Vector2.sqrLen, Vec2.sqrLen. cbn. ring. }
  assert (Hdot : Vector.dot (Vector2.make 4 0) (Vector2.make (-2) 0) = -8).
  { cbn. unfold Vector2.dot, Vec2.dot. cbn. ring. }
  assert (Hlen : Vector.len (Vector2.make 4 0) = 4).
  { apply Vector2_len_make; lra. }
  unfold Threat.threat, Collision.minSeparation, Collision.timeToCollision.
  rewrite Hrp, Hrv, Hsq, Hdot, Hlen, sqrt_square by lra.
  change (Steerable.getBoundingRadius CollisionAvoidanceExample.runner) with 1.
  change (Steerable.getBoundingRadius CollisionAvoidanceExample.oncoming) with 1.
  replace (- -8 / (2 * 2)) with 2 by field.
  split; [lra |]. split; lra.
Qed.

Lemma CollisionAvoidance_reportNeighbor_tracks_most_imminent_witness :
  let '(this', count) :=
    Neighbors.reportAll CollisionAvoidance.reportNeighbor
      [CollisionAvoidanceExample.oncoming] CollisionAvoidanceExample.headOn
      0%nat in
  CollisionAvoidance.self this'
  = CollisionAvoidance.self CollisionAvoidanceExample.headOn
  /\ Threat.scanned this' [CollisionAvoidanceExample.oncoming] count.
Proof.
  apply (CollisionAvoidance_reportNeighbor_tracks_most_imminent
           CollisionAvoidanceExample.headOn [CollisionAvoidanceExample.oncoming]);
    reflexivity.
Defined.

Lemma CollisionAvoidance_steers_away_from_most_imminent_witness :
  exists first,
    Threat.mostImminent CollisionAvoidanceExample.runner
      [CollisionAvoidanceExample.oncoming] first
    /\ fst (CollisionAvoidance.calculateRealSteering
              (Collision.reporting [CollisionAvoidanceExample.oncoming])
              CollisionAvoidanceExample.headOn (Examples.steering 7 7 7))
       = SteeringAcceleration.new
           (Vector.scale
              (Vector.nor (Threat.avoided CollisionAvoidanceExample.runner first))
              (- 10)) 0.
Proof.
  destruct (proj2 (CollisionAvoidance_steers_away_from_most_imminent
                     CollisionAvoidanceExample.headOn
                     [CollisionAvoidanceExample.oncoming]
                     (Examples.steering 7 7 7)))
    as (first & Hmost & Hout & _).
  - exists CollisionAvoidanceExample.oncoming.
    split; [left; reflexivity | exact headOn_threat].
  - exists first. split; [exact Hmost | exact Hout].
Defined.

(** ** [RadiusProximity]: the tags and the frame already seen *)

Section RadiusProximityTags.
Context {T : Type} `{Vector.t T}.






(** With no tagged agent the loop of a frame already seen calls nothing. *)
Lemma scanTagged_untagged {S : Type} (this : RadiusProximity.t T)
    (callback : ProximityCallback T S) (rest : list (Steerable.t T)) :
  Forall (fun a => Steerable.isTagged a = false) rest ->
  forall (s : S) (count : nat),
    RadiusProximity.scanTagged this callback rest s count = (s, count).
Proof.
  induction 1 as [| a rest Ha _ IH]; intros s count.
  - reflexivity.
  - cbn [RadiusProximity.scanTagged]. rewrite Ha, andb_false_r. apply IH.
Qed.



(** X13.  The constructor sets the last tick id to 0, so a first call
    with the tick id 0 is taken for a frame already seen: with agents that
    carry no tag, the callback is not called, whatever the distances, the
    count is 0 and nothing changes. *)
Theorem RadiusProximity_first_tick_zero_reports_nothing {S : Type}
    (owner : Steerable.t T) (agents : list (Steerable.t T)) (radius : R)
    (callback : ProximityCallback T S) (s : S) :
  Forall (fun a => Steerable.isTagged a = false) agents ->
  RadiusProximity.findNeighbors (RadiusProximity.new owner agents radius) 0
    callback s
  = (0%nat, s, RadiusProximity.new owner agents radius).
Proof.
  intros Hun. unfold RadiusProximity.findNeighbors.
  cbn [RadiusProximity.new RadiusProximity.lastTime RadiusProximity.agents].
  destruct (Req_dec_T 0 0) as [_ | n]; [| contradiction].
  rewrite (scanTagged_untagged _ callback agents Hun). reflexivity.
Qed.

End RadiusProximityTags.


(** An object listed twice has one tag.  With a callback that accepts it
    the first time and rejects it the second time, the count of the new
    frame is 1, the second visit clears the tag the first visit has set,
    and the replay of the same frame reports nothing. *)
Lemma RadiusProximity_listed_twice_example :
  let '(count1, _, this1) :=
    RadiusProximity.findNeighbors RadiusProximityExample.twice 1
      Neighbors.acceptingOnce false in
  let '(count2, log, _) :=
    RadiusProximity.findNeighbors this1 1 Neighbors.recording [] in
  count1 = 1%nat
  /\ map Steerable.isTagged (RadiusProximity.agents this1) = [false; false]
  /\ count2 = 0%nat /\ log = [].
Proof.
  assert (Hin : RadiusProximity.inRange RadiusProximityExample.twice
                  RadiusProximityExample.agent1 = true).
  { unfold RadiusProximity.inRange. cbn.
    unfold Vector2.dst2, Vec2.squaredDistance. cbn.
    destruct (Rlt_dec _ _) as [_ | Hno]; [reflexivity | exfalso].
    apply Hno. lra. }
  unfold RadiusProximity.findNeighbors at 1.
  cbn [RadiusProximityExample.twice RadiusProximity.new
       RadiusProximity.lastTime RadiusProximity.agents].
  destruct (Req_dec_T 0 1) as [E | _]; [lra |].
  cbn [RadiusProximity.scanNew].
  change (RadiusProximity.mk RadiusProximityExample.agent0
            [RadiusProximityExample.agent1; RadiusProximityExample.agent1]
            5 0)
    with RadiusProximityExample.twice.
  rewrite Hin. cbn.
  unfold RadiusProximity.findNeighbors.
  cbn [RadiusProximity.lastTime RadiusProximity.agents].
  destruct (Req_dec_T 1 1) as [_ | n]; [| contradiction].
  cbn. repeat split.
Qed.

Lemma RadiusProximity_first_tick_zero_reports_nothing_witness :
  RadiusProximity.findNeighbors RadiusProximityExample.this 0
    Neighbors.recording []
  = (0%nat, [], RadiusProximityExample.this).
Proof.
  apply (RadiusProximity_first_tick_zero_reports_nothing
           RadiusProximityExample.agent0
           [RadiusProximityExample.agent0; RadiusProximityExample.agent1;
            RadiusProximityExample.agent2] 5 Neighbors.recording []).
  repeat constructor.
Defined.

(** ** [LinePath]: segments, nearest point, distance and target position *)

Section PathConstruction.
Context {T : Type} `{Vector.t T}.

Lemma createSegments_chained (isOpen : bool) (first : T) (rest : list T) :
  forall (curr : T) (segs : list (Segment.t T)) (L : R),
    exists news : list (Segment.t T),
      LinePath.createSegments isOpen first curr rest segs L
      = (segs ++ news, PathShape.total L news)
      /\ PathShape.chained curr L news
      /\ map Segment.end_ news = (if isOpen then rest else rest ++ [first]).
Proof.
  induction rest as [| next rest IH]; intros curr segs L.
  - cbn [LinePath.createSegments]. destruct isOpen.
    + exists []. rewrite app_nil_r. repeat split.
    + exists [Segment.new curr first (L + Vector.dst curr first)].
      repeat split.
  - cbn [LinePath.createSegments].
    destruct (IH next
                (segs ++ [Segment.new curr next (L + Vector.dst curr next)])
                (L + Vector.dst curr next)) as (news & Hrun & Hchain & Hends).
    exists (Segment.new curr next (L + Vector.dst curr next) :: news).
    rewrite Hrun, <- app_assoc. split; [reflexivity |].
    split; [repeat split; exact Hchain |].
    cbn [map Segment.new Segment.end_]. rewrite Hends.
    destruct isOpen; reflexivity.
Qed.

(** X14.  From at least two waypoints [createPath] builds the segments
    that join each waypoint to the next, and on a closed path one more
    from the last waypoint back to the first: every segment begins where
    the one before ends, its length is the distance between its ends, its
    cumulative length is the running sum of the lengths, and the path
    length is their total.  [LinePath.new] stores these. *)
Theorem LinePath_createPath_chains_waypoints
    (isOpen : bool) (first second : T) (rest : list T) :
  exists segs : list (Segment.t T),
    LinePath.createPath isOpen (Some (first :: second :: rest))
    = Returns (segs, PathShape.total 0 segs)
    /\ PathShape.chained first 0 segs
    /\ map Segment.end_ segs
       = (if isOpen then second :: rest else (second :: rest) ++ [first])
    /\ length segs
       = (if isOpen then S (length rest) else S (S (length rest)))
    /\ exists this : LinePath.t T,
         LinePath.new (Some (first :: second :: rest)) isOpen = Returns this
         /\ LinePath.segments this = segs
         /\ LinePath.pathLength this = PathShape.total 0 segs
         /\ LinePath._isOpen this = isOpen.
Proof.
  destruct (createSegments_chained isOpen first (second :: rest) first [] 0)
    as (segs & Hrun & Hchain & Hends).
  exists segs.
  assert (Hcreate :
    LinePath.createPath isOpen (Some (first :: second :: rest))
    = Returns (segs, PathShape.total 0 segs)).
  { unfold LinePath.createPath.
    cbn [Datatypes.length Nat.ltb Nat.leb]. rewrite Hrun. reflexivity. }
  split; [exact Hcreate |]. split; [exact Hchain |].
  split; [exact Hends |]. split.
  - rewrite <- (length_map Segment.end_), Hends.
    destruct isOpen; [reflexivity |].
    rewrite length_app. simpl. lia.
  - unfold LinePath.new. rewrite Hcreate.
    eexists. split; [reflexivity |]. repeat split.
Qed.

End PathConstruction.

Section PathGeometry.
Context {T : Type} `{VectorLaws.t T} `{!VectorGeometry.t T}.
Variable clamp : R -> R -> R -> R.
Hypothesis clamp_clamps : PathShape.clamps clamp.

Lemma scale_setZero (v : T) (k : R) :
  Vector.scale (Vector.setZero v) k = Vector.setZero v.
Proof.
  transitivity (Vector.setZero (Vector.scale (Vector.setZero v) k));
    [| apply VectorLaws.setZero_const].
  apply VectorGeometry.sqrLen_zero.
  rewrite VectorLaws.sqrLen_scale, VectorLaws.sqrLen_setZero. ring.
Qed.

Lemma clamp_range (t : R) : 0 <= clamp t 0 1 <= 1.
Proof.
  destruct (clamp_clamps t) as (Hlo & Hmid & Hhi).
  destruct (Rlt_dec t 0) as [E | E]; [rewrite (Hlo E); lra |].
  destruct (Rlt_dec 1 t) as [E' | E']; [rewrite (Hhi E'); lra |].
  rewrite Hmid by lra. lra.
Qed.

(** The nearest point of the segment [a]-[b] to [c]. *)
Lemma pointSegment_nearest (this : LinePath.t T) (out a b c : T) :
  exists k : R,
    0 <= k <= 1
    /\ LinePathMethods.calculatePointSegmentSquareDistance clamp this out a b c
       = (Vector.dst2 (Vector.add a (Vector.scale (Vector.sub b a) k)) c,
          Vector.add a (Vector.scale (Vector.sub b a) k),
          LinePathMethods.setScratch this (Vector.sub b a)
            (if Req_dec_T (Vector.sqrLen (Vector.sub b a)) 0
             then c else Vector.sub c a))
    /\ forall s : R,
         0 <= s <= 1 ->
         Vector.dst2 (Vector.add a (Vector.scale (Vector.sub b a) k)) c
         <= Vector.dst2 (Vector.add a (Vector.scale (Vector.sub b a) s)) c.
Proof.
  unfold LinePathMethods.calculatePointSegmentSquareDistance.
  rewrite !VectorLaws.copy_eq.
  set (ab := Vector.sub b a).
  pose proof (VectorLaws.sqrLen_nonneg ab) as Hq.
  destruct (Req_dec_T (Vector.sqrLen ab) 0) as [E | E].
  - exists 0. split; [lra |].
    rewrite VectorGeometry.add_scale_0. split; [reflexivity |].
    intros s Hs. rewrite VectorGeometry.dst2_along, E.
    pose proof (VectorGeometry.dot_sqr_le (Vector.sub c a) ab) as Hcs.
    rewrite E in Hcs.
    assert (Hd : Vector.dot (Vector.sub c a) ab = 0) by nra.
    rewrite Hd. lra.
  - set (t := Vector.dot (Vector.sub c a) ab / Vector.sqrLen ab).
    exists (clamp t 0 1). split; [apply clamp_range |].
    rewrite VectorLaws.scaleAndAdd_eq. split; [reflexivity |].
    intros s Hs. rewrite !VectorGeometry.dst2_along.
    assert (Hd : Vector.dot (Vector.sub c a) ab = t * Vector.sqrLen ab)
      by (unfold t; field; exact E).
    rewrite Hd. clearbody t.
    set (q := Vector.sqrLen ab) in *. clearbody q.
    assert (Hqpos : 0 < q) by lra.
    destruct (clamp_clamps t) as (Hlo & Hmid & Hhi).
    destruct (Rlt_dec t 0) as [E0 | E0].
    + rewrite (Hlo E0).
      assert (0 <= q * s * (s - 2 * t)).
      { apply Rmult_le_pos; [apply Rmult_le_pos; lra | lra]. }
      lra.
    + destruct (Rlt_dec 1 t) as [E1 | E1].
      * rewrite (Hhi E1).
        assert (0 <= q * ((1 - s) * (2 * t - 1 - s))).
        { apply Rmult_le_pos; [lra | apply Rmult_le_pos; lra]. }
        lra.
      * rewrite Hmid by lra.
        assert (0 <= q * ((s - t) * (s - t))).
        { apply Rmult_le_pos; [lra | apply (Rle_0_sqr (s - t))]. }
        lra.
Qed.

(** X15.  [calculatePointSegmentSquareDistance] finds the nearest point
    of the segment [a]-[b] to [c]: the point it writes to [out] lies on
    the segment, the number it returns is the squared distance from that
    point to [c], and no point of the segment is nearer.  This holds of a
    segment of length zero as well, for which nothing is divided.  Only
    the two scratch vectors of the path change. *)
Theorem LinePath_nearest_point_of_segment
    (this : LinePath.t T) (out a b c : T) :
  let '(distance2, p, this') :=
    LinePathMethods.calculatePointSegmentSquareDistance clamp this out a b c in
  distance2 = Vector.dst2 p c
  /\ (exists k : R,
        0 <= k <= 1 /\ p = Vector.add a (Vector.scale (Vector.sub b a) k))
  /\ (forall s : R,
        0 <= s <= 1 ->
        distance2 <= Vector.dst2 (Vector.add a (Vector.scale (Vector.sub b a) s)) c)
  /\ (a = b -> p = a)
  /\ LinePath.segments this' = LinePath.segments this
  /\ LinePath.pathLength this' = LinePath.pathLength this
  /\ LinePath.nearestPointOnPath T this' = LinePath.nearestPointOnPath T this.
Proof.
  destruct (pointSegment_nearest this out a b c) as (k & Hk & Hrun & Hmin).
  rewrite Hrun. split; [reflexivity |].
  split; [exists k; split; [exact Hk | reflexivity] |].
  split; [exact Hmin |]. split; [| repeat split].
  intros <-. rewrite VectorLaws.sub_self.
  rewrite (scale_setZero a k), <- (scale_setZero a 0).
  apply VectorGeometry.add_scale_0.
Qed.

End PathGeometry.

Section PathDistance.
Context {T : Type} `{VectorLaws.t T} `{!VectorGeometry.t T}.
Variable clamp : R -> R -> R -> R.
Hypothesis clamp_clamps : PathShape.clamps clamp.

(** The loop of [calculateDistance] keeps the nearest point so far. *)
Lemma nearest_searched (pos : T) (rest : list (Segment.t T)) :
  forall (pre : list (Segment.t T)) (this : LinePath.t T)
         (sm : option R) (ns : option (Segment.t T)) (param : LinePathParam.t),
    PathShape.searched pre pos sm ns param (LinePath.nearestPointOnPath T this) ->
    let '(ns', param', this') :=
      LinePathMethods.nearest clamp this pos rest (length pre) sm ns param in
    LinePath.segments this' = LinePath.segments this
    /\ LinePath.pathLength this' = LinePath.pathLength this
    /\ LinePath._isOpen this' = LinePath._isOpen this
    /\ LinePathParam.distance param' = LinePathParam.distance param
    /\ exists sm' : option R,
         PathShape.searched (pre ++ rest) pos sm' ns' param'
           (LinePath.nearestPointOnPath T this').
Proof.
  induction rest as [| seg rest IH]; intros pre this sm ns param Hinv.
  - cbn [LinePathMethods.nearest]. rewrite app_nil_r.
    repeat split. exists sm. exact Hinv.
  - cbn [LinePathMethods.nearest].
    destruct (pointSegment_nearest clamp clamp_clamps this
                (LinePath.nearestPointOnCurrentSegment T this)
                (Segment.begin seg) (Segment.end_ seg) pos)
      as (k & Hk & Hrun & Hmin).
    rewrite Hrun. fold (PathShape.pointAt seg k) in *.
    replace (S (length pre)) with (length (pre ++ [seg]))
      by (rewrite length_app; simpl; lia).
    replace (pre ++ seg :: rest) with ((pre ++ [seg]) ++ rest)
      by (rewrite <- app_assoc; reflexivity).
    destruct (LinePathMethods.ltSmallest _ sm) eqn:Elt.
    + match goal with
      | |- context [LinePathMethods.nearest clamp ?t _ _ _ _ _ ?p] =>
          specialize (IH (pre ++ [seg]) t
                        (Some (Vector.dst2 (PathShape.pointAt seg k) pos))
                        (Some seg) p)
      end.
      cbn [LinePathMethods.setNearest LinePathMethods.setScratch
           LinePath.nearestPointOnPath LinePath.segments LinePath.pathLength
           LinePath._isOpen LinePath.tmpB LinePath.tmpC
           LinePath.nearestPointOnCurrentSegment] in IH.
      rewrite VectorLaws.copy_eq in IH.
      cbn [LinePathMethods.setNearest LinePathMethods.setScratch
           LinePath.nearestPointOnPath LinePath.segments LinePath.pathLength
           LinePath._isOpen LinePath.tmpB LinePath.tmpC
           LinePath.nearestPointOnCurrentSegment].
      rewrite VectorLaws.copy_eq.
      apply IH. clear IH.
      exists (length pre), k. split; [reflexivity |].
      split; [reflexivity |].
      split; [rewrite nth_error_app2, Nat.sub_diag by lia; reflexivity |].
      split; [exact Hk |]. split; [reflexivity |].
      intros seg' s' Hin Hs'. apply in_app_or in Hin as [Hin | [<- | []]].
      * unfold PathShape.searched in Hinv.
        destruct ns as [old |].
        -- destruct Hinv as (i & s & Hsm & _ & _ & _ & _ & Hold).
           rewrite Hsm in Elt. cbn in Elt.
           destruct (Rlt_dec _ _) as [Hlt |]; [| discriminate].
           specialize (Hold seg' s' Hin Hs'). lra.
        -- destruct Hinv as [_ ->]. destruct Hin.
      * pose proof (Hmin s' Hs') as Hm.
        fold (PathShape.pointAt seg s') in Hm. exact Hm.
    + match goal with
      | |- context [LinePathMethods.nearest clamp ?t _ _ _ _ _ _] =>
          specialize (IH (pre ++ [seg]) t sm ns param)
      end.
      cbn [LinePathMethods.setNearest LinePathMethods.setScratch
           LinePath.nearestPointOnPath LinePath.segments LinePath.pathLength
           LinePath._isOpen LinePath.tmpB LinePath.tmpC
           LinePath.nearestPointOnCurrentSegment] in IH.
      cbn [LinePathMethods.setNearest LinePathMethods.setScratch
           LinePath.nearestPointOnPath LinePath.segments LinePath.pathLength
           LinePath._isOpen LinePath.tmpB LinePath.tmpC
           LinePath.nearestPointOnCurrentSegment].
      apply IH. clear IH.
      unfold PathShape.searched in *.
      destruct ns as [old |].
      * destruct Hinv as (i & s & Hsm & Hidx & Hnth & Hs & Hp & Hold).
        exists i, s. split; [exact Hsm |]. split; [exact Hidx |].
        split.
        { rewrite nth_error_app1; [exact Hnth |].
          apply nth_error_Some. rewrite Hnth. discriminate. }
        split; [exact Hs |]. split; [exact Hp |].
        intros seg' s' Hin Hs'. apply in_app_or in Hin as [Hin | [<- | []]].
        -- apply Hold; assumption.
        -- rewrite Hsm in Elt. cbn in Elt.
           destruct (Rlt_dec _ _) as [| Hge]; [discriminate |].
           pose proof (Hmin s' Hs') as Hm.
           fold (PathShape.pointAt seg s') in Hm. lra.
      * destruct Hinv as [-> _]. cbn in Elt. discriminate.
Qed.

End PathDistance.

Section PathChain.
Context {T : Type} `{VectorLaws.t T} `{!VectorGeometry.t T}.

(** The point of [calculateTargetPosition] on a segment, at the distance
    [targetDistance] from the start of the path. *)
Local Abbreviation targetOn seg targetDistance :=
  (Vector.add
     (Vector.scale
        (Vector.sub (Segment.begin seg) (Segment.end_ seg))
        ((Segment.cumulativeLength seg - targetDistance) / Segment.length seg))
     (Segment.end_ seg)).

(** The distance from the start of the path to a point of a segment. *)
Local Abbreviation arc seg s :=
  (Segment.cumulativeLength seg - (1 - s) * Segment.length seg).

Local Abbreviation positive segs :=
  (Forall (fun seg : Segment.t T => 0 < Segment.length seg) segs).

Lemma total_ge (segs : list (Segment.t T)) :
  forall acc : R, positive segs -> acc <= PathShape.total acc segs.
Proof.
  induction segs as [| seg rest IH]; intros acc Hpos.
  - simpl. lra.
  - inversion Hpos as [| ? ? Hlen Hrest]; subst.
    cbn [PathShape.total fold_left]. specialize (IH (acc + Segment.length seg) Hrest).
    unfold PathShape.total in IH. lra.
Qed.

Lemma chained_nth (segs : list (Segment.t T)) :
  forall (start : T) (acc : R) (i : nat) (seg : Segment.t T),
    PathShape.chained start acc segs -> positive segs ->
    nth_error segs i = Some seg ->
    Segment.length seg = Vector.dst (Segment.begin seg) (Segment.end_ seg)
    /\ 0 < Segment.length seg
    /\ Segment.cumulativeLength seg <= PathShape.total acc segs
    /\ ((i = 0%nat /\ arc seg 0 = acc /\ Segment.begin seg = start)
        \/ (i <> 0%nat /\ acc < arc seg 0)).
Proof.
  induction segs as [| seg0 rest IH]; intros start acc i seg Hch Hpos Hnth.
  - destruct i; discriminate.
  - destruct Hch as (Hb & Hl & Hc & Hrest).
    inversion Hpos as [| ? ? Hlen Hposrest]; subst.
    destruct i as [| i].
    + injection Hnth as <-. split; [exact Hl |]. split; [exact Hlen |].
      split.
      * cbn [PathShape.total fold_left].
        pose proof (total_ge rest (acc + Segment.length seg0) Hposrest) as Ht.
        unfold PathShape.total in Ht. lra.
      * left. split; [reflexivity |]. split; [lra | reflexivity].
    + cbn [nth_error] in Hnth.
      destruct (IH _ _ i seg Hrest Hposrest Hnth) as (Hl' & Hlen' & Ht & Hprev).
      split; [exact Hl' |]. split; [exact Hlen' |]. split.
      * cbn [PathShape.total fold_left]. rewrite <- Hc. exact Ht.
      * right. split; [discriminate |].
        destruct Hprev as [(_ & Hp & _) | (_ & Hp)]; lra.
Qed.

Lemma dst_pointAt_end (seg : Segment.t T) (s : R) :
  s <= 1 ->
  Segment.length seg = Vector.dst (Segment.begin seg) (Segment.end_ seg) ->
  Vector.dst (PathShape.pointAt seg s) (Segment.end_ seg)
  = (1 - s) * Segment.length seg.
Proof.
  intros Hs Hl. rewrite Hl, !VectorGeometry.dst_dst2. unfold PathShape.pointAt.
  rewrite VectorGeometry.dst2_along_end.
  rewrite sqrt_mult_alt by nra.
  rewrite sqrt_square by lra. reflexivity.
Qed.

Lemma targetOn_pointAt (seg : Segment.t T) (td : R) :
  0 < Segment.length seg ->
  arc seg 0 <= td <= Segment.cumulativeLength seg ->
  exists s : R,
    0 <= s <= 1 /\ targetOn seg td = PathShape.pointAt seg s /\ arc seg s = td.
Proof.
  intros Hlen Htd.
  set (r := (Segment.cumulativeLength seg - td) / Segment.length seg).
  assert (Hr : r * Segment.length seg = Segment.cumulativeLength seg - td)
    by (unfold r; field; lra).
  exists (1 - r). split.
  - split; nra.
  - split.
    + unfold PathShape.pointAt. rewrite <- VectorGeometry.along_reverse.
      replace (1 - (1 - r)) with r by ring. reflexivity.
    + nra.
Qed.

Lemma targetOn_arc (seg : Segment.t T) (s : R) :
  0 < Segment.length seg ->
  targetOn seg (arc seg s) = PathShape.pointAt seg s.
Proof.
  intros Hlen. unfold PathShape.pointAt.
  rewrite <- VectorGeometry.along_reverse. f_equal. f_equal. field. lra.
Qed.

(** The walk of [calculateTargetPosition] stops at a segment that holds
    the target distance. *)
Lemma desired_in_range (segs : list (Segment.t T)) :
  forall (start : T) (acc td : R),
    PathShape.chained start acc segs -> positive segs -> segs <> [] ->
    acc <= td <= PathShape.total acc segs ->
    exists seg : Segment.t T,
      LinePathMethods.desired segs td = Some seg
      /\ In seg segs
      /\ 0 < Segment.length seg
      /\ arc seg 0 <= td <= Segment.cumulativeLength seg.
Proof.
  induction segs as [| seg0 rest IH]; intros start acc td Hch Hpos Hne Htd.
  - contradiction.
  - destruct Hch as (Hb & Hl & Hc & Hrest).
    inversion Hpos as [| ? ? Hlen Hposrest]; subst.
    cbn [LinePathMethods.desired].
    destruct (Rge_dec (Segment.cumulativeLength seg0) td) as [Hge | Hlt].
    + exists seg0. split; [reflexivity |]. split; [left; reflexivity |].
      split; [exact Hlen |]. lra.
    + cbn [PathShape.total fold_left] in Htd. rewrite <- Hc in Htd.
      assert (Hne' : rest <> []).
      { intros ->. simpl in Htd. lra. }
      destruct (IH _ (Segment.cumulativeLength seg0) td Hrest Hposrest Hne')
        as (seg & Hd & Hin & Hlen' & Hr); [unfold PathShape.total; lra |].
      exists seg. split; [exact Hd |]. split; [right; exact Hin |].
      split; [exact Hlen' | exact Hr].
Qed.

(** The walk for the whole length stops at the last segment. *)
Lemma desired_total (rest : list (Segment.t T)) :
  forall (first : Segment.t T) (start : T) (acc : R),
    PathShape.chained start acc (first :: rest) -> positive (first :: rest) ->
    LinePathMethods.desired (first :: rest)
      (PathShape.total acc (first :: rest))
    = Some (last rest first)
    /\ Segment.cumulativeLength (last rest first)
       = PathShape.total acc (first :: rest).
Proof.
  induction rest as [| second rest IH]; intros first start acc Hch Hpos.
  - destruct Hch as (_ & _ & Hc & _).
    cbn [LinePathMethods.desired PathShape.total fold_left last].
    destruct (Rge_dec _ _) as [_ | n]; [| lra]. split; [reflexivity | lra].
  - destruct Hch as (_ & _ & Hc & Hrest).
    inversion Hpos as [| ? ? Hlen Hposrest]; subst.
    destruct (IH second _ _ Hrest Hposrest) as [Hd Hlast].
    cbn [LinePathMethods.desired].
    assert (Ht : PathShape.total acc (first :: second :: rest)
                 = PathShape.total (Segment.cumulativeLength first)
                     (second :: rest)).
    { cbn [PathShape.total fold_left]. rewrite Hc. reflexivity. }
    rewrite Ht.
    destruct (Rge_dec (Segment.cumulativeLength first) _) as [Hge | _].
    + exfalso. inversion Hposrest as [| ? ? Hlen2 Hpos2]; subst.
      destruct Hrest as (_ & _ & Hc2 & _).
      pose proof (total_ge rest (Segment.cumulativeLength second) Hpos2) as Hm.
      cbn [PathShape.total fold_left] in Hge. rewrite <- Hc2 in Hge.
      unfold PathShape.total in Hm. lra.
    + rewrite last_cons. exact (conj Hd Hlast).
Qed.

(** The walk for the distance of a point of the path stops at a segment
    on which [calculateTargetPosition] gives back that point. *)
Lemma desired_roundtrip (segs : list (Segment.t T)) :
  forall (start : T) (acc : R) (i : nat) (seg : Segment.t T) (s : R),
    PathShape.chained start acc segs -> positive segs ->
    nth_error segs i = Some seg -> 0 <= s <= 1 ->
    i = 0%nat \/ acc < arc seg s ->
    exists seg' : Segment.t T,
      LinePathMethods.desired segs (arc seg s) = Some seg'
      /\ targetOn seg' (arc seg s) = PathShape.pointAt seg s.
Proof.
  induction segs as [| seg0 rest IH];
    intros start acc i seg s Hch Hpos Hnth Hs Hfar.
  - destruct i; discriminate.
  - destruct Hch as (Hb & Hl & Hc & Hrest).
    inversion Hpos as [| ? ? Hlen Hposrest]; subst.
    cbn [LinePathMethods.desired].
    destruct i as [| i].
    + injection Hnth as <-.
      destruct (Rge_dec _ _) as [_ | n]; [| nra].
      exists seg0. split; [reflexivity | apply targetOn_arc, Hlen].
    + cbn [nth_error] in Hnth.
      destruct (chained_nth rest _ _ i seg Hrest Hposrest Hnth)
        as (Hl' & Hlen' & _ & Hprev).
      destruct (Rge_dec (Segment.cumulativeLength seg0) (arc seg s))
        as [Hge | Hlt].
      * exists seg0. split; [reflexivity |].
        destruct Hprev as [(_ & Hp & Hbegin) | (_ & Hp)]; [| nra].
        assert (Hs0 : s = 0) by nra. subst s.
        rewrite Hp.
        replace ((Segment.cumulativeLength seg0 - Segment.cumulativeLength seg0)
                 / Segment.length seg0) with 0 by (unfold Rdiv; ring).
        rewrite VectorGeometry.add_zero_scale. unfold PathShape.pointAt.
        rewrite VectorGeometry.add_scale_0. symmetry. exact Hbegin.
      * apply (IH _ _ i seg s Hrest Hposrest Hnth Hs). right. lra.
Qed.

End PathChain.

(** On a negative dividend and a positive divisor the remainder lies
    between minus the divisor and 0. *)
Lemma rem_neg_bounds (a b : R) : a < 0 -> 0 < b -> - b < JS.rem a b <= 0.
Proof.
  intros Ha Hb. unfold JS.rem, JS.trunc.
  assert (Hq : a / b < 0).
  { assert (Hinv : 0 < / b) by (apply Rinv_0_lt_compat; exact Hb).
    unfold Rdiv. nra. }
  destruct (Rle_dec 0 (a / b)) as [E | _]; [lra |].
  destruct (base_Int_part (- (a / b))) as [Hlo Hhi].
  rewrite opp_IZR.
  assert (Ea : a = b * (a / b)) by (field; lra).
  set (n := IZR (Int_part (- (a / b)))) in *.
  set (q := a / b) in *. clearbody n q.
  split; nra.
Qed.

Section PathTarget.
Context {T : Type} `{VectorLaws.t T} `{!VectorGeometry.t T}.

Lemma wellFormed_length_pos (this : LinePath.t T) :
  PathShape.wellFormed this -> 0 < LinePath.pathLength this.
Proof.
  intros (Hch & HL & Hpos). rewrite HL.
  destruct (LinePath.segments this) as [| first rest]; [contradiction |].
  inversion Hpos as [| ? ? Hlen Hrest]; subst.
  cbn [PathShape.total fold_left].
  pose proof (total_ge rest (0 + Segment.length first) Hrest) as Ht.
  unfold PathShape.total in Ht. lra.
Qed.

Lemma wrapDistance_range (this : LinePath.t T) (targetDistance : R) :
  0 < LinePath.pathLength this ->
  0 <= LinePathMethods.wrapDistance this targetDistance
    <= LinePath.pathLength this.
Proof.
  intros HL. unfold LinePathMethods.wrapDistance.
  destruct (LinePath._isOpen this).
  - destruct (Rlt_dec targetDistance 0); [lra |].
    destruct (Rgt_dec targetDistance (LinePath.pathLength this)); lra.
  - destruct (Rlt_dec targetDistance 0) as [Hneg | Hnn].
    + pose proof (rem_neg_bounds targetDistance _ Hneg HL). lra.
    + destruct (Rgt_dec targetDistance (LinePath.pathLength this)).
      * pose proof (rem_bounds targetDistance (LinePath.pathLength this)).
        lra.
      * lra.
Qed.

Lemma wrapDistance_inside (this : LinePath.t T) (targetDistance : R) :
  0 <= targetDistance <= LinePath.pathLength this ->
  LinePathMethods.wrapDistance this targetDistance = targetDistance.
Proof.
  intros Htd. unfold LinePathMethods.wrapDistance.
  destruct (LinePath._isOpen this);
    destruct (Rlt_dec targetDistance 0); try lra;
    destruct (Rgt_dec targetDistance (LinePath.pathLength this)); lra.
Qed.

(** [calculateTargetPosition] returns the point of a segment at the
    wrapped distance from the start of the path. *)
Lemma targetPosition_on_path
    (this : LinePath.t T) (out : T) (param : LinePathParam.t)
    (targetDistance : R) :
  PathShape.wellFormed this ->
  exists (seg : Segment.t T) (s : R),
    In seg (LinePath.segments this)
    /\ 0 <= s <= 1
    /\ LinePathMethods.calculateTargetPosition this out param targetDistance
       = Returns (PathShape.pointAt seg s)
    /\ Segment.cumulativeLength seg - (1 - s) * Segment.length seg
       = LinePathMethods.wrapDistance this targetDistance.
Proof.
  intros Hwf.
  pose proof (wellFormed_length_pos this Hwf) as HL.
  pose proof (wrapDistance_range this targetDistance HL) as Hrange.
  destruct Hwf as (Hch & Htot & Hpos).
  unfold LinePathMethods.calculateTargetPosition.
  destruct (LinePath.segments this) as [| first rest] eqn:Esegs;
    [contradiction |].
  destruct (desired_in_range (first :: rest) _ 0
              (LinePathMethods.wrapDistance this targetDistance) Hch Hpos)
    as (seg & Hd & Hin & Hlen & Hr); [discriminate | lra |].
  destruct (targetOn_pointAt seg _ Hlen Hr) as (s & Hs & Hpt & Harc).
  exists seg, s. split; [exact Hin |]. split; [exact Hs |].
  rewrite Hd, VectorLaws.copy_eq, Hpt. split; [reflexivity | exact Harc].
Qed.

(** X16.  On a path whose segments follow one another with positive
    lengths, [calculateTargetPosition] always returns a point of the
    path: the target distance is first brought between 0 and the path
    length (it is kept when it is there already), and the point returned
    lies on a segment at exactly that distance from the start, measured
    along the path.  On an open path a distance of 0 or less gives the
    start point and a distance of the path length or more gives the end
    point. *)
Theorem LinePath_calculateTargetPosition_on_path
    (this : LinePath.t T) (out : T) (param : LinePathParam.t)
    (targetDistance : R) :
  PathShape.wellFormed this ->
  let wrapped := LinePathMethods.wrapDistance this targetDistance in
  0 <= wrapped <= LinePath.pathLength this
  /\ (0 <= targetDistance <= LinePath.pathLength this ->
      wrapped = targetDistance)
  /\ (exists (seg : Segment.t T) (s : R),
        In seg (LinePath.segments this)
        /\ 0 <= s <= 1
        /\ LinePathMethods.calculateTargetPosition this out param targetDistance
           = Returns (PathShape.pointAt seg s)
        /\ Segment.cumulativeLength seg - (1 - s) * Segment.length seg
           = wrapped)
  /\ (LinePath._isOpen this = true -> targetDistance <= 0 ->
      LinePathMethods.calculateTargetPosition this out param targetDistance
      = LinePathMethods.getStartPoint this)
  /\ (LinePath._isOpen this = true ->
      LinePath.pathLength this <= targetDistance ->
      LinePathMethods.calculateTargetPosition this out param targetDistance
      = LinePathMethods.getEndPoint this).
Proof.
  intros Hwf wrapped.
  pose proof (wellFormed_length_pos this Hwf) as HL.
  pose proof (wrapDistance_range this targetDistance HL) as Hrange.
  fold wrapped in Hrange.
  split; [exact Hrange |].
  split; [apply wrapDistance_inside |].
  split; [exact (targetPosition_on_path this out param targetDistance Hwf) |].
  destruct Hwf as (Hch & Htot & Hpos).
  unfold LinePathMethods.calculateTargetPosition,
    LinePathMethods.getStartPoint, LinePathMethods.getEndPoint.
  fold wrapped.
  destruct (LinePath.segments this) as [| first rest] eqn:Esegs;
    [contradiction |].
  split.
  - intros Hopen Htd.
    assert (Hw : wrapped = 0).
    { unfold wrapped, LinePathMethods.wrapDistance. rewrite Hopen.
      destruct (Rlt_dec targetDistance 0); [reflexivity |].
      destruct (Rgt_dec targetDistance (LinePath.pathLength this)); lra. }
    rewrite Hw. cbn [LinePathMethods.desired].
    destruct Hch as (_ & _ & Hc & _).
    inversion Hpos as [| ? ? Hlen _]; subst.
    destruct (Rge_dec (Segment.cumulativeLength first) 0) as [_ | n]; [| lra].
    rewrite VectorLaws.copy_eq.
    replace ((Segment.cumulativeLength first - 0) / Segment.length first)
      with 1 by (rewrite Hc; field; lra).
    rewrite VectorLaws.scale_1, VectorGeometry.add_sub. reflexivity.
  - intros Hopen Htd.
    assert (Hw : wrapped = PathShape.total 0 (first :: rest)).
    { unfold wrapped, LinePathMethods.wrapDistance. rewrite Hopen, <- Htot.
      destruct (Rlt_dec targetDistance 0); [lra |].
      destruct (Rgt_dec targetDistance (LinePath.pathLength this)); lra. }
    rewrite Hw.
    destruct (desired_total rest first _ 0 Hch Hpos) as [Hd Hlast].
    rewrite Hd, Hlast, VectorLaws.copy_eq.
    replace ((PathShape.total 0 (first :: rest)
              - PathShape.total 0 (first :: rest))
             / Segment.length (last rest first)) with 0
      by (unfold Rdiv; ring).
    rewrite VectorGeometry.add_zero_scale. reflexivity.
Qed.

End PathTarget.

Section PathRoundTrip.
Context {T : Type} `{VectorLaws.t T} `{!VectorGeometry.t T}.
Variable clamp : R -> R -> R -> R.
Hypothesis clamp_clamps : PathShape.clamps clamp.

(** [calculateDistance] on a path with a segment. *)
Lemma calculateDistance_nearest (this : LinePath.t T) (pos : T)
    (param : LinePathParam.t) :
  LinePath.segments this <> [] ->
  exists (this' : LinePath.t T) (i : nat) (seg : Segment.t T) (s : R),
    let p := LinePath.nearestPointOnPath T this' in
    let d := Segment.cumulativeLength seg - Vector.dst p (Segment.end_ seg) in
    LinePathMethods.calculateDistance clamp this pos param
    = Returns (d, LinePathParam.mk (Some i) (Some d), this')
    /\ PathShape.nearestAt (LinePath.segments this) pos i seg s p
    /\ LinePath.segments this' = LinePath.segments this
    /\ LinePath.pathLength this' = LinePath.pathLength this
    /\ LinePath._isOpen this' = LinePath._isOpen this.
Proof.
  intros Hne. unfold LinePathMethods.calculateDistance.
  pose proof (nearest_searched clamp clamp_clamps pos (LinePath.segments this)
                [] this None None param) as Hloop.
  cbn [length app] in Hloop.
  destruct (LinePathMethods.nearest clamp this pos (LinePath.segments this)
              0%nat None None param) as [[ns param'] this'].
  destruct Hloop as (Hsegs & Hlen & Hopen & _ & sm' & Hsearched);
    [split; reflexivity |].
  unfold PathShape.searched in Hsearched.
  destruct ns as [seg |]; [| destruct Hsearched as [_ E]; contradiction].
  destruct Hsearched as (i & s & _ & Hidx & Hnear).
  exists this', i, seg, s. cbv zeta.
  split; [| split; [exact Hnear | repeat split; assumption]].
  unfold LinePathParam.setDistance. rewrite Hidx. reflexivity.
Qed.

(** X17.  With no segment [calculateDistance] throws.  Otherwise it finds
    the point of the whole path nearest to the given position: the point
    it leaves in [nearestPointOnPath] lies on the segment whose index it
    stores in the parameter, no point of any segment is nearer to the
    position, and the distance it returns and stores is the cumulative
    length of that segment less the distance from the point to the end of
    the segment. *)
Theorem LinePath_calculateDistance_nearest_point
    (this : LinePath.t T) (pos : T) (param : LinePathParam.t) :
  (LinePath.segments this = [] ->
   LinePathMethods.calculateDistance clamp this pos param
   = Throws Messages.typeError)
  /\ (LinePath.segments this <> [] ->
      exists (d : R) (param' : LinePathParam.t) (this' : LinePath.t T)
             (i : nat) (seg : Segment.t T) (s : R),
        LinePathMethods.calculateDistance clamp this pos param
        = Returns (d, param', this')
        /\ LinePathParam.getSegmentIndex param' = Some i
        /\ LinePathParam.getDistance param' = Some d
        /\ PathShape.nearestAt (LinePath.segments this) pos i seg s
             (LinePath.nearestPointOnPath T this')
        /\ d = Segment.cumulativeLength seg
               - Vector.dst (LinePath.nearestPointOnPath T this')
                            (Segment.end_ seg)
        /\ LinePath.segments this' = LinePath.segments this).
Proof.
  split.
  - intros E. unfold LinePathMethods.calculateDistance. rewrite E. reflexivity.
  - intros Hne.
    destruct (calculateDistance_nearest this pos param Hne)
      as (this' & i & seg & s & Hrun & Hnear & Hsegs & _).
    cbv zeta in Hrun.
    eexists _, _, this', i, seg, s.
    split; [exact Hrun |]. split; [reflexivity |]. split; [reflexivity |].
    split; [exact Hnear |]. split; [reflexivity | exact Hsegs].
Qed.

(** The distance of the nearest point, and the way back to it. *)
Lemma distance_roundtrip
    (this : LinePath.t T) (pos : T) (param : LinePathParam.t) :
  PathShape.wellFormed this ->
  exists (d : R) (param' : LinePathParam.t) (this' : LinePath.t T),
    LinePathMethods.calculateDistance clamp this pos param
    = Returns (d, param', this')
    /\ 0 <= d <= LinePath.pathLength this
    /\ (forall (out : T) (param'' : LinePathParam.t),
          LinePathMethods.calculateTargetPosition this' out param'' d
          = Returns (LinePath.nearestPointOnPath T this'))
    /\ (forall (seg : Segment.t T) (s : R),
          In seg (LinePath.segments this) -> 0 <= s <= 1 ->
          Vector.dst2 (LinePath.nearestPointOnPath T this') pos
          <= Vector.dst2 (PathShape.pointAt seg s) pos)
    /\ PathShape.wellFormed this'
    /\ LinePath.segments this' = LinePath.segments this
    /\ LinePath.pathLength this' = LinePath.pathLength this
    /\ LinePath._isOpen this' = LinePath._isOpen this.
Proof.
  intros Hwf. pose proof Hwf as (Hch & Htot & Hpos).
  assert (Hne : LinePath.segments this <> []).
  { intros E. rewrite E in Hch. exact Hch. }
  destruct (calculateDistance_nearest this pos param Hne)
    as (this' & i & seg & s & Hrun & Hnear & Hsegs & Hlen & Hopen).
  cbv zeta in Hrun.
  destruct Hnear as (Hnth & Hs & Hp & Hnearest).
  assert (Hwf' : PathShape.wellFormed this').
  { unfold PathShape.wellFormed. rewrite Hsegs, Hlen. exact Hwf. }
  destruct (LinePath.segments this) as [| first rest] eqn:Esegs;
    [contradiction |].
  destruct (chained_nth (first :: rest) _ 0 i seg Hch Hpos Hnth)
    as (Hl & Hlenpos & Hle & Hprev).
  assert (Hd : Segment.cumulativeLength seg
               - Vector.dst (LinePath.nearestPointOnPath T this')
                            (Segment.end_ seg)
               = Segment.cumulativeLength seg - (1 - s) * Segment.length seg).
  { rewrite Hp, dst_pointAt_end by (lra || exact Hl). reflexivity. }
  rewrite Hd in Hrun.
  eexists _, _, this'. split; [exact Hrun |].
  assert (Hbounds :
    0 <= Segment.cumulativeLength seg - (1 - s) * Segment.length seg
      <= LinePath.pathLength this).
  { rewrite Htot. destruct Hprev as [(_ & Hp0 & _) | (_ & Hp0)]; nra. }
  split; [exact Hbounds |].
  split; [| split; [exact Hnearest |];
            split; [exact Hwf' |]; split; [exact Hsegs |];
            split; [exact Hlen | exact Hopen]].
  intros out param''. unfold LinePathMethods.calculateTargetPosition.
  rewrite wrapDistance_inside by (rewrite Hlen; exact Hbounds).
  rewrite Hsegs.
  destruct (desired_roundtrip (first :: rest) _ 0 i seg s Hch Hpos Hnth Hs)
    as (seg' & Hdes & Htarget).
  { destruct Hprev as [(Hi & _) | (_ & Hp0)]; [left; exact Hi | right; nra]. }
  rewrite Hdes, VectorLaws.copy_eq, Htarget, Hp. reflexivity.
Qed.

(** X18.  On a path whose segments follow one another with positive
    lengths, the distance [calculateDistance] returns lies between 0 and
    the path length, and [calculateTargetPosition] at that distance gives
    back the nearest point [calculateDistance] has found. *)
Theorem LinePath_distance_then_target_is_nearest_point
    (this : LinePath.t T) (pos : T) (param : LinePathParam.t) :
  PathShape.wellFormed this ->
  exists (d : R) (param' : LinePathParam.t) (this' : LinePath.t T),
    LinePathMethods.calculateDistance clamp this pos param
    = Returns (d, param', this')
    /\ 0 <= d <= LinePath.pathLength this
    /\ forall (out : T) (param'' : LinePathParam.t),
         LinePathMethods.calculateTargetPosition this' out param'' d
         = Returns (LinePath.nearestPointOnPath T this').
Proof.
  intros Hwf.
  destruct (distance_roundtrip this pos param Hwf)
    as (d & param' & this' & Hrun & Hbounds & Hback & _).
  exists d, param', this'. split; [exact Hrun |].
  split; [exact Hbounds | exact Hback].
Qed.

End PathRoundTrip.

(** *** The example path *)

Lemma Vector2_dst_make (a b c d l : R) :
  0 <= l -> (c - a) * (c - a) + (d - b) * (d - b) = l * l ->
  Vector.dst (Vector2.make a b) (Vector2.make c d) = l.
Proof.
  intros Hl E. cbn. unfold Vector2.dst, Vec2.distance, Vec2.squaredDistance,
    JS.sqrt. cbn.
  rewrite E. apply sqrt_square. exact Hl.
Qed.

Lemma PathExample_clamps : PathShape.clamps PathShape.clamp.
Proof.
  intros t. unfold PathShape.clamp.
  destruct (Rlt_dec t 0); [repeat split; intros; lra |].
  destruct (Rgt_dec t 1); repeat split; intros; lra.
Qed.

(** The example path is the one the constructor builds. *)
Lemma PathExample_new :
  LinePath.new (Some PathExample.waypoints) true = Returns PathExample.this.
Proof.
  unfold LinePath.new, LinePath.createPath, PathExample.waypoints.
  cbn [Datatypes.length Nat.ltb Nat.leb LinePath.createSegments app].
  unfold Segment.new.
  rewrite (Vector2_dst_make 0 0 3 0 3), (Vector2_dst_make 3 0 3 4 4)
    by (lra || ring).
  unfold PathExample.this. f_equal. f_equal.
  - f_equal; [f_equal; ring | f_equal; f_equal; ring].
  - ring.
Qed.

Lemma PathExample_wellFormed : PathShape.wellFormed PathExample.this.
Proof.
  unfold PathShape.wellFormed, PathExample.this.
  cbn [LinePath.segments LinePath.pathLength PathShape.chained PathShape.total
       fold_left Segment.begin Segment.end_ Segment.length
       Segment.cumulativeLength].
  rewrite (Vector2_dst_make 0 0 3 0 3), (Vector2_dst_make 3 0 3 4 4)
    by (lra || ring).
  split; [repeat split; ring |]. split; [ring |].
  repeat constructor; cbn; lra.
Qed.

Lemma LinePath_nearest_point_of_segment_witness :
  let '(distance2, p, _) :=
    LinePathMethods.calculatePointSegmentSquareDistance PathShape.clamp
      PathExample.this (Vector2.make 0 0) (Vector2.make 0 0) (Vector2.make 3 0)
      (Vector2.make 1 1) in
  distance2 = Vector.dst2 p (Vector2.make 1 1).
Proof.
  pose proof (LinePath_nearest_point_of_segment PathShape.clamp
                PathExample_clamps PathExample.this (Vector2.make 0 0)
                (Vector2.make 0 0) (Vector2.make 3 0) (Vector2.make 1 1)) as P.
  destruct (LinePathMethods.calculatePointSegmentSquareDistance PathShape.clamp
              PathExample.this (Vector2.make 0 0) (Vector2.make 0 0)
              (Vector2.make 3 0) (Vector2.make 1 1)) as [[distance2 p] this'].
  destruct P as (P & _). exact P.
Defined.

Lemma LinePath_calculateDistance_nearest_point_witness :
  exists (d : R) (param' : LinePathParam.t) (this' : LinePath.t Vector2.t),
    LinePathMethods.calculateDistance PathShape.clamp PathExample.this
      (Vector2.make 1 1) LinePathParam.new
    = Returns (d, param', this')
    /\ LinePathParam.getDistance param' = Some d.
Proof.
  destruct (proj2 (LinePath_calculateDistance_nearest_point PathShape.clamp
                     PathExample_clamps PathExample.this (Vector2.make 1 1)
                     LinePathParam.new))
    as (d & param' & this' & i & seg & s & Hrun & _ & Hd & _).
  - discriminate.
  - exists d, param', this'. split; [exact Hrun | exact Hd].
Defined.

Lemma LinePath_calculateTargetPosition_on_path_witness :
  LinePathMethods.calculateTargetPosition PathExample.this (Vector2.make 9 9)
    LinePathParam.new (- 5)
  = LinePathMethods.getStartPoint PathExample.this.
Proof.
  destruct (LinePath_calculateTargetPosition_on_path PathExample.this
              (Vector2.make 9 9) LinePathParam.new (- 5)
              PathExample_wellFormed) as (_ & _ & _ & Hstart & _).
  apply Hstart; [reflexivity | lra].
Defined.

Lemma LinePath_distance_then_target_is_nearest_point_witness :
  exists (d : R) (param' : LinePathParam.t) (this' : LinePath.t Vector2.t),
    LinePathMethods.calculateDistance PathShape.clamp PathExample.this
      (Vector2.make 1 1) LinePathParam.new
    = Returns (d, param', this')
    /\ LinePathMethods.calculateTargetPosition this' (Vector2.make 9 9)
         param' d
       = Returns (LinePath.nearestPointOnPath Vector2.t this').
Proof.
  destruct (LinePath_distance_then_target_is_nearest_point PathShape.clamp
              PathExample_clamps PathExample.this (Vector2.make 1 1)
              LinePathParam.new PathExample_wellFormed)
    as (d & param' & this' & Hrun & _ & Hback).
  exists d, param', this'. split; [exact Hrun | apply Hback].
Defined.

(** ** [RaycastObstacleAvoidance] *)

Section RaycastProperties.
Context {T : Type} `{VectorLaws.t T} `{!VectorGeometry.t T}.

Lemma stable_hits (detector : Utils.RaycastCollisionDetector T)
    (ray : Utils.Ray.t T) (b : Utils.Collision.t T) :
  RayShape.stable detector ->
  (fst (detector b ray) = false -> forall c, ~ RayShape.hits detector ray c)
  /\ (fst (detector b ray) = true ->
      forall c, RayShape.hits detector ray c -> c = snd (detector b ray)).
Proof.
  intros Hst. split.
  - intros Hf c [b' Hc]. destruct (Hst b b' ray) as [E _].
    rewrite Hc, Hf in E. discriminate.
  - intros Ht c [b' Hc]. destruct (Hst b b' ray) as [_ E].
    rewrite (E Ht), Hc. reflexivity.
Qed.

(** The loop keeps the nearest collision found so far. *)
Lemma process_cast (detector : Utils.RaycastCollisionDetector T) (pos : T)
    (rays : list (Utils.Ray.t T)) :
  RayShape.stable detector ->
  forall (seen : list (Utils.Ray.t T)) (min : option R)
         (out minOut : Utils.Collision.t T),
    RayShape.cast detector pos seen min minOut ->
    let '(min', _, minOut') :=
      RaycastObstacleAvoidance.process detector pos rays min out minOut in
    RayShape.cast detector pos (seen ++ rays) min' minOut'.
Proof.
  intros Hst.
  induction rays as [| ray rest IH]; intros seen min out minOut Hinv.
  - cbn [RaycastObstacleAvoidance.process]. rewrite app_nil_r. exact Hinv.
  - cbn [RaycastObstacleAvoidance.process].
    replace (seen ++ ray :: rest) with ((seen ++ [ray]) ++ rest)
      by (rewrite <- app_assoc; reflexivity).
    destruct (stable_hits detector ray out Hst) as [Hmiss Hhit].
    destruct (detector out ray) as [collided out1] eqn:Edet.
    cbn [fst snd] in Hmiss, Hhit.
    destruct collided.
    + specialize (Hhit eq_refl).
      destruct (RaycastObstacleAvoidance.ltMin _ min) eqn:Elt.
      * apply IH. unfold RayShape.cast. split; [reflexivity |].
        split.
        { exists ray. split; [apply in_or_app; right; left; reflexivity |].
          exists out. exact Edet. }
        intros ray' c Hin Hc.
        apply in_app_or in Hin as [Hin | [<- | []]].
        -- unfold RayShape.cast in Hinv. destruct min as [d |].
           ++ destruct Hinv as (_ & _ & Hall). cbn in Elt.
              destruct (Rlt_dec _ d) as [Hlt |]; [| discriminate].
              specialize (Hall ray' c Hin Hc). lra.
           ++ exfalso. exact (Hinv ray' c Hin Hc).
        -- rewrite (Hhit c Hc). lra.
      * apply IH. unfold RayShape.cast in *. destruct min as [d |];
          [| cbn in Elt; discriminate].
        destruct Hinv as (Hd & (r0 & Hin0 & Hr0) & Hall).
        cbn in Elt. destruct (Rlt_dec _ d) as [| Hge]; [discriminate |].
        split; [exact Hd |]. split.
        { exists r0. split; [apply in_or_app; left; exact Hin0 | exact Hr0]. }
        intros ray' c Hin Hc.
        apply in_app_or in Hin as [Hin | [<- | []]].
        -- exact (Hall ray' c Hin Hc).
        -- rewrite (Hhit c Hc). lra.
    + specialize (Hmiss eq_refl).
      apply IH. unfold RayShape.cast in *. destruct min as [d |].
      * destruct Hinv as (Hd & (r0 & Hin0 & Hr0) & Hall).
        split; [exact Hd |]. split.
        { exists r0. split; [apply in_or_app; left; exact Hin0 | exact Hr0]. }
        intros ray' c Hin Hc.
        apply in_app_or in Hin as [Hin | [<- | []]].
        -- exact (Hall ray' c Hin Hc).
        -- exfalso. exact (Hmiss c Hc).
      * intros ray' c Hin Hc.
        apply in_app_or in Hin as [Hin | [<- | []]].
        -- exact (Hinv ray' c Hin Hc).
        -- exact (Hmiss c Hc).
Qed.

(** X19.  With a detector whose answer does not depend on the former
    content of the output collision, [RaycastObstacleAvoidance] returns
    zero when no ray hits an obstacle.  Otherwise it keeps, among the
    collisions of the rays, one nearest to the owner, and seeks the point
    at the bounding radius of the owner plus [distanceFromBoundary] from
    the collision point along the normal: the output has no angular part,
    and its linear part is the normalised vector from the owner to that
    point scaled by [maxLinearAcceleration], of magnitude the cap whenever
    that point is not the owner's position. *)
Theorem RaycastObstacleAvoidance_seeks_away_from_nearest_collision
    (this : RaycastObstacleAvoidance.t T) (steering : SteeringAcceleration.t T) :
  let self := RaycastObstacleAvoidance.self this in
  let owner := SteeringBehavior.owner self in
  let pos := Steerable.getPosition owner in
  let detector := RaycastObstacleAvoidance.raycastCollisionDetector this in
  let rays := RaycastObstacleAvoidance.inputRays this in
  let maxAcceleration :=
    Limiter.getMaxLinearAcceleration (SteeringBehavior.getActualLimiter self) in
  let margin :=
    Steerable.getBoundingRadius owner
    + RaycastObstacleAvoidance.distanceFromBoundary this in
  let '(out, this') := RaycastObstacleAvoidance.calculateRealSteering this steering in
  RayShape.stable detector ->
  ((forall ray c, In ray rays -> ~ RayShape.hits detector ray c) ->
   SteeringAcceleration.isZero out = true)
  /\ ((exists ray c, In ray rays /\ RayShape.hits detector ray c) ->
      let nearest := RaycastObstacleAvoidance.minOutputCollision this' in
      let toClear := Vector.sub (RayShape.clearPoint nearest margin) pos in
      (exists ray, In ray rays /\ RayShape.hits detector ray nearest)
      /\ (forall ray c,
            In ray rays -> RayShape.hits detector ray c ->
            Vector.dst2 pos (Utils.Collision.point nearest)
            <= Vector.dst2 pos (Utils.Collision.point c))
      /\ out = SteeringAcceleration.new
                 (Vector.scale (Vector.nor toClear) maxAcceleration) 0
      /\ (Vector.sqrLen toClear > 0 -> 0 <= maxAcceleration ->
          Vector.len (SteeringAcceleration.linear out) = maxAcceleration)).
Proof.
  intros self owner pos detector rays maxAcceleration margin.
  unfold RaycastObstacleAvoidance.calculateRealSteering.
  fold self. fold owner. fold pos. fold detector. fold rays.
  pose proof (process_cast detector pos rays) as Hloop.
  destruct (RaycastObstacleAvoidance.process detector pos rays None
              (RaycastObstacleAvoidance.outputCollision this)
              (RaycastObstacleAvoidance.minOutputCollision this))
    as [[min out1] minOut] eqn:Eproc.
  destruct min as [d |]; intros Hst.
  - specialize (Hloop Hst [] None
                  (RaycastObstacleAvoidance.outputCollision this)
                  (RaycastObstacleAvoidance.minOutputCollision this)).
    rewrite Eproc in Hloop. cbn [app] in Hloop.
    destruct Hloop as (Hd & Hfrom & Hall); [intros ray c [] |].
    split.
    + intros Hno. destruct Hfrom as (ray & Hin & Hc).
      exfalso. exact (Hno ray _ Hin Hc).
    + intros _. cbn [RaycastObstacleAvoidance.minOutputCollision].
      split; [exact Hfrom |]. split.
      { intros ray c Hin Hc. rewrite <- Hd. exact (Hall ray c Hin Hc). }
      cbn [RaycastObstacleAvoidance.self
           RaycastObstacleAvoidance.distanceFromBoundary].
      fold self. fold owner. fold pos. fold maxAcceleration. fold margin.
      rewrite VectorLaws.copy_eq, VectorLaws.scaleAndAdd_eq.
      fold (RayShape.clearPoint minOut margin).
      split; [reflexivity |].
      intros Hpos Hmax. cbn [SteeringAcceleration.linear].
      rewrite len_scale, (len_nor _ Hpos), Rabs_right by lra. ring.
  - specialize (Hloop Hst [] None
                  (RaycastObstacleAvoidance.outputCollision this)
                  (RaycastObstacleAvoidance.minOutputCollision this)).
    rewrite Eproc in Hloop. cbn [app] in Hloop.
    assert (Hnone : forall ray c, In ray rays -> ~ RayShape.hits detector ray c)
      by (apply Hloop; intros ray c []).
    split.
    + intros _. apply setZero_isZero.
    + intros (ray & c & Hin & Hc). exfalso. exact (Hnone ray c Hin Hc).
Qed.

End RaycastProperties.

Lemma RaycastExample_stable : RayShape.stable RaycastExample.wall.
Proof.
  intros b b' ray. unfold RaycastExample.wall.
  destruct (Rgt_dec _ 2); split; try reflexivity. discriminate.
Qed.

Lemma RaycastObstacleAvoidance_seeks_away_from_nearest_collision_witness :
  let '(out, this') :=
    RaycastObstacleAvoidance.calculateRealSteering RaycastExample.this
      (Examples.steering 7 7 7) in
  exists ray,
    In ray [RaycastExample.ray]
    /\ RayShape.hits RaycastExample.wall ray
         (RaycastObstacleAvoidance.minOutputCollision this').
Proof.
  pose proof (RaycastObstacleAvoidance_seeks_away_from_nearest_collision
                RaycastExample.this (Examples.steering 7 7 7)) as P.
  cbv zeta in P.
  destruct (RaycastObstacleAvoidance.calculateRealSteering RaycastExample.this
              (Examples.steering 7 7 7)) as [out this'].
  destruct (P RaycastExample_stable) as (_ & Hsome).
  destruct Hsome as (Hfrom & _).
  - exists RaycastExample.ray,
      (Utils.Collision.new (Vector2.make 2 0) (Vector2.make (-1) 0)).
    split; [left; reflexivity |].
    exists (Utils.Collision.new (Vector2.make 0 0) (Vector2.make 0 0)).
    change (RaycastObstacleAvoidance.raycastCollisionDetector
              RaycastExample.this) with RaycastExample.wall.
    unfold RaycastExample.wall, RaycastExample.ray.
    change (Vector2.x (Utils.Ray.end_
                         (Utils.Ray.new (Vector2.make 0 0) (Vector2.make 3 0))))
      with 3.
    destruct (Rgt_dec 3 2); [reflexivity | lra].
  - exact Hfrom.
Defined.

(** ** [SingleRayConfiguration] *)

Section SingleRayProperties.
Context {T : Type} `{VectorLaws.t T} `{!VectorGeometry.t T}.

(** X20.  [updateRays] of a configuration with its ray returns one ray
    from the position of the owner along its velocity: the ray ends at the
    position plus the normalised velocity times the length, so the
    distance between its ends is the absolute value of the length when the
    owner moves, and the ray is reduced to a point when the owner is at
    rest.  The configuration keeps the ray, and with no ray at all the
    call throws. *)
Theorem SingleRayConfiguration_ray_along_velocity
    (owner : Steerable.t T) (ray0 : Utils.Ray.t T)
    (rest : list (Utils.Ray.t T)) (length : R) :
  let position := Steerable.getPosition owner in
  let velocity := Steerable.getLinearVelocity owner in
  let ray :=
    Utils.Ray.new position
      (Vector.add (Vector.scale (Vector.nor velocity) length) position) in
  SingleRayConfiguration.updateRays
    (SingleRayConfiguration.mk owner (ray0 :: rest) length)
  = Returns (ray :: rest, SingleRayConfiguration.mk owner (ray :: rest) length)
  /\ SingleRayConfiguration.updateRays
       (SingleRayConfiguration.mk owner (ray :: rest) length)
     = Returns (ray :: rest, SingleRayConfiguration.mk owner (ray :: rest) length)
  /\ (Vector.sqrLen velocity > 0 ->
      Vector.dst (Utils.Ray.start ray) (Utils.Ray.end_ ray) = JS.abs length)
  /\ (Vector.isZero velocity = true ->
      Utils.Ray.end_ ray = Utils.Ray.start ray)
  /\ SingleRayConfiguration.updateRays
       (SingleRayConfiguration.mk owner [] length)
     = Throws Messages.typeError.
Proof.
  intros position velocity ray.
  assert (Hrun : forall r0,
    SingleRayConfiguration.updateRays
      (SingleRayConfiguration.mk owner (r0 :: rest) length)
    = Returns (ray :: rest,
               SingleRayConfiguration.mk owner (ray :: rest) length)).
  { intros r0. unfold SingleRayConfiguration.updateRays.
    cbn [SingleRayConfiguration.rays SingleRayConfiguration.owner
         SingleRayConfiguration.length].
    rewrite !VectorLaws.copy_eq. reflexivity. }
  split; [apply Hrun |]. split; [apply Hrun |]. split; [| split].
  - intros Hpos. cbn [ray Utils.Ray.start Utils.Ray.end_].
    rewrite VectorGeometry.dst_dst2, VectorGeometry.dst2_sub,
      VectorGeometry.sub_add_r, <- VectorLaws.len_sqrLen.
    rewrite len_scale, (len_nor velocity Hpos). unfold JS.abs. ring.
  - intros Hz. cbn [ray Utils.Ray.start Utils.Ray.end_].
    apply VectorGeometry.isZero_iff in Hz.
    rewrite (nor_zero velocity Hz).
    rewrite (VectorGeometry.sqrLen_zero velocity Hz).
    rewrite (scale_setZero velocity length).
    apply VectorGeometry.add_setZero.
  - reflexivity.
Qed.

End SingleRayProperties.

Lemma SingleRayConfiguration_ray_along_velocity_witness :
  exists ray : Utils.Ray.t Vector2.t,
    SingleRayConfiguration.updateRays SingleRayExample.this
    = Returns ([ray],
               SingleRayConfiguration.mk SeekExample.moving [ray] 2)
    /\ Vector.dst (Utils.Ray.start ray) (Utils.Ray.end_ ray) = JS.abs 2.
Proof.
  destruct (SingleRayConfiguration_ray_along_velocity SeekExample.moving
              (Utils.Ray.new (Vector2.make 0 0) (Vector2.make 0 0)) [] 2)
    as (Hrun & _ & Hlen & _).
  eexists. split; [exact Hrun |].
  apply Hlen.
  change (Vector2.sqrLen (Vector2.make 3 4) > 0). vec2_simpl. lra.
Defined.

(** ** [Jump]: the behavior *)

Section JumpSteeringProperties.
Context {T : Type} `{VectorLaws.t T}.










End JumpSteeringProperties.



(** ** [BlendedSteering]: what the limiter does to the sum *)

Section BlendedCaps.
Context {T W : Type} `{VectorLaws.t T}.

(** X22.  The output of an enabled [BlendedSteering] with a non-negative
    linear cap: its linear part has magnitude at most
    [maxLinearAcceleration], and its angular part is the smaller of the
    weighted sum of the children's angular outputs and
    [maxAngularAcceleration], so it is bounded from above only. *)
Theorem BlendedSteering_linear_capped_angular_bounded_above
    (this : BlendedSteering.t T W) (w : W) (out0 : SteeringAcceleration.t T) :
  SteeringBehavior.isEnabled (BlendedSteering.self this) = true ->
  let limiter := SteeringBehavior.getActualLimiter (BlendedSteering.self this) in
  let weighted :=
    combine
      (map fst
         (Children.outputs
            (map BehaviorAndWeight.behavior (BlendedSteering.list this)) w
            (BlendedSteering.steering this)))
      (map BehaviorAndWeight.weight (BlendedSteering.list this)) in
  0 <= Limiter.getMaxLinearAcceleration limiter ->
  let '(out, _, _) := BlendedSteering.calculateSteering this w out0 in
  Vector.len (SteeringAcceleration.linear out)
  <= Limiter.getMaxLinearAcceleration limiter
  /\ SteeringAcceleration.angular out
     = Rmin (Children.angularSum weighted)
            (Limiter.getMaxAngularAcceleration limiter)
  /\ SteeringAcceleration.angular out
     <= Limiter.getMaxAngularAcceleration limiter.
Proof.
  intros Hen limiter weighted Hmax.
  pose proof (BlendedSteering_weighted_sum_clamped this w out0 Hen) as P.
  cbv zeta in P. fold limiter in P. fold weighted in P.
  destruct (BlendedSteering.calculateSteering this w out0) as [[out this'] w'].
  destruct P as (Hlin & _ & _ & Hle & Hgt).
  split; [rewrite Hlin; apply limit_len_cap, Hmax |].
  unfold Rmin.
  destruct (Rle_dec (Children.angularSum weighted)
              (Limiter.getMaxAngularAcceleration limiter)) as [E | E].
  - rewrite (Hle E). split; [reflexivity | exact E].
  - rewrite Hgt by lra. split; [reflexivity | lra].
Qed.

End BlendedCaps.

Lemma BlendedSteering_linear_capped_angular_bounded_above_witness :
  let '(out, _, _) :=
    BlendedSteering.calculateSteering BlendedExample.pushing tt
      (Examples.steering 7 7 7) in
  Vector.len (SteeringAcceleration.linear out) <= 5
  /\ SteeringAcceleration.angular out <= 1.
Proof.
  pose proof (@BlendedSteering_linear_capped_angular_bounded_above
                Vector2.t unit _ _ BlendedExample.pushing tt
                (Examples.steering 7 7 7) eq_refl) as P.
  cbv zeta in P.
  destruct (BlendedSteering.calculateSteering BlendedExample.pushing tt
              (Examples.steering 7 7 7)) as [[out this'] w'].
  destruct P as (Hlin & _ & Hang).
  - change (0 <= 5). lra.
  - split; [exact Hlin | exact Hang].
Defined.

(** ** [FollowPath] *)

Section FollowPathProperties.
Context {T : Type} `{VectorLaws.t T} `{!VectorGeometry.t T}.
Variable clamp : R -> R -> R -> R.
Hypothesis clamp_clamps : PathShape.clamps clamp.

Lemma len_nor_le_1 (v : T) : Vector.len (Vector.nor v) <= 1.
Proof.
  destruct (sqrLen_pos_or_zero v) as [Hpos | Hz].
  - rewrite (len_nor v Hpos). lra.
  - rewrite (nor_zero v Hz), (len_zero v Hz). lra.
Qed.

Lemma arrive_capped (this : Arrive.t T) (steering : SteeringAcceleration.t T)
    (targetPosition : T) :
  let maxAcceleration :=
    Limiter.getMaxLinearAcceleration
      (SteeringBehavior.getActualLimiter (Arrive.self this)) in
  let out := Arrive.arrive this steering targetPosition in
  SteeringAcceleration.angular out = 0
  /\ (0 <= maxAcceleration ->
      Vector.len (SteeringAcceleration.linear out) <= maxAcceleration).
Proof.
  intros maxAcceleration out. unfold out, Arrive.arrive.
  destruct (Rle_dec _ (Arrive.arrivalTolerance this)).
  - split; [reflexivity |]. intros Hmax. cbn.
    rewrite len_zero by apply VectorLaws.sqrLen_setZero. exact Hmax.
  - cbv zeta. split; [reflexivity |]. intros Hmax. cbn.
    apply limit_len_cap. exact Hmax.
Qed.

Lemma follow_on_path (this : FollowPath.t T)
    (steering : SteeringAcceleration.t T) (location : T) :
  PathShape.wellFormed (FollowPath.path this) ->
  let maxAcceleration :=
    Limiter.getMaxLinearAcceleration
      (SteeringBehavior.getActualLimiter (Arrive.self (FollowPath.super this))) in
  exists (out : SteeringAcceleration.t T) (this' : FollowPath.t T),
    FollowPath.follow clamp this steering location = Returns (out, this')
    /\ (exists (seg : Segment.t T) (s : R),
          In seg (LinePath.segments (FollowPath.path this))
          /\ 0 <= s <= 1
          /\ FollowPath.internalTargetPosition this' = PathShape.pointAt seg s)
    /\ (FollowPath.pathOffset this = 0 ->
        forall (seg : Segment.t T) (s : R),
          In seg (LinePath.segments (FollowPath.path this)) -> 0 <= s <= 1 ->
          Vector.dst2 (FollowPath.internalTargetPosition this') location
          <= Vector.dst2 (PathShape.pointAt seg s) location)
    /\ SteeringAcceleration.angular out = 0
    /\ (0 <= maxAcceleration ->
        Vector.len (SteeringAcceleration.linear out) <= maxAcceleration).
Proof.
  intros Hwf maxAcceleration.
  destruct (distance_roundtrip clamp clamp_clamps (FollowPath.path this)
              location (FollowPath.pathParam this) Hwf)
    as (d & param' & path' & Hrun & Hbounds & Hback & Hnearest & Hwf' & Hsegs
        & Hlen & Hopen).
  destruct (targetPosition_on_path path'
              (FollowPath.internalTargetPosition this) param'
              (d + FollowPath.pathOffset this) Hwf')
    as (seg & s & Hin & Hs & Hret & _).
  unfold FollowPath.follow. rewrite Hrun. cbv zeta. rewrite Hret.
  assert (Hnear : FollowPath.pathOffset this = 0 ->
            forall (seg' : Segment.t T) (s' : R),
              In seg' (LinePath.segments (FollowPath.path this)) ->
              0 <= s' <= 1 ->
              Vector.dst2 (PathShape.pointAt seg s) location
              <= Vector.dst2 (PathShape.pointAt seg' s') location).
  { intros Hoff seg' s' Hin' Hs'. rewrite Hoff, Rplus_0_r, Hback in Hret.
    injection Hret as Hret. rewrite <- Hret. apply Hnearest; assumption. }
  rewrite Hsegs in Hin.
  match goal with
  | |- context [if ?c then Returns _ else Returns _] => destruct c
  end.
  - eexists _, _. split; [reflexivity |].
    split; [exists seg, s; repeat split; try assumption; apply Hs |].
    split; [exact Hnear |].
    apply arrive_capped.
  - eexists _, _. split; [reflexivity |].
    split; [exists seg, s; repeat split; try assumption; apply Hs |].
    split; [exact Hnear |].
    split; [reflexivity |].
    intros Hmax. unfold FollowPath.seek. cbn [SteeringAcceleration.linear].
    fold maxAcceleration. rewrite len_scale, Rabs_right by lra.
    pose proof (len_nor_le_1
                  (Vector.sub
                     (Vector.copy (SteeringAcceleration.linear steering)
                                  (PathShape.pointAt seg s))
                     (Steerable.getPosition
                        (SteeringBehavior.owner
                           (Arrive.self (FollowPath.super this)))))) as Hn.
    pose proof (len_nonneg
                  (Vector.nor
                     (Vector.sub
                        (Vector.copy (SteeringAcceleration.linear steering)
                                     (PathShape.pointAt seg s))
                        (Steerable.getPosition
                           (SteeringBehavior.owner
                              (Arrive.self (FollowPath.super this))))))) as Hp.
    nra.
Qed.

(** X23.  On a path whose segments follow one another with positive
    lengths, [FollowPath] never throws and aims at a point of the path:
    the internal target position it stores lies on a segment.  With no
    offset and no prediction that point is the point of the path nearest
    to the owner.  The output has no angular part, and for a non-negative
    cap its linear part is within [maxLinearAcceleration], whether the
    behavior arrives or seeks. *)
Theorem FollowPath_aims_at_point_of_path
    (this : FollowPath.t T) (steering : SteeringAcceleration.t T) :
  PathShape.wellFormed (FollowPath.path this) ->
  let self := Arrive.self (FollowPath.super this) in
  let position := Steerable.getPosition (SteeringBehavior.owner self) in
  let maxAcceleration :=
    Limiter.getMaxLinearAcceleration (SteeringBehavior.getActualLimiter self) in
  exists (out : SteeringAcceleration.t T) (this' : FollowPath.t T),
    FollowPath.calculateRealSteering clamp this steering = Returns (out, this')
    /\ (exists (seg : Segment.t T) (s : R),
          In seg (LinePath.segments (FollowPath.path this))
          /\ 0 <= s <= 1
          /\ FollowPath.internalTargetPosition this' = PathShape.pointAt seg s)
    /\ (FollowPath.pathOffset this = 0 -> FollowPath.predictionTime this = 0 ->
        forall (seg : Segment.t T) (s : R),
          In seg (LinePath.segments (FollowPath.path this)) -> 0 <= s <= 1 ->
          Vector.dst2 (FollowPath.internalTargetPosition this') position
          <= Vector.dst2 (PathShape.pointAt seg s) position)
    /\ SteeringAcceleration.angular out = 0
    /\ (Arrive.timeToTarget (FollowPath.super this) <> 0 ->
        0 <= Arrive.arrivalTolerance (FollowPath.super this) ->
        0 <= maxAcceleration ->
        Vector.len (SteeringAcceleration.linear out) <= maxAcceleration).
Proof.
  intros Hwf self position maxAcceleration.
  unfold FollowPath.calculateRealSteering. fold self. fold position.
  destruct (Req_dec_T (FollowPath.predictionTime this) 0) as [E | E].
  - destruct (follow_on_path this steering position Hwf)
      as (out & this' & Hrun & Hon & Hnear & Hang & Hcap).
    exists out, this'. split; [exact Hrun |]. split; [exact Hon |].
    split; [intros Hoff _; exact (Hnear Hoff) |].
    split; [exact Hang | intros _ _; exact Hcap].
  - cbv zeta.
    match goal with
    | |- context [FollowPath.follow clamp this ?st ?loc] =>
        destruct (follow_on_path this st loc Hwf)
          as (out & this' & Hrun & Hon & _ & Hang & Hcap)
    end.
    exists out, this'. split; [exact Hrun |]. split; [exact Hon |].
    split; [intros _ Hpred; contradiction |].
    split; [exact Hang | intros _ _; exact Hcap].
Qed.

End FollowPathProperties.

Lemma FollowPath_aims_at_point_of_path_witness :
  exists (out : SteeringAcceleration.t Vector2.t)
         (this' : FollowPath.t Vector2.t),
    FollowPath.calculateRealSteering PathShape.clamp FollowPathExample.this
      (Examples.steering 7 7 7)
    = Returns (out, this')
    /\ SteeringAcceleration.angular out = 0.
Proof.
  destruct (FollowPath_aims_at_point_of_path PathShape.clamp
              PathExample_clamps FollowPathExample.this
              (Examples.steering 7 7 7) PathExample_wellFormed)
    as (out & this' & Hrun & _ & _ & Hang & _).
  exists out, this'. split; [exact Hrun | exact Hang].
Defined.

(** ** [Wander] *)

Section WanderProperties.
Context {T : Type} `{VectorLaws.t T} `{!VectorGeometry.t T}.

Lemma dst_add_scale (c u : T) (r : R) :
  Vector.dst (Vector.add c (Vector.scale u r)) c = Rabs r * Vector.len u.
Proof.
  rewrite VectorGeometry.dst_dst2, VectorGeometry.dst2_sym,
    VectorGeometry.dst2_sub, VectorGeometry.sub_add, <- VectorLaws.len_sqrLen.
  apply len_scale.
Qed.

(** X24.  One evaluation of [Wander], for an owner whose [angleToVector]
    gives vectors of length 1, two draws in [0, 1) and a positive wander
    rate times delta.  The wander orientation moves by less than the rate
    times delta.  The centre of the wander circle is at the distance
    [wanderOffset] from the owner, and the internal target position lies
    on the circle of radius [wanderRadius] around that centre.  With
    facing enabled the linear output is the direction of the owner scaled
    to [maxLinearAcceleration]; in both modes its magnitude is at most the
    cap, and without facing the angular output is zero. *)
Theorem Wander_target_on_wander_circle
    (this : Wander.t T) (delta r1 r2 : R) (steering : SteeringAcceleration.t T) :
  let self := ReachOrientation.self (Face.super (Wander.super this)) in
  let owner := SteeringBehavior.owner self in
  let maxAcceleration :=
    Limiter.getMaxLinearAcceleration (SteeringBehavior.getActualLimiter self) in
  let '(out, this') := Wander.calculateRealSteering this delta r1 r2 steering in
  (forall (v : T) (a : R), Vector.len (Wander.angleToVector this v a) = 1) ->
  0 <= r1 < 1 -> 0 <= r2 < 1 -> 0 < Wander.wanderRate this * delta ->
  0 <= maxAcceleration ->
  JS.abs (Wander.wanderOrientation this' - Wander.wanderOrientation this)
  < Wander.wanderRate this * delta
  /\ Vector.dst (Wander.wanderCenter this') (Steerable.getPosition owner)
     = JS.abs (Wander.wanderOffset this)
  /\ Vector.dst (Wander.internalTargetPosition this') (Wander.wanderCenter this')
     = JS.abs (Wander.wanderRadius this)
  /\ Vector.len (SteeringAcceleration.linear out) <= maxAcceleration
  /\ (Wander.faceEnabled this = true ->
      Vector.len (SteeringAcceleration.linear out) = maxAcceleration)
  /\ (Wander.faceEnabled this = false -> SteeringAcceleration.angular out = 0).
Proof.
  intros self owner maxAcceleration.
  unfold Wander.calculateRealSteering. cbv zeta.
  fold self. fold owner. fold maxAcceleration.
  destruct (Wander.faceEnabled this) eqn:Eface;
    intros Hunit Hr1 Hr2 Hrate Hmax;
    cbn [Wander.wanderOrientation Wander.wanderCenter
         Wander.internalTargetPosition SteeringAcceleration.linear
         SteeringAcceleration.angular];
    rewrite !VectorLaws.copy_eq, !VectorLaws.scaleAndAdd_eq, !dst_add_scale,
      !Hunit, !Rmult_1_r;
    (split;
     [ unfold JS.abs, randomTriangular;
       replace (Wander.wanderOrientation this
                + (r1 - r2) * (Wander.wanderRate this * delta)
                - Wander.wanderOrientation this)
         with ((r1 - r2) * (Wander.wanderRate this * delta)) by ring;
       apply Rabs_def1; nra
     | split; [reflexivity |]; split; [reflexivity |] ]).
  - rewrite len_scale, Hunit, Rabs_right by lra.
    split; [lra |]. split; [intros _; ring | discriminate].
  - rewrite len_scale, Rabs_right by lra.
    match goal with
    | |- context [Vector.nor ?v] =>
        pose proof (len_nor_le_1 v) as Hn;
        pose proof (len_nonneg (Vector.nor v)) as Hp
    end.
    split; [nra |]. split; [discriminate | reflexivity].
Qed.

End WanderProperties.

Lemma Wander_target_on_wander_circle_witness :
  let '(out, this') :=
    Wander.calculateRealSteering WanderExample.this (1 / 2) (3 / 4) (1 / 4)
      (Examples.steering 7 7 7) in
  Vector.dst (Wander.internalTargetPosition this') (Wander.wanderCenter this')
  = JS.abs 1
  /\ Vector.len (SteeringAcceleration.linear out) = 5.
Proof.
  pose proof (Wander_target_on_wander_circle WanderExample.this (1 / 2)
                (3 / 4) (1 / 4) (Examples.steering 7 7 7)) as P.
  cbv zeta in P.
  destruct (Wander.calculateRealSteering WanderExample.this (1 / 2) (3 / 4)
              (1 / 4) (Examples.steering 7 7 7)) as [out this'].
  destruct P as (_ & _ & Hcircle & _ & Hfull & _).
  - intros v a. change (Vector2.len (Vector2.make 1 0) = 1).
    apply Vector2_len_make; lra.
  - lra.
  - lra.
  - change (0 < 2 * (1 / 2)). lra.
  - change (0 <= 5). lra.
  - split; [exact Hcircle | apply Hfull; reflexivity].
Defined.

(** ** [ParallelSideRayConfiguration], [CentralRayWithWhiskersConfiguration] *)

Section RayConfigurationProperties.
Context {T : Type} `{VectorLaws.t T} `{!VectorGeometry.t T}.

Lemma dst_scale_add (u c : T) (r : R) :
  Vector.dst c (Vector.add (Vector.scale u r) c) = Rabs r * Vector.len u.
Proof.
  rewrite VectorGeometry.dst_dst2, VectorGeometry.dst2_sub,
    VectorGeometry.sub_add_r, <- VectorLaws.len_sqrLen.
  apply len_scale.
Qed.

(** X25.  [updateRays] of a configuration with its two rays returns two
    parallel rays: from its start to its end each ray is the normalised
    velocity of the owner times the length, though the first ray is
    completed after the second has copied its direction.  For an owner
    whose [angleToVector] gives vectors of length 1, both rays start at
    the distance [sideOffset] from the position of the owner.  With fewer
    than two rays the call throws. *)
Theorem ParallelSideRayConfiguration_rays_are_parallel
    (this : ParallelSideRayConfiguration.t T) (ray0 ray1 : Utils.Ray.t T)
    (rest : list (Utils.Ray.t T)) :
  ParallelSideRayConfiguration.rays this = ray0 :: ray1 :: rest ->
  let owner := ParallelSideRayConfiguration.owner this in
  let direction :=
    Vector.scale (Vector.nor (Steerable.getLinearVelocity owner))
                 (ParallelSideRayConfiguration.length this) in
  exists (first second : Utils.Ray.t T)
         (this' : ParallelSideRayConfiguration.t T),
    ParallelSideRayConfiguration.updateRays this
    = Returns (first :: second :: rest, this')
    /\ ParallelSideRayConfiguration.rays this' = first :: second :: rest
    /\ Vector.sub (Utils.Ray.end_ first) (Utils.Ray.start first) = direction
    /\ Vector.sub (Utils.Ray.end_ second) (Utils.Ray.start second) = direction
    /\ ((forall (v : T) (a : R),
           Vector.len (ParallelSideRayConfiguration.angleToVector this v a) = 1) ->
        Vector.dst (Steerable.getPosition owner) (Utils.Ray.start first)
        = JS.abs (ParallelSideRayConfiguration.sideOffset this)
        /\ Vector.dst (Steerable.getPosition owner) (Utils.Ray.start second)
           = JS.abs (ParallelSideRayConfiguration.sideOffset this)).
Proof.
  intros Hrays owner direction.
  unfold ParallelSideRayConfiguration.updateRays. rewrite Hrays. cbv zeta.
  fold owner. rewrite !VectorLaws.copy_eq. fold direction.
  eexists _, _, _. split; [reflexivity |]. split; [reflexivity |].
  cbn [Utils.Ray.start Utils.Ray.end_].
  split; [apply VectorGeometry.sub_add_r |].
  split; [apply VectorGeometry.sub_add_r |].
  intros Hunit. rewrite !dst_scale_add, !Hunit. unfold JS.abs.
  split; ring.
Qed.

(** X26.  [updateRays] of a configuration with its three rays returns
    three rays from the position of the owner: the central one ends at the
    position plus the normalised velocity times [rayLength], so its length
    is the absolute value of [rayLength] when the owner moves; for an owner
    whose [angleToVector] gives vectors of length 1, the two whiskers have
    the length [whiskerLength].  With fewer than three rays the call
    throws. *)
Theorem CentralRayWithWhiskersConfiguration_rays_from_owner
    (this : CentralRayWithWhiskersConfiguration.t T)
    (ray0 ray1 ray2 : Utils.Ray.t T) (rest : list (Utils.Ray.t T)) :
  CentralRayWithWhiskersConfiguration.rays this = ray0 :: ray1 :: ray2 :: rest ->
  let owner := CentralRayWithWhiskersConfiguration.owner this in
  let position := Steerable.getPosition owner in
  exists (central left right : Utils.Ray.t T)
         (this' : CentralRayWithWhiskersConfiguration.t T),
    CentralRayWithWhiskersConfiguration.updateRays this
    = Returns (central :: left :: right :: rest, this')
    /\ CentralRayWithWhiskersConfiguration.rays this'
       = central :: left :: right :: rest
    /\ Utils.Ray.start central = position
    /\ Utils.Ray.start left = position
    /\ Utils.Ray.start right = position
    /\ Utils.Ray.end_ central
       = Vector.add
           (Vector.scale (Vector.nor (Steerable.getLinearVelocity owner))
                         (CentralRayWithWhiskersConfiguration.rayLength this))
           position
    /\ (Vector.sqrLen (Steerable.getLinearVelocity owner) > 0 ->
        Vector.dst (Utils.Ray.start central) (Utils.Ray.end_ central)
        = JS.abs (CentralRayWithWhiskersConfiguration.rayLength this))
    /\ ((forall (v : T) (a : R),
           Vector.len
             (CentralRayWithWhiskersConfiguration.angleToVector this v a) = 1) ->
        Vector.dst (Utils.Ray.start left) (Utils.Ray.end_ left)
        = JS.abs (CentralRayWithWhiskersConfiguration.whiskerLength this)
        /\ Vector.dst (Utils.Ray.start right) (Utils.Ray.end_ right)
           = JS.abs (CentralRayWithWhiskersConfiguration.whiskerLength this)).
Proof.
  intros Hrays owner position.
  unfold CentralRayWithWhiskersConfiguration.updateRays.
  rewrite Hrays. cbv zeta. fold owner. fold position.
  rewrite !VectorLaws.copy_eq.
  eexists _, _, _, _. split; [reflexivity |]. split; [reflexivity |].
  cbn [Utils.Ray.start Utils.Ray.end_].
  split; [reflexivity |]. split; [reflexivity |]. split; [reflexivity |].
  split; [reflexivity |]. split.
  - intros Hpos. rewrite dst_scale_add, (len_nor _ Hpos). unfold JS.abs. ring.
  - intros Hunit. rewrite !dst_scale_add, !Hunit. unfold JS.abs. split; ring.
Qed.

End RayConfigurationProperties.

Lemma ParallelSideRayConfiguration_rays_are_parallel_witness :
  exists (first second : Utils.Ray.t Vector2.t)
         (this' : ParallelSideRayConfiguration.t Vector2.t),
    ParallelSideRayConfiguration.updateRays RaysExample.parallel
    = Returns ([first; second], this')
    /\ Vector.sub (Utils.Ray.end_ first) (Utils.Ray.start first)
       = Vector.sub (Utils.Ray.end_ second) (Utils.Ray.start second).
Proof.
  destruct (ParallelSideRayConfiguration_rays_are_parallel RaysExample.parallel
              RaysExample.zeroRay RaysExample.zeroRay [] eq_refl)
    as (first & second & this' & Hrun & _ & H1 & H2 & _).
  exists first, second, this'. split; [exact Hrun |].
  rewrite H1, H2. reflexivity.
Defined.

Lemma CentralRayWithWhiskersConfiguration_rays_from_owner_witness :
  exists (central left right : Utils.Ray.t Vector2.t)
         (this' : CentralRayWithWhiskersConfiguration.t Vector2.t),
    CentralRayWithWhiskersConfiguration.updateRays RaysExample.whiskers
    = Returns ([central; left; right], this')
    /\ Utils.Ray.start left = Vector2.make 9 9
    /\ Utils.Ray.start right = Vector2.make 9 9.
Proof.
  destruct (CentralRayWithWhiskersConfiguration_rays_from_owner
              RaysExample.whiskers RaysExample.zeroRay RaysExample.zeroRay
              RaysExample.zeroRay [] eq_refl)
    as (central & left & right & this' & Hrun & _ & _ & Hl & Hr & _).
  exists central, left, right, this'.
  split; [exact Hrun |]. split; [exact Hl | exact Hr].
Defined.

(** ** [LinePath]: the ends of the path *)

Section PathEnds.
Context {T : Type} `{Vector.t T}.

Lemma end_of_last (segs : list (Segment.t T)) :
  forall (seg0 : Segment.t T) (d : T),
    Segment.end_ (last segs seg0)
    = last (map Segment.end_ (seg0 :: segs)) d.
Proof.
  induction segs as [| seg1 rest IH]; intros seg0 d.
  - reflexivity.
  - rewrite last_cons. rewrite (IH seg1 d).
    cbn [map]. rewrite (last_cons (map Segment.end_ rest)).
    symmetry. rewrite last_cons, last_cons. reflexivity.
Qed.

(** X27.  A path built from at least two waypoints starts at the first
    waypoint.  An open path ends at the last waypoint; a closed path ends
    at the first waypoint, where it started. *)
Theorem LinePath_start_and_end_points
    (isOpen : bool) (first second : T) (rest : list T) :
  exists this : LinePath.t T,
    LinePath.new (Some (first :: second :: rest)) isOpen = Returns this
    /\ LinePathMethods.getStartPoint this = Returns first
    /\ LinePathMethods.getEndPoint this
       = Returns (if isOpen then last rest second else first).
Proof.
  destruct (createSegments_chained isOpen first (second :: rest) first [] 0)
    as (segs & Hrun & Hchain & Hends).
  unfold LinePath.new, LinePath.createPath.
  cbn [Datatypes.length Nat.ltb Nat.leb]. rewrite Hrun. cbn [app].
  eexists. split; [reflexivity |].
  unfold LinePathMethods.getStartPoint, LinePathMethods.getEndPoint.
  cbn [LinePath.segments].
  destruct segs as [| seg0 segs].
  - destruct isOpen; discriminate.
  - destruct Hchain as (Hbegin & _). rewrite Hbegin.
    split; [reflexivity |].
    rewrite (end_of_last segs seg0 first), Hends.
    destruct isOpen.
    + rewrite last_cons. reflexivity.
    + rewrite last_last. reflexivity.
Qed.

End PathEnds.
